(** * ProjectCyan: research-cycle state machine and strategy evaluation engine

    A shallow embedding of [app/agent/graph.py], [app/trading-engine/features.py],
    [app/trading-engine/data.py] (the part [run_backtest] calls) and
    [app/trading-engine/backtester.py], followed by the properties of the
    specification that were checked against it.

    Conventions.
    - A Python [float] is a binary64 value: Rocq's primitive [float], whose
      operations round exactly as CPython's do.  Literals such as [0.12] denote
      the nearest binary64 value, as they do in Python.
    - A Python [int] is a [Z].
    - A Python [str] is a [string]; characters are code points below 256.
    - Code that can raise returns a [result]; the exception is the error value.
    - The collaborators that live outside the repository (the chat model, the
      tool executor, the exchange client, the indicator library, LightGBM,
      vectorbt, SHAP, numpy's mean) are section variables: every theorem holds
      for whatever they return.  So is the order in which the interpreter
      iterates over a set.
    - A function that stands for a range of lines of a longer function takes
      the values those lines start from as its arguments. *)

From Stdlib Require Import ZArith Floats Uint63 String Ascii List Bool Lia.
From stdpp Require Import gmap strings list sorting.

Set Warnings "-inexact-float".
Set Default Proof Using "Type".

Local Open Scope string_scope.
Local Open Scope list_scope.
Local Open Scope Z_scope.

(* ================================================================== *)
(** * Part I.  Definitions *)
(* ================================================================== *)

(** ** Exceptions and fallible computations *)

Inductive exn : Type :=
| IndexError
| KeyError (key : string)
| ValueError (msg : string)
| OverflowError
| NameError (msg : string)
| OutOfBoundsDatetime
| GraphRecursionError
| CollaboratorError (who : string).

Inductive result (A : Type) : Type :=
| Ok (a : A)
| Raise (e : exn).
Arguments Ok {A} a.
Arguments Raise {A} e.

#[global] Instance result_ret : MRet result := fun A a => Ok a.
#[global] Instance result_bind : MBind result :=
  fun A B f m => match m with Ok a => f a | Raise e => Raise e end.

Definition raises {A} (m : result A) : Prop := exists e, m = Raise e.

Definition returns {A} (m : result A) : Prop := exists a, m = Ok a.

(** ** Python built-ins used by the sources *)

Module Py.

(** [l[-1]]. *)
Definition last_item {A} (l : list A) : result A :=
  match last l with
  | Some a => Ok a
  | None => Raise IndexError
  end.

(** [l[i]] for a non-negative literal [i]. *)
Definition item {A} (l : list A) (i : nat) : result A :=
  match l !! i with
  | Some a => Ok a
  | None => Raise IndexError
  end.

(** [l[:n]] and [l[n:]] for an [int] bound [n] (a negative bound counts from
    the end, an out-of-range bound is clamped). *)
Definition slice_to {A} (n : Z) (l : list A) : list A :=
  if n <? 0 then take (Z.to_nat (Z.of_nat (length l) + n)) l
  else take (Z.to_nat n) l.

Definition slice_from {A} (n : Z) (l : list A) : list A :=
  if n <? 0 then drop (Z.to_nat (Z.of_nat (length l) + n)) l
  else drop (Z.to_nat n) l.

(** [s.startswith(p)] is [String.prefix p s]; [sub in s]. *)
Fixpoint contains (sub s : string) : bool :=
  String.prefix sub s
  || match s with
     | EmptyString => false
     | String _ s' => contains sub s'
     end.

(** [s.split(sep)]: scan left to right, cutting at each non-overlapping
    occurrence of [sep].  [skip] counts the characters of a matched separator
    still to pass over, [cur] is the piece being collected. *)
Fixpoint split_go (sep : string) (skip : nat) (cur s : string) : list string :=
  match s with
  | EmptyString => [cur]
  | String c s' =>
      match skip with
      | S k => split_go sep k cur s'
      | O =>
          if String.prefix sep s
          then cur :: split_go sep (String.length sep - 1) EmptyString s'
          else split_go sep 0 (cur +:+ String c EmptyString) s'
      end
  end.

Definition split (sep s : string) : result (list string) :=
  match sep with
  | EmptyString => Raise (ValueError "empty separator")
  | _ => Ok (split_go sep 0 EmptyString s)
  end.

(** [str.isspace] on the code points below 256. *)
Definition isspace (c : ascii) : bool :=
  let n := nat_of_ascii c in
  ((9 <=? n) && (n <=? 13) || (28 <=? n) && (n <=? 32) || (n =? 133) || (n =? 160))%nat.

Fixpoint lstrip (s : string) : string :=
  match s with
  | EmptyString => EmptyString
  | String c s' => if isspace c then lstrip s' else s
  end.

Fixpoint rstrip (s : string) : string :=
  match s with
  | EmptyString => EmptyString
  | String c s' =>
      match rstrip s' with
      | EmptyString => if isspace c then EmptyString else String c EmptyString
      | t => String c t
      end
  end.

(** [s.strip()]. *)
Definition strip (s : string) : string := rstrip (lstrip s).

(** Truth value of a [str]. *)
Definition str_truthy (s : string) : bool :=
  match s with EmptyString => false | _ => true end.

(** [list(set(l))]: the distinct elements of [l], each once, in the
    iteration order of the set built from [l].  Python leaves that order
    unspecified; in CPython it follows from the strings' hashes (seeded once
    per process) and from the order of insertion, so within one process it
    is a function of [l].  [set_order] stands for that function: the
    interpreter's choice.  Whatever the interpreter chooses is an
    arrangement of the distinct elements of [l]; an answer of [set_order]
    that is not one is not a choice the interpreter has, and is replaced by
    an arrangement. *)
Definition list_set (set_order : list string -> list string) (l : list string) : list string :=
  let chosen := set_order l in
  if bool_decide (NoDup chosen ∧ (list_to_set chosen : gset string) = list_to_set l)
  then chosen
  else elements (list_to_set l : gset string).

(** [dict(pairs)]: a later pair replaces an earlier one with the same key. *)
Definition dict_of {V} (pairs : list (string * V)) : gmap string V :=
  foldl (fun d kv => <[kv.1 := kv.2]> d) ∅ pairs.

(** [int(x)] for a float: truncation toward zero; [nan] and the infinities
    raise. *)
Definition int_of_float (x : float) : result Z :=
  match Prim2SF x with
  | S754_zero _ => Ok 0
  | S754_finite s m e =>
      let a := if (0 <=? e)%Z then Z.pos m * 2 ^ e else Z.pos m / 2 ^ (- e) in
      Ok (if s then - a else a)
  | S754_infinity _ => Raise OverflowError
  | S754_nan => Raise (ValueError "cannot convert float NaN to integer")
  end.

(** [float(n)] for a container length. *)
Definition float_of_len (n : nat) : float := PrimFloat.of_uint63 (Uint63.of_Z (Z.of_nat n)).

(** [a > b], [a < b], [a >= b], [a <= b] on floats. *)
Definition gt (a b : float) : bool := PrimFloat.ltb b a.
Definition lt (a b : float) : bool := PrimFloat.ltb a b.
Definition ge (a b : float) : bool := PrimFloat.leb b a.
Definition le (a b : float) : bool := PrimFloat.leb a b.

End Py.

(** The line feed. *)
Definition LF : string := String (ascii_of_nat 10) EmptyString.

(* ------------------------------------------------------------------ *)
(** ** app/agent/graph.py *)
(* ------------------------------------------------------------------ *)

Module Graph.

(** A conversation turn.  [content] and [tool_calls] are [None] when the
    object has no such attribute (the source tests [hasattr]). *)
Inductive Role : Type := SystemRole | HumanRole | AIRole | ToolRole.

Record ToolCall : Type := { tc_name : string; tc_args : string }.

Record Message : Type := {
  role : Role;
  content : option string;
  tool_calls : option (list ToolCall);
}.

Definition SystemMessage (c : string) : Message :=
  {| role := SystemRole; content := Some c; tool_calls := None |}.

Definition HumanMessage (c : string) : Message :=
  {| role := HumanRole; content := Some c; tool_calls := None |}.

Definition AIMessage (c : string) (calls : list ToolCall) : Message :=
  {| role := AIRole; content := Some c; tool_calls := Some calls |}.

(** [class ResearchState(TypedDict)].  [should_continue] is read with
    [state.get("should_continue", True)], so the key may be missing. *)
Record ResearchState : Type := {
  messages : list Message;
  cycle_id : string;
  cycle_count : Z;
  features_ruled_in : list string;
  features_ruled_out : list string;
  promoted_strategies : list string;
  current_hypothesis : string;
  last_backtest_result : option (gmap string string);
  should_continue : option bool;
}.

(** The names of the graph's nodes; [END] is the terminal one. *)
Inductive Node : Type := orchestrator | tools | update_state | END.

(** The strings the routing function returns. *)
Inductive Route : Type := route_tools | route_continue | route_end.

(** The mapping passed to [add_conditional_edges]. *)
Definition conditional_edges (r : Route) : Node :=
  match r with
  | route_tools => tools
  | route_continue => update_state
  | route_end => END
  end.

(** How the graph folds a node's returned dict into the state: the
    [messages] channel is [Annotated[list, operator.add]], every other key
    takes the returned value. *)
Definition apply_update (state update : ResearchState) : ResearchState :=
  {| messages := messages state ++ messages update;
     cycle_id := cycle_id update;
     cycle_count := cycle_count update;
     features_ruled_in := features_ruled_in update;
     features_ruled_out := features_ruled_out update;
     promoted_strategies := promoted_strategies update;
     current_hypothesis := current_hypothesis update;
     last_backtest_result := last_backtest_result update;
     should_continue := should_continue update |}.

(** Truth value of [hasattr(m, "tool_calls") and m.tool_calls]. *)
Definition has_pending_tool_calls (m : Message) : bool :=
  match tool_calls m with
  | Some (_ :: _) => true
  | _ => false
  end.

(** [should_continue_research]. *)
Definition should_continue_research (state : ResearchState) : result Route :=
  last_message ← Py.last_item (messages state);
  if has_pending_tool_calls last_message then Ok route_tools
  else if cycle_count state >=? 10 then Ok route_end
  else if default true (should_continue state) then Ok route_continue
  else Ok route_end.

(** The payload of a list marker: the text after the first occurrence of
    [marker], up to the next occurrence of [marker] or to the end of that
    line, whichever comes first, cut at commas, each piece stripped, empty
    pieces dropped. *)
Definition marker_line (marker content : string) : result string :=
  parts ← Py.split marker content;
  rest ← Py.item parts 1;
  lines ← Py.split LF rest;
  Py.item lines 0.

Definition marker_features (marker content : string) : result (list string) :=
  line ← marker_line marker content;
  pieces ← Py.split "," line;
  Ok (List.map Py.strip (List.filter (fun f => Py.str_truthy (Py.strip f)) pieces)).

Section Collaborators.

(** The iteration order of the interpreter's sets (see [Py.list_set]). *)
Variable set_order : list string -> list string.

(** [update_state_from_messages].  The [PROMOTE] branch is [pass]. *)
Definition update_state_from_messages (state : ResearchState) : result ResearchState :=
  last_message ← Py.last_item (messages state);
  let content := default "" (content last_message) in
  ruled_in ←
    (if Py.contains "RULED IN:" content then
       new_features ← marker_features "RULED IN:" content;
       Ok (Py.list_set set_order (features_ruled_in state ++ new_features))
     else Ok (features_ruled_in state));
  ruled_out ←
    (if Py.contains "RULED OUT:" content then
       ruled_out ← marker_features "RULED OUT:" content;
       Ok (Py.list_set set_order (features_ruled_out state ++ ruled_out))
     else Ok (features_ruled_out state));
  hypothesis ←
    (if Py.contains "NEXT HYPOTHESIS:" content then
       line ← marker_line "NEXT HYPOTHESIS:" content;
       Ok (Py.strip line)
     else Ok (current_hypothesis state));
  let promoted :=
    if Py.contains "PROMOTE" content then promoted_strategies state
    else promoted_strategies state in
  Ok {| messages := messages state;
        cycle_id := cycle_id state;
        cycle_count := cycle_count state;
        features_ruled_in := ruled_in;
        features_ruled_out := ruled_out;
        promoted_strategies := promoted;
        current_hypothesis := hypothesis;
        last_backtest_result := last_backtest_result state;
        should_continue := should_continue state |}.

(** The chat model bound to the research tools, the prebuilt tool executor,
    the system prompt of [app.agent.prompts] and the text of the context
    f-string. *)
Variable llm_invoke : list Message -> result Message.
Variable tool_executor_invoke : ResearchState -> result (list Message).
Variable ORCHESTRATOR_SYSTEM_PROMPT : string.
Variable context_text : ResearchState -> string.

(** [orchestrator_node]. *)
Definition orchestrator_node (state : ResearchState) : result ResearchState :=
  let context := context_text state in
  let msgs :=
    SystemMessage ORCHESTRATOR_SYSTEM_PROMPT
      :: messages state ++ [HumanMessage context] in
  response ← llm_invoke msgs;
  Ok {| messages := [response];
        cycle_id := cycle_id state;
        cycle_count := cycle_count state + 1;
        features_ruled_in := features_ruled_in state;
        features_ruled_out := features_ruled_out state;
        promoted_strategies := promoted_strategies state;
        current_hypothesis := current_hypothesis state;
        last_backtest_result := last_backtest_result state;
        should_continue := should_continue state |}.

(** [tool_node]. *)
Definition tool_node (state : ResearchState) : result ResearchState :=
  tool_messages ← tool_executor_invoke state;
  Ok {| messages := tool_messages;
        cycle_id := cycle_id state;
        cycle_count := cycle_count state;
        features_ruled_in := features_ruled_in state;
        features_ruled_out := features_ruled_out state;
        promoted_strategies := promoted_strategies state;
        current_hypothesis := current_hypothesis state;
        last_backtest_result := last_backtest_result state;
        should_continue := should_continue state |}.

(** One step of the compiled graph of [build_research_graph]: run the
    node, fold its update into the state, follow the outgoing edge (the
    conditional one after [orchestrator], back to [orchestrator] after
    [tools] and [update_state]).  [END] has no step. *)
Definition graph_step (n : Node) (state : ResearchState) : result (option (Node * ResearchState)) :=
  match n with
  | orchestrator =>
      update ← orchestrator_node state;
      let state' := apply_update state update in
      r ← should_continue_research state';
      Ok (Some (conditional_edges r, state'))
  | tools =>
      update ← tool_node state;
      Ok (Some (orchestrator, apply_update state update))
  | update_state =>
      update ← update_state_from_messages state;
      Ok (Some (orchestrator, apply_update state update))
  | END => Ok None
  end.

(** The nodes entered and the states reached by the first [k] steps. *)
Fixpoint graph_run (k : nat) (n : Node) (state : ResearchState)
  : result (list Node * Node * ResearchState) :=
  match k with
  | O => Ok ([], n, state)
  | S k' =>
      next ← graph_step n state;
      match next with
      | None => Ok ([], n, state)
      | Some (n', state') =>
          '(entered, n_end, s_end) ← graph_run k' n' state';
          Ok (n :: entered, n_end, s_end)
      end
  end.

(** Running the compiled graph from its entry point, as [graph.stream] and
    [graph.invoke] do: the state in which [END] is reached.  langgraph
    bounds the number of steps of a run by the [recursion_limit] of its
    configuration, 25 when none is given, and raises [GraphRecursionError]
    when the run has not reached [END] within it; it notices that only
    after the step that exceeds the limit has run, so an exception of that
    step comes first. *)
Definition graph_stream (recursion_limit : nat) (state : ResearchState) : result ResearchState :=
  '(entered, n_end, s_end) ← graph_run recursion_limit orchestrator state;
  match n_end with
  | END => Ok s_end
  | _ =>
      _ ← graph_step n_end s_end;
      Raise GraphRecursionError
  end.

End Collaborators.

(** [initial_state] of [run_research_loop]; [uuid] is the fresh cycle id. *)
Definition initial_state (uuid initial_hypothesis : string) : ResearchState :=
  {| messages := [];
     cycle_id := uuid;
     cycle_count := 0;
     features_ruled_in := [];
     features_ruled_out := [];
     promoted_strategies := [];
     current_hypothesis := initial_hypothesis;
     last_backtest_result := None;
     should_continue := Some true |}.

(** [run_research_loop]: the graph is streamed from the initial state with
    the default configuration (the events are printed, nothing is
    returned). *)
Definition default_recursion_limit : nat := 25.

Definition run_research_loop (set_order : list string -> list string)
    (llm_invoke : list Message -> result Message)
    (tool_executor_invoke : ResearchState -> result (list Message))
    (ORCHESTRATOR_SYSTEM_PROMPT : string) (context_text : ResearchState -> string)
    (uuid initial_hypothesis : string) : result unit :=
  _ ← graph_stream set_order llm_invoke tool_executor_invoke ORCHESTRATOR_SYSTEM_PROMPT
        context_text default_recursion_limit (initial_state uuid initial_hypothesis);
  Ok tt.

End Graph.

(* ------------------------------------------------------------------ *)
(** ** pandas values: a time-indexed series and a frame of rows *)
(* ------------------------------------------------------------------ *)

Module Pandas.

(** A [pd.Series] with a [DatetimeIndex]: each entry is its timestamp (in
    milliseconds) and its value, in positional order. *)
Definition Series (A : Type) : Type := list (Z * A).

Definition index {A} (s : Series A) : list Z := s.*1.
Definition values {A} (s : Series A) : list A := s.*2.

(** [bool(t)] for a [Timestamp]: the class defines neither [__bool__] nor
    [__len__], so every timestamp is true. *)
Definition timestamp_truthy (t : Z) : bool := true.

(** [pd.Series(data, index=idx)]: the lengths must agree. *)
Definition make_series {A} (data : list A) (idx : list Z) : result (Series A) :=
  if (length data =? length idx)%nat then Ok (zip idx data)
  else Raise (ValueError "Length of values does not match length of index").

(** [pd.Series(v, index=idx)] for a scalar [v]. *)
Definition const_series {A} (v : A) (idx : list Z) : Series A :=
  List.map (fun t => (t, v)) idx.

(** [s.idxmax()] on a boolean series: the label of the first maximum, that
    is of the first [True], and of the first entry when every entry is
    [False]; an empty series raises. *)
Definition idxmax (s : Series bool) : result Z :=
  match s with
  | [] => Raise (ValueError "attempt to get argmax of an empty sequence")
  | (t0, _) :: _ =>
      match List.find (fun p => p.2) s with
      | Some (t, _) => Ok t
      | None => Ok t0
      end
  end.

(** [s.loc[labels]]: for each label in turn, the entries carrying it. *)
Definition loc {A} (s : Series A) (labels : list Z) : Series A :=
  List.flat_map (fun t => List.filter (fun p => (p.1 =? t)%Z) s) labels.

(** A row of a [pd.DataFrame]: its timestamp and its cells by column name,
    in column order. *)
Record Row : Type := { ts : Z; cells : list (string * float) }.

Definition DataFrame : Type := list Row.

Definition frame_index (df : DataFrame) : list Z := List.map ts df.

Definition get_cell (name : string) (r : Row) : option float :=
  snd <$> List.find (fun c => String.eqb c.1 name) (cells r).

Fixpoint set_assoc (name : string) (v : float) (l : list (string * float)) : list (string * float) :=
  match l with
  | [] => [(name, v)]
  | (k, w) :: l' => if String.eqb k name then (k, v) :: l' else (k, w) :: set_assoc name v l'
  end.

Definition set_cell (name : string) (v : float) (r : Row) : Row :=
  {| ts := ts r; cells := set_assoc name v (cells r) |}.

(** [df[name]]. *)
Fixpoint column (name : string) (df : DataFrame) : result (Series float) :=
  match df with
  | [] => Ok []
  | r :: df' =>
      match get_cell name r with
      | None => Raise (KeyError name)
      | Some v => rest ← column name df'; Ok ((ts r, v) :: rest)
      end
  end.

(** [df[name] = data] for data on the frame's own index: row [i] takes
    entry [i], and [nan] where the data has none. *)
Fixpoint set_column (name : string) (data : list float) (df : DataFrame) : DataFrame :=
  match df with
  | [] => []
  | r :: df' =>
      match data with
      | [] => set_cell name PrimFloat.nan r :: set_column name [] df'
      | v :: data' => set_cell name v r :: set_column name data' df'
      end
  end.

(** [df[name] = v] for a scalar. *)
Definition set_column_const (name : string) (v : float) (df : DataFrame) : DataFrame :=
  List.map (set_cell name v) df.

(** [df[names]]: the listed columns of every row, in the listed order. *)
Fixpoint select_row (names : list string) (r : Row) : result (list float) :=
  match names with
  | [] => Ok []
  | n :: names' =>
      match get_cell n r with
      | None => Raise (KeyError n)
      | Some v => rest ← select_row names' r; Ok (v :: rest)
      end
  end.

Fixpoint select (names : list string) (df : DataFrame) : result (Series (list float)) :=
  match df with
  | [] => Ok []
  | r :: df' =>
      x ← select_row names r;
      rest ← select names df';
      Ok ((ts r, x) :: rest)
  end.

(** [df.dropna()]: the rows without a missing cell. *)
Definition row_complete (r : Row) : bool :=
  List.forallb (fun c => negb (PrimFloat.is_nan c.2)) (cells r).

Definition dropna (df : DataFrame) : DataFrame := List.filter row_complete df.

(** [df.sort_index()] and [df[~df.index.duplicated(keep="last")]].  The
    sort orders the rows by timestamp; the order it gives to rows with the
    same timestamp is the sorting algorithm's (pandas' default is not
    stable) and [merge_sort] stands for one such order.  Which of several
    rows with one timestamp is the last, and so survives, is therefore not
    determined here; the properties below hold for any order of ties. *)
Definition ts_le (a b : Row) : Prop := ts a <= ts b.

#[global] Instance ts_le_dec : RelDecision ts_le := fun a b => Z_le_dec (ts a) (ts b).

Definition sort_index (df : DataFrame) : DataFrame := merge_sort ts_le df.

Fixpoint drop_duplicated_keep_last (df : DataFrame) : DataFrame :=
  match df with
  | [] => []
  | r :: df' =>
      if List.existsb (fun r' => ts r' =? ts r) df'
      then drop_duplicated_keep_last df'
      else r :: drop_duplicated_keep_last df'
  end.

End Pandas.

(* ------------------------------------------------------------------ *)
(** ** app/core/models.py *)
(* ------------------------------------------------------------------ *)

Module Models.

Inductive Timeframe : Type := tf_5m | tf_15m | tf_1h | tf_4h | tf_1d.

Definition timeframe_str (t : Timeframe) : string :=
  match t with
  | tf_5m => "5m" | tf_15m => "15m" | tf_1h => "1h" | tf_4h => "4h" | tf_1d => "1d"
  end.

Inductive PositionSizing : Type := fixed | half_kelly | quarter_kelly.

Record StrategyConfig : Type := {
  name : string;
  description : string;
  features : list string;
  entry_logic : string;
  exit_logic : string;
  assets : list string;
  timeframe : Timeframe;
  lookback_days : Z;
  stop_loss_pct : float;
  take_profit_pct : float;
  position_sizing : PositionSizing;
}.

Inductive Verdict : Type := promote | iterate | discard.

Record BacktestResult : Type := {
  strategy_name : string;
  sharpe_ratio : float;
  sortino_ratio : float;
  max_drawdown : float;
  win_rate : float;
  profit_factor : float;
  total_return : float;
  n_trades : Z;
  avg_trade_duration_hours : float;
  feature_importances : gmap string float;
  regime_breakdown : gmap string float;
  overfitting_score : float;
  verdict : Verdict;
  verdict_reason : string;
}.

End Models.

(* ------------------------------------------------------------------ *)
(** ** app/trading-engine: data.py, features.py, backtester.py *)
(* ------------------------------------------------------------------ *)

Module Engine.
Import Pandas Models.

(** One candle as the exchange returns it. *)
Record Candle : Type := {
  c_timestamp : Z;
  c_open : float; c_high : float; c_low : float; c_close : float; c_volume : float;
}.

(** [pd.DataFrame(all_candles, columns=[...])] with [timestamp] as index. *)
Definition frame_of_candles (all_candles : list Candle) : DataFrame :=
  List.map (fun c =>
    {| ts := c_timestamp c;
       cells := [("open", c_open c); ("high", c_high c); ("low", c_low c);
                 ("close", c_close c); ("volume", c_volume c)] |}) all_candles.

(** [pd.to_datetime(df["timestamp"], unit="ms", utc=True)].  pandas holds a
    timestamp as a count of nanoseconds in 64 bits; a count of milliseconds
    beyond [TIMESTAMP_MS_MAX], in either direction, has no such
    representation and the conversion raises. *)
Definition TIMESTAMP_MS_MAX : Z := 9223372036854.

Definition in_datetime_range (t : Z) : bool :=
  (- TIMESTAMP_MS_MAX <=? t) && (t <=? TIMESTAMP_MS_MAX).

Definition to_datetime (df : DataFrame) : result DataFrame :=
  if List.forallb (fun r => in_datetime_range (ts r)) df then Ok df
  else Raise OutOfBoundsDatetime.

(** The keys of [FEATURE_REGISTRY], in registration order. *)
Definition FEATURE_REGISTRY : list string :=
  ["rsi_14"; "rsi_7"; "macd_signal"; "macd_diff"; "atr_14"; "bb_width";
   "volume_zscore"; "obv"; "vwap_distance"; "log_return";
   "rolling_volatility_24"; "funding_rate"; "open_interest_change"].

Definition registered (name : string) : bool :=
  List.existsb (String.eqb name) FEATURE_REGISTRY.

(** [str(list_of_str)]. *)
Definition repr_list (l : list string) : string :=
  "[" +:+ String.concat ", " (List.map (fun s => "'" +:+ s +:+ "'") l) +:+ "]".

Definition unknown_feature (name : string) : exn :=
  ValueError ("Unknown feature: " +:+ name +:+ ". Available: " +:+ repr_list FEATURE_REGISTRY).

Definition no_data (symbol timeframe : string) : exn :=
  ValueError ("No data returned for " +:+ symbol +:+ " " +:+ timeframe).

Definition FEES : float := 0.001.
Definition SLIPPAGE : float := 0.0005.

(** The arguments of one [vbt.Portfolio.from_signals] call; a keyword the
    call does not pass is [None]. *)
Record SimRequest : Type := {
  sim_close : Series float;
  sim_entries : Series bool;
  sim_exits : Series bool;
  sim_fees : option float;
  sim_slippage : option float;
  sim_init_cash : option float;
  sim_sl_stop : option float;
  sim_tp_stop : option float;
}.

(** What the simulator reports of a portfolio. *)
Record PortfolioStats : Type := {
  pf_sharpe_ratio : float;
  pf_sortino_ratio : float;
  pf_max_drawdown : float;
  pf_win_rate : float;
  pf_profit_factor : float;
  pf_total_return : float;
  pf_trade_count : Z;
}.

(** A [vbt.Portfolio]: the price series it was built on and its statistics. *)
Record Portfolio : Type := { pf_close : Series float; pf_stats : PortfolioStats }.

(** The five values [_walk_forward_split] returns. *)
Record Split : Type := {
  X_train : Series (list float);
  X_test : Series (list float);
  y_train : Series Z;
  y_test : Series Z;
  dates_test : list Z;
}.

(** [_triple_barrier_label]: the label of entry [i]. *)
Definition barrier_label (close : Series float) (stop_loss take_profit : float)
    (max_holding i : nat) : result Z :=
  entry ← Py.item (values close) i;
  let future := take max_holding (drop (i + 1) close) in
  tp_hit ← idxmax (List.map (fun p => (p.1, Py.ge p.2 (entry * (1 + take_profit))%float)) future);
  sl_hit ← idxmax (List.map (fun p => (p.1, Py.le p.2 (entry * (1 - stop_loss))%float)) future);
  if timestamp_truthy tp_hit && (negb (timestamp_truthy sl_hit) || (tp_hit <=? sl_hit))
  then Ok 1
  else if timestamp_truthy sl_hit then Ok 0
  else Ok 0.

Fixpoint barrier_labels (close : Series float) (stop_loss take_profit : float)
    (max_holding : nat) (range : list nat) : result (list Z) :=
  match range with
  | [] => Ok []
  | i :: range' =>
      l ← barrier_label close stop_loss take_profit max_holding i;
      ls ← barrier_labels close stop_loss take_profit max_holding range';
      Ok (l :: ls)
  end.

(** [_triple_barrier_label] for a horizon [max_holding >= 0]. *)
Definition _triple_barrier_label (close : Series float) (stop_loss take_profit : float)
    (max_holding : nat) : result (Series Z) :=
  labels ← barrier_labels close stop_loss take_profit max_holding
             (seq 0 (length close - max_holding));
  make_series labels (take (length labels) (index close)).

(** [_walk_forward_split]. *)
Definition split_index (len_X : nat) (test_ratio : float) : result Z :=
  Py.int_of_float (Py.float_of_len len_X * (1 - test_ratio))%float.

Definition _walk_forward_split (X : Series (list float)) (y : Series Z)
    (test_ratio : float) : result Split :=
  split ← split_index (length X) test_ratio;
  Ok {| X_train := Py.slice_to split X;
        X_test := Py.slice_from split X;
        y_train := Py.slice_to split y;
        y_test := Py.slice_from split y;
        dates_test := index (Py.slice_from split X) |}.

(** The verdict rules of [_aggregate_results]. *)
Definition decide_verdict (avg_sharpe avg_drawdown overfitting_score : float) : Verdict :=
  if Py.gt avg_sharpe 1.5 && Py.gt avg_drawdown (-0.12) && Py.lt overfitting_score 0.5
  then promote
  else if Py.gt avg_sharpe 0.8 then iterate
  else discard.

Section Collaborators.

(** The exchange: the candles the pagination loop of [fetch_ohlcv]
    collects (or the network or exchange error it re-raises), and the two
    enrichment joins, which may raise. *)
Variable exchange_candles : string -> string -> Z -> result (list Candle).
Variable _merge_funding_rate : DataFrame -> string -> Z -> result DataFrame.
Variable _merge_open_interest : DataFrame -> string -> Z -> result DataFrame.

(** The indicator functions stored in [FEATURE_REGISTRY]. *)
Variable feature_series : string -> DataFrame -> result (list float).

(** LightGBM: [LGBMClassifier(...).fit] and column 1 of [predict_proba]. *)
Variable Model : Type.
Variable lgb_fit : Series (list float) -> Series Z -> result Model.
Variable lgb_predict_proba1 : Model -> Series (list float) -> result (list float).

(** vectorbt's simulation, SHAP's mean absolute attribution per feature,
    [np.mean], and the [:.2f] format. *)
Variable vbt_simulate : SimRequest -> result PortfolioStats.
Variable shap_mean_abs : Model -> Series (list float) -> result (list float).
Variable np_mean : list float -> float.
Variable format_2f : float -> string.

(** [fetch_ohlcv] with its default exchange and both enrichments. *)
Definition fetch_ohlcv (symbol timeframe : string) (lookback_days : Z) : result DataFrame :=
  all_candles ← exchange_candles symbol timeframe lookback_days;
  match all_candles with
  | [] => Raise (no_data symbol timeframe)
  | _ =>
      df ← to_datetime (frame_of_candles all_candles);
      let df := drop_duplicated_keep_last (sort_index df) in
      let df :=
        match _merge_funding_rate df symbol lookback_days with
        | Ok df' => df'
        | Raise _ => set_column_const "funding_rate" 0 df
        end in
      let df :=
        match _merge_open_interest df symbol lookback_days with
        | Ok df' => df'
        | Raise _ => set_column_const "open_interest" 0 df
        end in
      Ok df
  end.

(** [compute_features]: the loop over the requested names, then [dropna]. *)
Fixpoint add_features (df : DataFrame) (feature_names : list string) (res : DataFrame)
  : result DataFrame :=
  match feature_names with
  | [] => Ok res
  | name :: rest =>
      if negb (registered name) then Raise (unknown_feature name)
      else
        data ← feature_series name df;
        add_features df rest (set_column name data res)
  end.

Definition compute_features (df : DataFrame) (feature_names : list string) : result DataFrame :=
  res ← add_features df feature_names df;
  Ok (dropna res).

(** [Portfolio.from_signals]. *)
Definition from_signals (req : SimRequest) : result Portfolio :=
  stats ← vbt_simulate req;
  Ok {| pf_close := sim_close req; pf_stats := stats |}.

(** One entry of [all_results]. *)
Record AssetResult : Type := {
  r_asset : string;
  r_pf : Portfolio;
  r_model : Model;
  r_X_test : Series (list float);
  r_X_train : Series (list float);
  r_y_test : Series Z;
}.

(** The call [validate_ohlcv(df, asset)] of [run_backtest].  backtester.py
    imports [fetch_ohlcv] from data.py and nothing else from it, and it
    defines no [validate_ohlcv]; the name is bound neither in the module nor
    among the built-ins, so evaluating the call raises [NameError], before
    the function data.py defines under that name could run. *)
Definition validate_ohlcv (df : DataFrame) (asset : string) : result unit :=
  Raise (NameError "name 'validate_ohlcv' is not defined").

(** Lines 27 to 41 of [run_backtest], as a function of the frame [df] they
    start from: the frame with its features, the labels, the feature
    columns and their split. *)
Definition frame_dataset (config : StrategyConfig) (df : DataFrame)
  : result (DataFrame * Series Z * Series (list float) * Split) :=
  df ← compute_features df (features config);
  close ← column "close" df;
  labels ← _triple_barrier_label close (stop_loss_pct config) (take_profit_pct config) 48;
  feature_df ← select (features config) df;
  sp ← _walk_forward_split feature_df labels 0.3;
  Ok (df, labels, feature_df, sp).

(** The request of the held-out simulation. *)
Definition test_request (config : StrategyConfig) (test_close : Series float)
    (entries exits : Series bool) : SimRequest :=
  {| sim_close := test_close;
     sim_entries := entries;
     sim_exits := exits;
     sim_fees := Some FEES;
     sim_slippage := Some SLIPPAGE;
     sim_init_cash := Some 10000%float;
     sim_sl_stop := Some (stop_loss_pct config);
     sim_tp_stop := Some (take_profit_pct config) |}.

(** Lines 27 to 73 of [run_backtest], as a function of the frame they
    start from: the entry of [all_results] for one asset. *)
Definition evaluate_frame (config : StrategyConfig) (asset : string) (df : DataFrame)
  : result AssetResult :=
  '(df, labels, feature_df, sp) ← frame_dataset config df;
  model ← lgb_fit (X_train sp) (y_train sp);
  probs ← lgb_predict_proba1 model (X_test sp);
  entries ← make_series (List.map (fun p => Py.gt p 0.65) probs) (dates_test sp);
  exits ← make_series (List.map (fun p => Py.lt p 0.35) probs) (dates_test sp);
  close ← column "close" df;
  let test_close := loc close (dates_test sp) in
  pf ← from_signals (test_request config test_close entries exits);
  Ok {| r_asset := asset; r_pf := pf; r_model := model;
        r_X_test := X_test sp; r_X_train := X_train sp; r_y_test := y_test sp |}.

(** The whole loop body of [run_backtest]: the fetch, the call of
    [validate_ohlcv], and the rest. *)
Definition evaluate_asset (config : StrategyConfig) (asset : string) : result AssetResult :=
  df ← fetch_ohlcv asset (timeframe_str (timeframe config)) (lookback_days config);
  _ ← validate_ohlcv df asset;
  evaluate_frame config asset df.

(** The request of the in-sample simulation of [_aggregate_results]. *)
Definition in_sample_request (first : AssetResult) : SimRequest :=
  {| sim_close := pf_close (r_pf first);
     sim_entries := const_series true (index (r_X_train first));
     sim_exits := const_series false (index (r_X_train first));
     sim_fees := Some FEES;
     sim_slippage := None;
     sim_init_cash := None;
     sim_sl_stop := None;
     sim_tp_stop := None |}.

(** The three [verdict_reason] f-strings (the dash of the second one is
    written as a hyphen). *)
Definition verdict_reason_of (v : Verdict) (avg_sharpe : float) : string :=
  match v with
  | promote => "Sharpe " +:+ format_2f avg_sharpe +:+ " exceeds threshold, drawdown acceptable"
  | iterate => "Marginal Sharpe " +:+ format_2f avg_sharpe +:+ " - worth refining features"
  | discard => "Sharpe " +:+ format_2f avg_sharpe +:+ " below minimum threshold"
  end.

(** [_aggregate_results]. *)
Definition _aggregate_results (config : StrategyConfig) (results : list AssetResult)
  : result BacktestResult :=
  let portfolios := List.map (fun r => pf_stats (r_pf r)) results in
  let sharpes := List.map pf_sharpe_ratio portfolios in
  let drawdowns := List.map pf_max_drawdown portfolios in
  let win_rates := List.map pf_win_rate portfolios in
  let n_trades := foldr Z.add 0 (List.map pf_trade_count portfolios) in
  first ← Py.item results 0;
  shap_values ← shap_mean_abs (r_model first) (r_X_test first);
  let importance := Py.dict_of (zip (features config) shap_values) in
  let avg_sharpe := np_mean sharpes in
  let avg_drawdown := np_mean drawdowns in
  in_sample_pf ← from_signals (in_sample_request first);
  let overfitting_score :=
    PrimFloat.abs (avg_sharpe - pf_sharpe_ratio (pf_stats in_sample_pf))%float in
  let verdict := decide_verdict avg_sharpe avg_drawdown overfitting_score in
  Ok {| strategy_name := name config;
        sharpe_ratio := avg_sharpe;
        sortino_ratio := np_mean (List.map pf_sortino_ratio portfolios);
        max_drawdown := avg_drawdown;
        win_rate := np_mean win_rates;
        profit_factor := np_mean (List.map pf_profit_factor portfolios);
        total_return := np_mean (List.map pf_total_return portfolios);
        n_trades := n_trades;
        avg_trade_duration_hours := 24;
        feature_importances := importance;
        regime_breakdown := ∅;
        overfitting_score := overfitting_score;
        verdict := verdict;
        verdict_reason := verdict_reason_of verdict avg_sharpe |}.

(** The loop of [run_backtest]: the first asset that raises ends it. *)
Fixpoint evaluate_assets (config : StrategyConfig) (asset_list : list string)
  : result (list AssetResult) :=
  match asset_list with
  | [] => Ok []
  | asset :: rest =>
      r ← evaluate_asset config asset;
      rs ← evaluate_assets config rest;
      Ok (r :: rs)
  end.

(** [run_backtest]. *)
Definition run_backtest (config : StrategyConfig) : result BacktestResult :=
  all_results ← evaluate_assets config (assets config);
  _aggregate_results config all_results.

End Collaborators.

Arguments r_asset {Model} _.
Arguments r_pf {Model} _.
Arguments r_model {Model} _.
Arguments r_X_test {Model} _.
Arguments r_X_train {Model} _.
Arguments r_y_test {Model} _.
Arguments in_sample_request {Model} first.

End Engine.

(* ------------------------------------------------------------------ *)
(** ** Derived notions used to state the properties *)
(* ------------------------------------------------------------------ *)

Module Stated.
Import Graph Pandas Models Engine.

(** The features a turn lists after [marker]: those [marker_features] reads
    when the marker occurs, none otherwise. *)
Definition listed (marker content : string) : list string :=
  if Py.contains marker content then
    match marker_features marker content with
    | Ok fs => fs
    | Raise _ => []
    end
  else [].

(** The hypothesis after a turn: the stripped text of the
    [NEXT HYPOTHESIS:] line when the marker occurs, the current one
    otherwise. *)
Definition announced_hypothesis (content current : string) : string :=
  if Py.contains "NEXT HYPOTHESIS:" content then
    match marker_line "NEXT HYPOTHESIS:" content with
    | Ok line => Py.strip line
    | Raise _ => current
    end
  else current.

(** The text of a turn as the extractor reads it. *)
Definition text_of (m : Message) : string := default "" (content m).

(** How many times [orchestrator] occurs among the nodes entered. *)
Definition orchestrator_entries (entered : list Node) : Z :=
  Z.of_nat (length (List.filter (fun n => match n with orchestrator => true | _ => false end) entered)).

(** The position, among the [max_holding] prices after entry [i], of the
    first one that satisfies [touched]. *)
Fixpoint first_touch (touched : float -> bool) (future : list float) : option nat :=
  match future with
  | [] => None
  | p :: future' => if touched p then Some O else S <$> first_touch touched future'
  end.

Definition future_prices (close : Series float) (max_holding i : nat) : list float :=
  values (take max_holding (drop (i + 1) close)).

Definition take_profit_touch (close : Series float) (take_profit : float)
    (max_holding i : nat) (entry : float) : option nat :=
  first_touch (fun p => Py.ge p (entry * (1 + take_profit))%float)
    (future_prices close max_holding i).

Definition stop_loss_touch (close : Series float) (stop_loss : float)
    (max_holding i : nat) (entry : float) : option nat :=
  first_touch (fun p => Py.le p (entry * (1 - stop_loss))%float)
    (future_prices close max_holding i).

(** The triple-barrier rule as the specification words it: 1 when the
    take-profit barrier is touched no later than the stop-loss barrier, 0
    when the stop-loss barrier is touched first or neither is touched. *)
Definition specified_label (close : Series float) (stop_loss take_profit : float)
    (max_holding i : nat) (entry : float) : Z :=
  match take_profit_touch close take_profit max_holding i entry,
        stop_loss_touch close stop_loss max_holding i entry with
  | Some a, Some b => if (a <=? b)%nat then 1 else 0
  | Some _, None => 1
  | None, _ => 0
  end.

(** The promotion rule as the specification words it: the drawdown bound
    is inclusive. *)
Definition specified_promote (avg_sharpe avg_drawdown overfitting_score : float) : bool :=
  Py.gt avg_sharpe 1.5 && Py.ge avg_drawdown (-0.12) && Py.lt overfitting_score 0.5.

Definition specified_verdict (avg_sharpe avg_drawdown overfitting_score : float) : Verdict :=
  if specified_promote avg_sharpe avg_drawdown overfitting_score then promote
  else if Py.gt avg_sharpe 0.8 then iterate
  else discard.

(** The in-sample simulation as the specification words it: the training
    period's prices, always long, with the strategy's stop-loss and
    take-profit as hard exits. *)
Definition specified_in_sample_request (config : StrategyConfig)
    (train_close : Series float) : SimRequest :=
  {| sim_close := train_close;
     sim_entries := const_series true (index train_close);
     sim_exits := const_series false (index train_close);
     sim_fees := Some FEES;
     sim_slippage := None;
     sim_init_cash := None;
     sim_sl_stop := Some (stop_loss_pct config);
     sim_tp_stop := Some (take_profit_pct config) |}.

Definition specified_overfitting_score
    (vbt_simulate : SimRequest -> result PortfolioStats)
    (config : StrategyConfig) (train_close : Series float) (avg_sharpe : float)
  : result float :=
  stats ← vbt_simulate (specified_in_sample_request config train_close);
  Ok (PrimFloat.abs (avg_sharpe - pf_sharpe_ratio stats)%float).

(** Row [i] of a feature series and row [i] of a label series carry the
    same timestamp wherever both exist. *)
Definition aligned {A B} (X : Series A) (y : Series B) : Prop :=
  ∀ i t u, index X !! i = Some t → index y !! i = Some u → t = u.

End Stated.

(* ------------------------------------------------------------------ *)
(** ** Concrete inputs *)
(* ------------------------------------------------------------------ *)

Module Sample.
Import Graph Pandas Models Engine.

Definition state_with (turn : Message) (count : Z) (ruled_in ruled_out : list string)
    (flag : option bool) : ResearchState :=
  {| messages := [turn];
     cycle_id := "c0";
     cycle_count := count;
     features_ruled_in := ruled_in;
     features_ruled_out := ruled_out;
     promoted_strategies := [];
     current_hypothesis := "momentum persists";
     last_backtest_result := None;
     should_continue := flag |}.

(** A turn that requests a tool, in a state past the ceiling that asks to
    stop. *)
Definition tool_turn : Message :=
  AIMessage "" [{| tc_name := "run_backtest"; tc_args := "{}" |}].

Definition tool_state : ResearchState := state_with tool_turn 12 [] [] (Some false).

(** A turn that rules out a feature an earlier cycle ruled in. *)
Definition conflict_turn : Message := AIMessage "RULED OUT: rsi_14" [].

Definition conflict_state : ResearchState :=
  state_with conflict_turn 2 ["rsi_14"] [] (Some true).

(** A turn with a promotion marker. *)
Definition promote_turn : Message := AIMessage "PROMOTE: momentum_v2" [].

Definition promote_state : ResearchState := state_with promote_turn 1 [] [] (Some true).

(** A turn whose markers lack the colon or carry no payload. *)
Definition malformed_turn : Message :=
  AIMessage ("RULED IN rsi_7" +:+ LF +:+ "RULED OUT:" +:+ LF +:+ "NEXT HYPOTHESIS") [].

Definition malformed_state : ResearchState :=
  state_with malformed_turn 1 ["obv"] ["atr_14"] (Some true).

(** A turn in which a marker occurs in the middle of a sentence and another
    one is followed by nothing. *)
Definition stray_turn : Message :=
  AIMessage ("Nothing can be RULED IN: the data failed, badly" +:+ LF +:+ "NEXT HYPOTHESIS:") [].

Definition stray_state : ResearchState := state_with stray_turn 1 ["obv"] [] (Some true).

(** An oracle that asks for a tool on its first turn and answers in text
    afterwards, and a tool executor that returns one result turn. *)
Definition scripted_llm (msgs : list Message) : result Message :=
  if (length msgs <=? 2)%nat then Ok tool_turn
  else Ok (AIMessage "RULED IN: obv" []).

Definition scripted_tools (state : ResearchState) : result (list Message) :=
  Ok [{| role := ToolRole; content := Some "{}"; tool_calls := None |}].

Definition no_context (state : ResearchState) : string := "".

(** An iteration order a set can have: the distinct elements, those
    inserted first coming last. *)
Definition newest_first (l : list string) : list string := remove_dups (reverse l).

(** *** Inputs for the evaluation engine *)

Definition hour_ms : Z := 3600000.

(** [n] hourly prices, all equal to [p]. *)
Definition flat_path (n : nat) (p : float) : Series float :=
  List.map (fun i => (Z.of_nat i * hour_ms, p)) (seq 0 n).

(** 200 hourly candles whose close rises by one each hour from 100. *)
Definition rising_candles : list Candle :=
  List.map (fun i =>
    let p := (100 + Py.float_of_len i)%float in
    {| c_timestamp := Z.of_nat i * hour_ms;
       c_open := p; c_high := p; c_low := p; c_close := p; c_volume := 1 |})
    (seq 0 200).

(** An exchange that has candles for BTC/USDT only. *)
Definition btc_only_exchange (symbol timeframe : string) (lookback_days : Z)
  : result (list Candle) :=
  if String.eqb symbol "BTC/USDT" then Ok rising_candles else Ok [].

Definition funding_join (df : DataFrame) (symbol : string) (lookback_days : Z)
  : result DataFrame :=
  Ok (set_column_const "funding_rate" 0.0001 df).

Definition open_interest_join (df : DataFrame) (symbol : string) (lookback_days : Z)
  : result DataFrame :=
  Raise (CollaboratorError "open interest history").

(** Indicators whose first value is missing (a one-candle warm-up). *)
Definition warmup_series (name : string) (df : DataFrame) : result (list float) :=
  Ok (PrimFloat.nan :: repeat 0.01%float (length df - 1)).

(** A classifier that refuses features and labels of different lengths and
    predicts 0.7 everywhere. *)
Definition strict_fit (X : Series (list float)) (y : Series Z) : result unit :=
  if (length X =? length y)%nat then Ok tt
  else Raise (CollaboratorError "lightgbm: length of labels differs from the data").

Definition constant_proba (model : unit) (X : Series (list float)) : result (list float) :=
  Ok (repeat 0.7%float (length X)).

(** A simulator that reports the buy-and-hold return of the price series
    as every ratio, and one trade. *)
Definition hold_return (close : Series float) : float :=
  match close, last close with
  | (_, p0) :: _, Some (_, p1) => ((p1 - p0) / p0)%float
  | _, _ => PrimFloat.nan
  end.

Definition hold_simulate (req : SimRequest) : result PortfolioStats :=
  let r := hold_return (sim_close req) in
  Ok {| pf_sharpe_ratio := r; pf_sortino_ratio := r; pf_max_drawdown := 0;
        pf_win_rate := 1; pf_profit_factor := 1; pf_total_return := r;
        pf_trade_count := 1 |}.

Definition no_attribution (model : unit) (X : Series (list float)) : result (list float) :=
  Ok [].

Definition mean (l : list float) : float :=
  (foldl PrimFloat.add 0 l / Py.float_of_len (length l))%float.

Definition no_format (x : float) : string := "?".

Definition config_for (asset_list feature_list : list string) : StrategyConfig :=
  {| name := "momentum_v2";
     description := "";
     features := feature_list;
     entry_logic := "";
     exit_logic := "";
     assets := asset_list;
     timeframe := tf_1h;
     lookback_days := 730;
     stop_loss_pct := 0.03;
     take_profit_pct := 0.06;
     position_sizing := quarter_kelly |}.

Definition btc_config : StrategyConfig := config_for ["BTC/USDT"] ["log_return"].

(** The same strategy over an asset the exchange has no candles for. *)
Definition btc_eth_config : StrategyConfig :=
  config_for ["BTC/USDT"; "ETH/USDT"] ["log_return"].

(** The same strategy with a feature that is not registered. *)
Definition unknown_feature_config : StrategyConfig :=
  config_for ["BTC/USDT"] ["log_return"; "hurst_exponent"].

(** The frame [fetch_ohlcv] returns for BTC/USDT, and what lines 27 to 73
    of [run_backtest] make of it. *)
Definition btc_frame : DataFrame :=
  match fetch_ohlcv btc_only_exchange funding_join open_interest_join "BTC/USDT" "1h" 730 with
  | Ok df => df
  | Raise _ => []
  end.

Definition sample_dataset (config : StrategyConfig) :=
  frame_dataset warmup_series config btc_frame.

Definition sample_evaluate (config : StrategyConfig) (asset : string) :=
  evaluate_frame warmup_series unit strict_fit constant_proba hold_simulate config asset
    btc_frame.

Definition sample_aggregate (config : StrategyConfig) (results : list (AssetResult unit)) :=
  _aggregate_results unit hold_simulate no_attribution mean no_format config results.

Definition sample_backtest (config : StrategyConfig) : result BacktestResult :=
  run_backtest btc_only_exchange funding_join open_interest_join warmup_series
    unit strict_fit constant_proba hold_simulate no_attribution mean no_format config.

(** The close prices of the training rows of the BTC/USDT data set. *)
Definition btc_train_close : Series float :=
  match sample_dataset btc_config with
  | Ok (df, _, _, sp) =>
      match column "close" df with
      | Ok close => loc close (index (X_train sp))
      | Raise _ => []
      end
  | Raise _ => []
  end.

End Sample.

(* ------------------------------------------------------------------ *)
(** ** Further concrete inputs *)
(* ------------------------------------------------------------------ *)

Module MoreSample.
Import Graph Pandas Models Engine Sample.

(** An oracle that answers in text and never asks for a tool, one that asks
    for a tool on every turn. *)
Definition text_llm (msgs : list Message) : result Message :=
  Ok (AIMessage ("RULED OUT: obv, atr_14" +:+ LF +:+ "NEXT HYPOTHESIS: funding predicts reversals") []).

Definition tool_llm (msgs : list Message) : result Message := Ok tool_turn.

(** A turn that rules features in and out and announces a hypothesis. *)
Definition full_turn : Message :=
  AIMessage ("RULED IN:  rsi_7 , obv,, " +:+ LF +:+ "RULED OUT: atr_14,obv" +:+ LF
             +:+ "NEXT HYPOTHESIS:  volume leads price ") [].

Definition full_state : ResearchState := state_with full_turn 3 ["obv"] ["bb_width"] (Some true).

(** Four hourly prices: the take-profit level of the first is reached an
    hour after the next candle, its stop-loss level never. *)
Definition spike_path : Series float :=
  [(0, 100%float); (hour_ms, 101%float); (2 * hour_ms, 104%float); (3 * hour_ms, 99%float)].

(** A path that is flat for 28 hours, and one that jumps in the 29th. *)
Definition jump_path : Series float := flat_path 28 100 ++ [(28 * hour_ms, 500%float)].

(** A join that always fails. *)
Definition failing_join (df : DataFrame) (symbol : string) (lookback_days : Z)
  : result DataFrame :=
  Raise (CollaboratorError "history endpoint").

(** Four candles, and funding records for the second and the fourth. *)
Definition four_candles : DataFrame := frame_of_candles (take 4 rising_candles).

Definition two_rates : Series float := [(3 * hour_ms, 0.0003%float); (hour_ms, 0.0001%float)].

(** Research notes as stored, and the lists their fields decode to. *)
Definition noted_lists : gmap string (list string) :=
  list_to_map [("[]", []); ("[obv, obv]", ["obv"; "obv"]); ("[atr_14]", ["atr_14"]);
               ("[rsi_7]", ["rsi_7"]); ("[bb_width, rsi_7]", ["bb_width"; "rsi_7"])].

Definition sample_loads (s : string) : result (list string) :=
  match noted_lists !! s with
  | Some l => Ok l
  | None => Raise (ValueError "Expecting value")
  end.

Definition sample_notes : list (gmap string string) :=
  [ {[ "features_ruled_out" := "[obv, obv]"; "features_ruled_in" := "[rsi_7]" ]};
    {[ "features_ruled_out" := "[atr_14]"; "features_ruled_in" := "[bb_width, rsi_7]" ]};
    ∅ ].

End MoreSample.

(* ------------------------------------------------------------------ *)
(** ** Further notions used to state properties *)
(* ------------------------------------------------------------------ *)

Module MoreStated.
Import Pandas.

(** A row has a column. *)
Definition has_column (name : string) (r : Row) : Prop := is_Some (get_cell name r).

(** Strictly earlier row. *)
Definition ts_lt (a b : Row) : Prop := ts a < ts b.

(** The frame a fetch gave, the empty frame when it raised. *)
Definition frame_or_empty (r : result DataFrame) : DataFrame :=
  match r with Ok df => df | Raise _ => [] end.

(** How often an item occurs in a list, and the distinct items of a list in
    the order of their first occurrence. *)
Definition occurrences (f : string) (l : list string) : nat := length (filter (f =.) l).

Definition first_occurrences (l : list string) : list string := reverse (remove_dups (reverse l)).

(** The count a list of counts holds for an item, 0 when it has none. *)
Fixpoint counted (counts : list (string * nat)) (f : string) : nat :=
  match counts with
  | [] => 0%nat
  | (g, count) :: rest => if String.eqb g f then count else counted rest f
  end.

End MoreStated.

(* ------------------------------------------------------------------ *)
(** ** app/trading-engine/data.py: the loops, the joins, the cache *)
(* ------------------------------------------------------------------ *)

Module DataMore.
Import Pandas Engine.

(** What one call of [exchange.fetch_ohlcv] gives: a page of candles, the
    rate-limit error the loop retries on, or any other exception (the
    network and exchange errors are logged and re-raised, the rest simply
    propagates). *)
Inductive Reply : Type :=
| Candles (candles : list Candle)
| RateLimitExceeded
| Failed (e : exn).

(** The page size the loop asks for. *)
Definition limit : nat := 1000.

(** Candles collected before an outcome are kept when the loop breaks and
    lost when it raises. *)
Definition prepend (all_candles : list Candle) (outcome : result (list Candle))
  : result (list Candle) :=
  match outcome with
  | Ok later => Ok (all_candles ++ later)
  | Raise e => Raise e
  end.

Section Pagination.

(** The exchange: its reply to the call number [calls] (counted from 0)
    when asked for candles from [since] on. *)
Variable exchange_reply : nat -> Z -> Reply.
Variable tf_ms : Z.

(** The [while True] loop of [fetch_ohlcv], run for at most [fuel] calls:
    [None] when the loop is still running after them, otherwise how it left
    (the candles collected at the [break], or the exception). *)
Fixpoint collect_candles (fuel calls : nat) (current_since : Z) (all_candles : list Candle)
  : option (result (list Candle)) :=
  match fuel with
  | O => None
  | S fuel' =>
      match exchange_reply calls current_since with
      | RateLimitExceeded => collect_candles fuel' (S calls) current_since all_candles
      | Failed e => Some (Raise e)
      | Candles candles =>
          match last candles with
          | None => Some (Ok all_candles)
          | Some newest =>
              let all_candles := all_candles ++ candles in
              if (length candles <? limit)%nat then Some (Ok all_candles)
              else collect_candles fuel' (S calls) (c_timestamp newest + tf_ms) all_candles
          end
      end
  end.

(** How the loop leaves when the exchange is asked from call [calls] and
    time [since] on: the candles it adds to those collected before (or the
    exception), and the number of calls it makes. *)
Inductive leaves : nat -> Z -> result (list Candle) -> nat -> Prop :=
| leaves_short calls since page :
    exchange_reply calls since = Candles page ->
    (length page < limit)%nat ->
    leaves calls since (Ok page) 1
| leaves_full calls since page newest outcome n :
    exchange_reply calls since = Candles page ->
    (limit <= length page)%nat ->
    last page = Some newest ->
    leaves (S calls) (c_timestamp newest + tf_ms) outcome n ->
    leaves calls since (prepend page outcome) (S n)
| leaves_retry calls since outcome n :
    exchange_reply calls since = RateLimitExceeded ->
    leaves (S calls) since outcome n ->
    leaves calls since outcome (S n)
| leaves_failed calls since e :
    exchange_reply calls since = Failed e ->
    leaves calls since (Raise e) 1.

End Pagination.

(** *** The joins of [_merge_funding_rate] and [_merge_open_interest] *)

(** [s.ffill()]: a missing value takes the last value before it that is not
    missing. *)
Fixpoint ffill (previous : option float) (xs : list float) : list float :=
  match xs with
  | [] => []
  | x :: xs' =>
      if PrimFloat.is_nan x
      then default PrimFloat.nan previous :: ffill previous xs'
      else x :: ffill (Some x) xs'
  end.

(** [s.fillna(0.0)]. *)
Definition fillna0 (xs : list float) : list float :=
  List.map (fun x => if PrimFloat.is_nan x then 0%float else x) xs.

(** [df.join(other, how="left")] for a frame [other] with the one column
    [name], given as its sorted list of timestamps and values: each row of
    [df], in order, once for every entry of [other] with its timestamp, and
    once with a missing value when there is none.  pandas refuses the join
    when [df] has the column already. *)
Definition join_left (name : string) (df : DataFrame) (other : Series float) : result DataFrame :=
  if List.existsb (fun r => bool_decide (is_Some (get_cell name r))) df
  then Raise (ValueError "columns overlap but no suffix specified")
  else Ok (List.flat_map (fun r =>
             match List.filter (fun e : Z * float => e.1 =? ts r) other with
             | [] => [set_cell name PrimFloat.nan r]
             | matches => List.map (fun e : Z * float => set_cell name e.2 r) matches
             end) df).

Definition entry_le (a b : Z * float) : Prop := a.1 <= b.1.

#[global] Instance entry_le_dec : RelDecision entry_le := fun a b => Z_le_dec a.1 b.1.

(** The end of both merge functions, from the records collected: with none
    the column is 0.0 everywhere; otherwise the records, sorted by
    timestamp, are joined onto the candles and the column is forward filled,
    then filled with 0.0. *)
Definition merge_column (name : string) (df : DataFrame) (records : Series float)
  : result DataFrame :=
  match records with
  | [] => Ok (set_column_const name 0 df)
  | _ =>
      joined ← join_left name df (merge_sort entry_le records);
      col ← column name joined;
      Ok (set_column name (fillna0 (ffill None (values col))) joined)
  end.

(** [_merge_funding_rate] and [_merge_open_interest] from the records
    their loops collected ([all_rates], [all_oi]), each a timestamp and a
    value. *)
Definition _merge_funding_rate (df : DataFrame) (all_rates : Series float) : result DataFrame :=
  merge_column "funding_rate" df all_rates.

Definition _merge_open_interest (df : DataFrame) (exchange_id : string) (all_oi : Series float)
  : result DataFrame :=
  if negb (String.eqb exchange_id "binance") then Ok (set_column_const "open_interest" 0 df)
  else merge_column "open_interest" df all_oi.

(** *** [get_exchange] and its module-level cache *)

Section ExchangeCache.

(** [getattr(ccxt, exchange_id)({...})]: the client, or the exception for
    an unknown id or a failing constructor. *)
Variable Exchange : Type.
Variable new_exchange : string -> result Exchange.

(** [get_exchange]: the value returned or raised, and [_exchanges] after
    the call. *)
Definition get_exchange (exchange_id : string) (_exchanges : gmap string Exchange)
  : result Exchange * gmap string Exchange :=
  match _exchanges !! exchange_id with
  | Some exchange => (Ok exchange, _exchanges)
  | None =>
      match new_exchange exchange_id with
      | Ok exchange => (Ok exchange, <[exchange_id := exchange]> _exchanges)
      | Raise e => (Raise e, _exchanges)
      end
  end.

End ExchangeCache.

(** *** [fetch_multiple_assets] *)

Section MultipleAssets.

Variable exchange_candles : string -> string -> Z -> result (list Candle).
Variable _merge_funding_rate : DataFrame -> string -> Z -> result DataFrame.
Variable _merge_open_interest : DataFrame -> string -> Z -> result DataFrame.

(** [fetch_multiple_assets]: the dict it returns (an empty frame stands for
    a symbol whose fetch raised). *)
Definition fetch_multiple_assets (symbols : list string) (timeframe : string)
    (lookback_days : Z) : gmap string DataFrame :=
  foldl (fun results symbol =>
           <[symbol :=
               match fetch_ohlcv exchange_candles _merge_funding_rate _merge_open_interest
                       symbol timeframe lookback_days with
               | Ok df => df
               | Raise _ => []
               end]> results) ∅ symbols.

(** The [loaded] and [failed] lists it logs. *)
Definition loaded (results : gmap string DataFrame) : gset string :=
  dom (filter (fun kv => kv.2 ≠ []) results).

Definition failed (results : gmap string DataFrame) : gset string :=
  dom (filter (fun kv => kv.2 = []) results).

End MultipleAssets.

End DataMore.

Module PagingSample.
Import Engine Sample DataMore.

(** [n] hourly candles from [since] on. *)
Definition hourly_candles (since : Z) (n : nat) : list Candle :=
  List.map (fun i =>
    {| c_timestamp := since + Z.of_nat i * hour_ms;
       c_open := 100; c_high := 100; c_low := 100; c_close := 100; c_volume := 1 |})
    (seq 0 n).

(** An exchange that refuses the first call for its rate limit, then
    answers a full page, then three candles; and one that refuses every
    call. *)
Definition two_page_exchange (calls : nat) (since : Z) : Reply :=
  match calls with
  | 0%nat => RateLimitExceeded
  | 1%nat => Candles (hourly_candles since limit)
  | _ => Candles (hourly_candles since 3)
  end.

Definition busy_exchange (calls : nat) (since : Z) : Reply := RateLimitExceeded.

End PagingSample.

(* ------------------------------------------------------------------ *)
(** ** app/trading-engine/features.py: the catalogue *)
(* ------------------------------------------------------------------ *)

Module FeaturesMore.

(** The dict [get_available_features] returns, in source order. *)
Definition get_available_features : list (string * string) :=
  [("rsi_14", "Relative Strength Index (14 period) - momentum oscillator 0-100");
   ("rsi_7", "RSI short period - more sensitive to recent moves");
   ("macd_signal", "MACD signal line - trend following momentum");
   ("macd_diff", "MACD histogram - divergence between MACD and signal");
   ("atr_14", "Average True Range - volatility measure in price units");
   ("bb_width", "Bollinger Band width - measures volatility expansion/contraction");
   ("volume_zscore", "Volume Z-score - how unusual current volume is vs 20-period mean");
   ("obv", "On Balance Volume - cumulative volume pressure indicator");
   ("vwap_distance", "Distance from VWAP as % - mean reversion signal");
   ("log_return", "Log return of close price");
   ("rolling_volatility_24", "24-period rolling realized volatility");
   ("funding_rate", "Perpetual futures funding rate - crowding/sentiment indicator");
   ("open_interest_change", "Change in open interest - new money entering market")].

End FeaturesMore.

(* ------------------------------------------------------------------ *)
(** ** app/agent/memory.py: features the notes agree on *)
(* ------------------------------------------------------------------ *)

Module Memory.

(** [collections.Counter(items)]: a dict from item to count, in the order
    the items were first seen. *)
Fixpoint counter_add (counts : list (string * nat)) (item : string) : list (string * nat) :=
  match counts with
  | [] => [(item, 1%nat)]
  | (f, count) :: rest =>
      if String.eqb f item then (f, S count) :: rest else (f, count) :: counter_add rest item
  end.

Definition Counter (items : list string) : list (string * nat) := foldl counter_add [] items.

(** [[f for f, count in counts.items() if count >= 2]]. *)
Definition at_least_twice (counts : list (string * nat)) : list string :=
  List.map fst (List.filter (fun entry => (2 <=? entry.2)%nat) counts).

Section Notes.

(** [_research_collection.get(where={"type": {"$eq": "research_note"}},
    include=["metadatas"])["metadatas"]], and [json.loads] on a metadata
    value; the values under [features_ruled_in] and [features_ruled_out]
    were written by [save_research_note] as [json.dumps] of a list of
    strings. *)
Variable research_metadatas : result (list (gmap string string)).
Variable json_loads : string -> result (list string).

(** The loop [for meta in res["metadatas"]: all.extend(json.loads(meta.get(key, "[]")))]. *)
Fixpoint extend_all (key : string) (metadatas : list (gmap string string)) (all : list string)
  : result (list string) :=
  match metadatas with
  | [] => Ok all
  | meta :: rest =>
      listed ← json_loads (default "[]" (meta !! key));
      extend_all key rest (all ++ listed)
  end.

Definition get_ruled_out_features : list string :=
  match (metadatas ← research_metadatas;
         all_ruled_out ← extend_all "features_ruled_out" metadatas [];
         Ok (at_least_twice (Counter all_ruled_out))) with
  | Ok features => features
  | Raise _ => []
  end.

Definition get_ruled_in_features : list string :=
  match (metadatas ← research_metadatas;
         all_ruled_in ← extend_all "features_ruled_in" metadatas [];
         Ok (at_least_twice (Counter all_ruled_in))) with
  | Ok features => features
  | Raise _ => []
  end.

End Notes.

End Memory.

(* ================================================================== *)
(** * Part II.  Properties *)
(* ================================================================== *)

(** ** Python strings *)

Section PyFacts.

Lemma split_go_cons sep k cur s : ∃ h t, Py.split_go sep k cur s = h :: t.
Proof.
  revert k cur. induction s as [|c s IH]; intros k cur; cbn [Py.split_go]; [by eauto|].
  destruct k as [|k]; [|by apply IH].
  destruct (String.prefix sep (String c s)); [by eauto | by apply IH].
Qed.

Lemma prefix_empty_r sep : sep ≠ EmptyString → String.prefix sep EmptyString = false.
Proof. by destruct sep. Qed.

Lemma split_go_two sep cur s :
  sep ≠ EmptyString → Py.contains sep s = true →
  ∃ h1 h2 t, Py.split_go sep 0 cur s = h1 :: h2 :: t.
Proof.
  intros Hsep. revert cur. induction s as [|c s IH]; intros cur Hin.
  - cbn [Py.contains] in Hin. rewrite prefix_empty_r in Hin; [|done]. done.
  - cbn [Py.contains] in Hin. cbn [Py.split_go].
    destruct (String.prefix sep (String c s)) eqn:Hp.
    + destruct (split_go_cons sep (String.length sep - 1) EmptyString s) as (h & t & ->).
      eauto.
    + rewrite orb_false_l in Hin. by apply IH.
Qed.

Lemma split_ok sep s : sep ≠ EmptyString → Py.split sep s = Ok (Py.split_go sep 0 EmptyString s).
Proof. by destruct sep. Qed.

End PyFacts.

(** ** The state extractor *)

Section Extractor.
Import Graph Stated.

Variable set_order : list string -> list string.

Lemma LF_nonempty : LF ≠ EmptyString.
Proof. done. Qed.

Lemma marker_line_ok marker content :
  marker ≠ EmptyString → Py.contains marker content = true →
  ∃ line, marker_line marker content = Ok line.
Proof.
  intros Hm Hin. unfold marker_line.
  rewrite split_ok by done.
  destruct (split_go_two marker EmptyString content Hm Hin) as (h1 & h2 & t & ->).
  cbn [mbind result_bind Py.item lookup list_lookup]. rewrite split_ok by apply LF_nonempty.
  destruct (split_go_cons LF 0 EmptyString h2) as (h & t' & ->).
  cbn [mbind result_bind Py.item lookup list_lookup]. eauto.
Qed.

Lemma marker_features_ok marker content :
  marker ≠ EmptyString → Py.contains marker content = true →
  ∃ fs, marker_features marker content = Ok fs.
Proof.
  intros Hm Hin. unfold marker_features.
  destruct (marker_line_ok marker content Hm Hin) as [line ->].
  cbn [mbind result_bind]. rewrite split_ok by done.
  cbn [mbind result_bind]. eauto.
Qed.

(** Case analysis on the presence of a marker; when it is present the
    parse of its line succeeds. *)
Ltac marker_case mk c :=
  let Hparse := fresh "Hparse" in
  destruct (Py.contains mk c) eqn:?;
  [ first [ destruct (marker_features_ok mk c) as [? Hparse]; [done..|]; rewrite Hparse
          | destruct (marker_line_ok mk c) as [? Hparse]; [done..|]; rewrite Hparse ]
  | ];
  cbn [mbind result_bind].

(** What the extractor returns, field by field. *)
Lemma update_state_from_messages_eq (state : ResearchState) (m : Message) :
  last (messages state) = Some m →
  update_state_from_messages set_order state =
    Ok {| messages := messages state;
          cycle_id := cycle_id state;
          cycle_count := cycle_count state;
          features_ruled_in :=
            if Py.contains "RULED IN:" (text_of m)
            then Py.list_set set_order (features_ruled_in state ++ listed "RULED IN:" (text_of m))
            else features_ruled_in state;
          features_ruled_out :=
            if Py.contains "RULED OUT:" (text_of m)
            then Py.list_set set_order
                   (features_ruled_out state ++ listed "RULED OUT:" (text_of m))
            else features_ruled_out state;
          promoted_strategies := promoted_strategies state;
          current_hypothesis := announced_hypothesis (text_of m) (current_hypothesis state);
          last_backtest_result := last_backtest_result state;
          should_continue := should_continue state |}.
Proof.
  intros Hlast. unfold update_state_from_messages, Py.last_item.
  rewrite Hlast. cbn [mbind result_bind]. fold (text_of m).
  unfold listed, announced_hypothesis.
  marker_case "RULED IN:" (text_of m);
    marker_case "RULED OUT:" (text_of m);
    marker_case "NEXT HYPOTHESIS:" (text_of m);
    by destruct (Py.contains "PROMOTE" (text_of m)).
Qed.

End Extractor.

(** ** The routing function and the cycle counter *)

Section Machine.
Import Graph Stated.

Variable set_order : list string -> list string.
Variable llm_invoke : list Message -> result Message.
Variable tool_executor_invoke : ResearchState -> result (list Message).
Variable ORCHESTRATOR_SYSTEM_PROMPT : string.
Variable context_text : ResearchState -> string.

Local Abbreviation step :=
  (graph_step set_order llm_invoke tool_executor_invoke ORCHESTRATOR_SYSTEM_PROMPT context_text).
Local Abbreviation run :=
  (graph_run set_order llm_invoke tool_executor_invoke ORCHESTRATOR_SYSTEM_PROMPT context_text).

Lemma step_orchestrator_count state n state' :
  step orchestrator state = Ok (Some (n, state')) →
  cycle_count state' = cycle_count state + 1.
Proof.
  cbn [graph_step]. unfold orchestrator_node.
  destruct (llm_invoke _) as [response|e]; cbn [mbind result_bind]; [|done].
  destruct (should_continue_research _); cbn [mbind result_bind]; [|done].
  by intros [= _ <-].
Qed.

Lemma step_tools_count state n state' :
  step tools state = Ok (Some (n, state')) →
  n = orchestrator ∧ cycle_count state' = cycle_count state.
Proof.
  cbn [graph_step]. unfold tool_node.
  destruct (tool_executor_invoke _) as [ms|e]; cbn [mbind result_bind]; [|done].
  by intros [= <- <-].
Qed.

Lemma step_update_state_count state n state' :
  step update_state state = Ok (Some (n, state')) →
  n = orchestrator ∧ cycle_count state' = cycle_count state.
Proof.
  cbn [graph_step].
  destruct (update_state_from_messages set_order state) as [u|e] eqn:Hu;
    cbn [mbind result_bind]; [|done].
  intros [= <- <-]. split; [done|].
  unfold update_state_from_messages in Hu.
  destruct (Py.last_item (messages state)) as [m|]; cbn [mbind result_bind] in Hu; [|done].
  repeat match type of Hu with
         | context [mbind _ ?x] =>
             destruct x; cbn [mbind result_bind] in Hu; [|done]
         end.
  by injection Hu as <-.
Qed.

(** An [orchestrator] step appends the oracle's turn and routes on it, on
    the incremented counter and on the continuation flag, in that order. *)
Lemma orchestrator_step_route state response :
  llm_invoke (SystemMessage ORCHESTRATOR_SYSTEM_PROMPT
                :: messages state ++ [HumanMessage (context_text state)]) = Ok response →
  ∃ state',
    step orchestrator state =
      Ok (Some (if has_pending_tool_calls response then tools
                else if cycle_count state + 1 >=? 10 then END
                else if default true (should_continue state) then update_state
                else END, state'))
    ∧ messages state' = messages state ++ [response]
    ∧ cycle_count state' = cycle_count state + 1.
Proof.
  intros Hllm. eexists. cbn [graph_step]. unfold orchestrator_node.
  rewrite Hllm. cbn [mbind result_bind].
  unfold should_continue_research, Py.last_item.
  cbn [apply_update messages cycle_count should_continue].
  rewrite last_snoc. cbn [mbind result_bind].
  split.
  - destruct (has_pending_tool_calls response); [reflexivity|].
    destruct (cycle_count state + 1 >=? 10); [reflexivity|].
    destruct (default true (should_continue state)); reflexivity.
  - done.
Qed.

Lemma run_count k : ∀ n state entered n' state',
  run k n state = Ok (entered, n', state') →
  cycle_count state' = cycle_count state + orchestrator_entries entered.
Proof.
  induction k as [|k IH]; intros n state entered n' state'; cbn [graph_run].
  - intros [= <- _ <-]. unfold orchestrator_entries. cbn. lia.
  - destruct (step n state) as [[[n1 s1]|]|e] eqn:Hstep; cbn [mbind result_bind]; [| |done].
    + destruct (run k n1 s1) as [[[ent1 ne] se]|e] eqn:Hrun; cbn [mbind result_bind]; [|done].
      intros [= <- <- <-]. apply IH in Hrun. rewrite Hrun.
      unfold orchestrator_entries. destruct n; cbn [List.filter length].
      * apply step_orchestrator_count in Hstep. lia.
      * apply step_tools_count in Hstep. lia.
      * apply step_update_state_count in Hstep. lia.
      * done.
    + intros [= <- _ <-]. unfold orchestrator_entries. cbn. lia.
Qed.

End Machine.

(** ** Claims about the research-cycle state machine *)

Section MachineClaims.
Import Graph Stated Sample.

Variable set_order : list string -> list string.
Variable llm_invoke : list Message -> result Message.
Variable tool_executor_invoke : ResearchState -> result (list Message).
Variable ORCHESTRATOR_SYSTEM_PROMPT : string.
Variable context_text : ResearchState -> string.

Local Abbreviation step :=
  (graph_step set_order llm_invoke tool_executor_invoke ORCHESTRATOR_SYSTEM_PROMPT context_text).
Local Abbreviation run :=
  (graph_run set_order llm_invoke tool_executor_invoke ORCHESTRATOR_SYSTEM_PROMPT context_text).

(** C3.  The routing function never raises on a state that has a latest
    turn, and it decides in a fixed order: a latest turn with pending tool
    calls goes to [tools] whatever [cycle_count] and [should_continue] are;
    otherwise a [cycle_count] of 10 or more goes to [END] whatever
    [should_continue] is; otherwise a false [should_continue] goes to [END];
    otherwise the route leads to [update_state]. *)
Theorem should_continue_research_priority (state : ResearchState) (last_message : Message) :
  last (messages state) = Some last_message →
  (has_pending_tool_calls last_message = true →
     should_continue_research state = Ok route_tools
     ∧ conditional_edges route_tools = tools)
  ∧ (has_pending_tool_calls last_message = false → 10 ≤ cycle_count state →
     should_continue_research state = Ok route_end
     ∧ conditional_edges route_end = END)
  ∧ (has_pending_tool_calls last_message = false → cycle_count state < 10 →
     should_continue state = Some false →
     should_continue_research state = Ok route_end)
  ∧ (has_pending_tool_calls last_message = false → cycle_count state < 10 →
     should_continue state ≠ Some false →
     should_continue_research state = Ok route_continue
     ∧ conditional_edges route_continue = update_state).
Proof.
  intros Hlast. unfold should_continue_research, Py.last_item.
  rewrite Hlast. cbn [mbind result_bind].
  split; [|split; [|split]].
  - by intros ->.
  - intros -> Hge. apply Z.geb_le in Hge. by rewrite Hge.
  - intros -> Hlt Hflag.
    destruct (cycle_count state >=? 10) eqn:Hge; [apply Z.geb_le in Hge; lia|].
    by rewrite Hflag.
  - intros -> Hlt Hflag.
    destruct (cycle_count state >=? 10) eqn:Hge; [apply Z.geb_le in Hge; lia|].
    by destruct (should_continue state) as [[]|].
Qed.

(** C6.  [cycle_count] is 0 in the initial state; a step through
    [orchestrator] adds exactly 1 to it, whatever the oracle's turn asks
    for; a step through [tools] or [update_state] leaves it unchanged; so
    after any run it equals the number of times [orchestrator] was entered,
    and it never decreases. *)
Theorem cycle_count_counts_orchestrator_entries :
  (∀ uuid hypothesis, cycle_count (initial_state uuid hypothesis) = 0)
  ∧ (∀ state n state',
       step orchestrator state = Ok (Some (n, state')) →
       cycle_count state' = cycle_count state + 1)
  ∧ (∀ state n state',
       step tools state = Ok (Some (n, state')) →
       cycle_count state' = cycle_count state)
  ∧ (∀ state n state',
       step update_state state = Ok (Some (n, state')) →
       cycle_count state' = cycle_count state)
  ∧ (∀ k n state entered n' state',
       run k n state = Ok (entered, n', state') →
       cycle_count state' = cycle_count state + orchestrator_entries entered
       ∧ cycle_count state ≤ cycle_count state').
Proof.
  split; [done|]. split; [apply step_orchestrator_count|].
  split; [intros ??? H; by apply step_tools_count in H as [_ ?]|].
  split; [intros ??? H; by apply step_update_state_count in H as [_ ?]|].
  intros k n state entered n' state' Hrun.
  apply run_count in Hrun. split; [done|].
  unfold orchestrator_entries in Hrun. lia.
Qed.

End MachineClaims.

Section MachineWitnesses.
Import Graph Stated Sample.

Lemma should_continue_research_priority_witness :
  should_continue_research tool_state = Ok route_tools
  ∧ cycle_count tool_state = 12 ∧ should_continue tool_state = Some false.
Proof.
  split; [|done].
  destruct (should_continue_research_priority tool_state tool_turn) as [Htools _].
  - reflexivity.
  - apply Htools. reflexivity.
Defined.

Lemma cycle_count_counts_orchestrator_entries_witness :
  ∃ entered n' state',
    graph_run newest_first scripted_llm scripted_tools "" no_context 3 orchestrator
      (initial_state "c0" "momentum persists") = Ok (entered, n', state')
    ∧ cycle_count state' = 0 + orchestrator_entries entered
    ∧ orchestrator_entries entered = 2.
Proof.
  eexists _, _, _. split; [vm_compute; reflexivity|].
  split; [|vm_compute; reflexivity].
  destruct (cycle_count_counts_orchestrator_entries newest_first scripted_llm scripted_tools ""
              no_context) as (_ & _ & _ & _ & Hrun).
  eapply proj1, (Hrun 3%nat orchestrator (initial_state "c0" "momentum persists")).
  vm_compute. reflexivity.
Defined.

End MachineWitnesses.

Section ExtractorClaims.
Import Graph Stated Sample.

Variable set_order : list string -> list string.
Variable llm_invoke : list Message -> result Message.
Variable tool_executor_invoke : ResearchState -> result (list Message).
Variable ORCHESTRATOR_SYSTEM_PROMPT : string.
Variable context_text : ResearchState -> string.

Local Abbreviation step :=
  (graph_step set_order llm_invoke tool_executor_invoke ORCHESTRATOR_SYSTEM_PROMPT context_text).

Lemma elem_of_list_set (f : string) (l : list string) : f ∈ Py.list_set set_order l ↔ f ∈ l.
Proof.
  unfold Py.list_set. case_bool_decide as Hchosen.
  - destruct Hchosen as [_ Hsame]. by rewrite <- (elem_of_list_to_set (C := gset string)), Hsame,
      elem_of_list_to_set.
  - by rewrite elem_of_elements, elem_of_list_to_set.
Qed.

(** C5 as amended.  After a pass through [update_state], the ruled-in
    features are the earlier ones together with those the turn lists after
    [RULED IN:], and the ruled-out features are the earlier ones together
    with those it lists after [RULED OUT:].  Nothing is removed from either
    list, so a feature is in both afterwards exactly when it is in both of
    these unions. *)
Theorem update_state_unions_without_resolution
    (state state' : ResearchState) (n : Node) (m : Message) :
  last (messages state) = Some m →
  step update_state state = Ok (Some (n, state')) →
  ∀ f : string,
    (f ∈ features_ruled_in state' ↔
       f ∈ features_ruled_in state ∨ f ∈ listed "RULED IN:" (text_of m))
    ∧ (f ∈ features_ruled_out state' ↔
       f ∈ features_ruled_out state ∨ f ∈ listed "RULED OUT:" (text_of m))
    ∧ (f ∈ features_ruled_in state' ∧ f ∈ features_ruled_out state' ↔
       (f ∈ features_ruled_in state ∨ f ∈ listed "RULED IN:" (text_of m))
       ∧ (f ∈ features_ruled_out state ∨ f ∈ listed "RULED OUT:" (text_of m))).
Proof.
  intros Hlast Hstep f. cbn [graph_step] in Hstep.
  rewrite (update_state_from_messages_eq set_order state m Hlast) in Hstep.
  cbn [mbind result_bind] in Hstep. injection Hstep as _ <-.
  cbn [apply_update features_ruled_in features_ruled_out].
  assert (Hin : f ∈ (if Py.contains "RULED IN:" (text_of m)
                     then Py.list_set set_order
                            (features_ruled_in state ++ listed "RULED IN:" (text_of m))
                     else features_ruled_in state)
                ↔ f ∈ features_ruled_in state ∨ f ∈ listed "RULED IN:" (text_of m)).
  { unfold listed. destruct (Py.contains "RULED IN:" (text_of m)).
    - by rewrite elem_of_list_set, elem_of_app.
    - rewrite elem_of_nil. tauto. }
  assert (Hout : f ∈ (if Py.contains "RULED OUT:" (text_of m)
                      then Py.list_set set_order
                             (features_ruled_out state ++ listed "RULED OUT:" (text_of m))
                      else features_ruled_out state)
                 ↔ f ∈ features_ruled_out state ∨ f ∈ listed "RULED OUT:" (text_of m)).
  { unfold listed. destruct (Py.contains "RULED OUT:" (text_of m)).
    - by rewrite elem_of_list_set, elem_of_app.
    - rewrite elem_of_nil. tauto. }
  rewrite Hin, Hout. tauto.
Qed.

(** C5, the claim as stated fails: a turn that rules out a feature an
    earlier cycle ruled in leaves that feature in both lists. *)
Lemma ruled_in_and_ruled_out_overlap :
  ∃ update,
    update_state_from_messages newest_first conflict_state = Ok update
    ∧ "rsi_14" ∈ features_ruled_in (apply_update conflict_state update)
    ∧ "rsi_14" ∈ features_ruled_out (apply_update conflict_state update).
Proof.
  eexists. split; [vm_compute; reflexivity|].
  split; vm_compute; constructor.
Qed.

(** The extractor never changes [promoted_strategies]. *)
Lemma update_state_keeps_promoted (state update : ResearchState) :
  update_state_from_messages set_order state = Ok update →
  promoted_strategies update = promoted_strategies state.
Proof.
  intros Hu. destruct (last (messages state)) as [m|] eqn:Hlast.
  - rewrite (update_state_from_messages_eq set_order state m Hlast) in Hu. by injection Hu as <-.
  - unfold update_state_from_messages, Py.last_item in Hu. by rewrite Hlast in Hu.
Qed.

(** C7, on the code: a turn that carries the promotion marker and names a
    strategy leaves [promoted_strategies] empty. *)
Theorem promotion_marker_adds_nothing :
  Py.contains "PROMOTE" (text_of promote_turn) = true
  ∧ ∀ order, ∃ update,
      update_state_from_messages order promote_state = Ok update
      ∧ promoted_strategies (apply_update promote_state update) = [].
Proof.
  split; [reflexivity|]. intros order. eexists. split; [vm_compute; reflexivity|].
  reflexivity.
Qed.

Lemma list_set_NoDup (l : list string) : NoDup (Py.list_set set_order l).
Proof.
  unfold Py.list_set. case_bool_decide as Hchosen; [by destruct Hchosen|apply NoDup_elements].
Qed.

(** C9 as amended.  On every state that has a latest turn the extractor
    returns a state and does not raise.  A marker that does not occur in the
    turn as written, colon included (absent, or written incompletely),
    leaves its field as it was.  A marker that does occur is applied
    wherever it stands and whatever follows it: the text after its first
    occurrence is read, up to the end of that line (or to the marker's next
    occurrence); the pieces between commas that are not blank are added to
    the list, which then holds each feature once; and the text after
    [NEXT HYPOTHESIS:], stripped, replaces the hypothesis, also when nothing
    follows the marker.  The other fields are copied. *)
Theorem extractor_applies_every_marker_that_occurs (state : ResearchState) (m : Message) :
  last (messages state) = Some m →
  ∃ update,
    update_state_from_messages set_order state = Ok update
    ∧ (Py.contains "RULED IN:" (text_of m) = false →
       features_ruled_in update = features_ruled_in state)
    ∧ (Py.contains "RULED OUT:" (text_of m) = false →
       features_ruled_out update = features_ruled_out state)
    ∧ (Py.contains "NEXT HYPOTHESIS:" (text_of m) = false →
       current_hypothesis update = current_hypothesis state)
    ∧ (Py.contains "RULED IN:" (text_of m) = true →
       ∃ new_features,
         marker_features "RULED IN:" (text_of m) = Ok new_features
         ∧ NoDup (features_ruled_in update)
         ∧ ∀ f, f ∈ features_ruled_in update
                ↔ f ∈ features_ruled_in state ∨ f ∈ new_features)
    ∧ (Py.contains "RULED OUT:" (text_of m) = true →
       ∃ ruled_out,
         marker_features "RULED OUT:" (text_of m) = Ok ruled_out
         ∧ NoDup (features_ruled_out update)
         ∧ ∀ f, f ∈ features_ruled_out update
                ↔ f ∈ features_ruled_out state ∨ f ∈ ruled_out)
    ∧ (Py.contains "NEXT HYPOTHESIS:" (text_of m) = true →
       ∃ line,
         marker_line "NEXT HYPOTHESIS:" (text_of m) = Ok line
         ∧ current_hypothesis update = Py.strip line)
    ∧ promoted_strategies update = promoted_strategies state
    ∧ messages update = messages state
    ∧ cycle_id update = cycle_id state
    ∧ cycle_count update = cycle_count state
    ∧ last_backtest_result update = last_backtest_result state
    ∧ should_continue update = should_continue state.
Proof.
  intros Hlast. eexists. split; [by apply update_state_from_messages_eq|].
  cbn [features_ruled_in features_ruled_out current_hypothesis promoted_strategies
       messages cycle_id cycle_count last_backtest_result should_continue].
  unfold announced_hypothesis, listed.
  split; [by intros ->|]. split; [by intros ->|]. split; [by intros ->|].
  split; [|split; [|split]].
  - intros Hin. rewrite Hin.
    destruct (marker_features_ok "RULED IN:" (text_of m)) as [fs ->]; [done..|].
    exists fs. split; [done|]. split; [apply list_set_NoDup|].
    intros f. by rewrite elem_of_list_set, elem_of_app.
  - intros Hin. rewrite Hin.
    destruct (marker_features_ok "RULED OUT:" (text_of m)) as [fs ->]; [done..|].
    exists fs. split; [done|]. split; [apply list_set_NoDup|].
    intros f. by rewrite elem_of_list_set, elem_of_app.
  - intros Hin. rewrite Hin.
    destruct (marker_line_ok "NEXT HYPOTHESIS:" (text_of m)) as [line ->]; [done..|].
    by exists line.
  - done.
Qed.

(** C9, the claim as stated fails: a marker in the middle of a sentence
    and a marker followed by nothing are both applied.  The turn adds two
    pieces of prose to the ruled-in features and replaces the hypothesis by
    the empty string. *)
Lemma malformed_markers_are_applied :
  ∃ update,
    update_state_from_messages newest_first stray_state = Ok update
    ∧ features_ruled_in stray_state = ["obv"]
    ∧ "the data failed" ∈ features_ruled_in update
    ∧ "badly" ∈ features_ruled_in update
    ∧ current_hypothesis stray_state = "momentum persists"
    ∧ current_hypothesis update = "".
Proof.
  eexists. split; [vm_compute; reflexivity|]. split; [reflexivity|].
  split; [vm_compute; do 1 constructor; constructor|]. split; [vm_compute; constructor|].
  by vm_compute.
Qed.

End ExtractorClaims.

Section ExtractorWitnesses.
Import Graph Stated Sample.

Lemma update_state_unions_without_resolution_witness :
  ∃ state',
    graph_step newest_first scripted_llm scripted_tools "" no_context update_state
      conflict_state
      = Ok (Some (orchestrator, state'))
    ∧ ("rsi_14" ∈ features_ruled_in state' ∧ "rsi_14" ∈ features_ruled_out state').
Proof.
  eexists. split; [vm_compute; reflexivity|].
  match goal with
  | |- _ ∈ features_ruled_in ?s ∧ _ =>
      destruct (update_state_unions_without_resolution newest_first scripted_llm scripted_tools
                  "" no_context conflict_state s orchestrator conflict_turn eq_refl)
        with (f := "rsi_14")
        as (_ & _ & Hboth)
  end.
  - vm_compute. reflexivity.
  - apply Hboth. split; [left|right]; vm_compute; constructor.
Defined.

Lemma extractor_applies_every_marker_that_occurs_witness :
  (∃ update,
     update_state_from_messages newest_first stray_state = Ok update
     ∧ features_ruled_out update = []
     ∧ "the data failed" ∈ features_ruled_in update
     ∧ current_hypothesis update = "")
  ∧ (∃ update,
       update_state_from_messages newest_first malformed_state = Ok update
       ∧ features_ruled_in update = ["obv"]
       ∧ current_hypothesis update = "momentum persists").
Proof.
  split.
  - destruct (extractor_applies_every_marker_that_occurs newest_first stray_state stray_turn)
      as (update & Hok & _ & Hout & _ & Hin & _ & Hhyp & _); [reflexivity|].
    exists update. split; [exact Hok|]. split; [apply Hout; vm_compute; reflexivity|].
    split.
    + destruct Hin as (new_features & Hnew & _ & Hmem); [vm_compute; reflexivity|].
      apply Hmem. right. vm_compute in Hnew. injection Hnew as <-. constructor.
    + destruct Hhyp as (line & Hline & ->); [vm_compute; reflexivity|].
      vm_compute in Hline. by injection Hline as <-.
  - destruct (extractor_applies_every_marker_that_occurs newest_first malformed_state
                malformed_turn) as (update & Hok & Hin & _ & Hhyp & _); [reflexivity|].
    exists update. split; [exact Hok|]. split.
    + apply Hin. vm_compute. reflexivity.
    + apply Hhyp. vm_compute. reflexivity.
Defined.

End ExtractorWitnesses.

(** ** Claims about the verdict and the labels *)

Section VerdictAndLabels.
Import Pandas Models Engine Stated Sample.

(** C2 as amended.  The verdict is [promote] exactly when the aggregate
    Sharpe is above 1.5, the aggregate drawdown is strictly above -0.12 and
    the overfitting score is below 0.5; otherwise it is [iterate] exactly
    when the aggregate Sharpe is above 0.8; otherwise it is [discard]. *)
Theorem decide_verdict_rules (avg_sharpe avg_drawdown overfitting_score : float) :
  let promoted :=
    Py.gt avg_sharpe 1.5 && Py.gt avg_drawdown (-0.12) && Py.lt overfitting_score 0.5 in
  (decide_verdict avg_sharpe avg_drawdown overfitting_score = promote ↔ promoted = true)
  ∧ (decide_verdict avg_sharpe avg_drawdown overfitting_score = iterate ↔
       promoted = false ∧ Py.gt avg_sharpe 0.8 = true)
  ∧ (decide_verdict avg_sharpe avg_drawdown overfitting_score = discard ↔
       promoted = false ∧ Py.gt avg_sharpe 0.8 = false).
Proof.
  unfold decide_verdict. cbv zeta.
  destruct (Py.gt avg_sharpe 1.5 && Py.gt avg_drawdown (-0.12) && Py.lt overfitting_score 0.5);
    destruct (Py.gt avg_sharpe 0.8); intuition congruence.
Qed.

(** C2, the claim as stated fails: at a drawdown of exactly -0.12 (Sharpe
    1.6, overfitting score 0.3) the inclusive rule promotes and the code
    answers [iterate]. *)
Lemma drawdown_bound_is_exclusive :
  specified_verdict 1.6 (-0.12) 0.3 = promote
  ∧ decide_verdict 1.6 (-0.12) 0.3 = iterate.
Proof. split; vm_compute; reflexivity. Qed.

(** The three verdicts the specification lists as examples. *)
Lemma decide_verdict_examples :
  decide_verdict 1.6 (-0.10) 0.3 = promote
  ∧ decide_verdict 1.6 (-0.20) 0.3 = iterate
  ∧ decide_verdict 0.5 (-0.10) 0.3 = discard.
Proof. repeat split; vm_compute; reflexivity. Qed.

(** When no later price satisfies [touched], [idxmax] answers the label of
    the first later price. *)
Lemma idxmax_untouched (touched : float → bool) (t0 : Z) (p0 : float) (future : Series float) :
  first_touch touched (values ((t0, p0) :: future)) = None →
  idxmax (List.map (fun p => (p.1, touched p.2)) ((t0, p0) :: future)) = Ok t0.
Proof.
  intros Hnone.
  assert (Hfind : ∀ l : Series float,
            first_touch touched (values l) = None →
            List.find (fun p : Z * bool => p.2) (List.map (fun p => (p.1, touched p.2)) l) = None).
  { induction l as [|[t p] l IH]; [done|]. cbn.
    destruct (touched p); [done|]. intros H. apply IH.
    unfold values. by destruct (first_touch touched l.*2). }
  apply Hfind in Hnone. unfold idxmax. cbn [List.map fst] in *. by rewrite Hnone.
Qed.

(** The time-barrier branch of [_triple_barrier_label] is never taken: when
    neither barrier is touched within the horizon the label is 1. *)
Lemma barrier_label_untouched (close : Series float) (stop_loss take_profit : float)
    (max_holding i : nat) (entry : float) :
  Py.item (values close) i = Ok entry →
  future_prices close max_holding i ≠ [] →
  take_profit_touch close take_profit max_holding i entry = None →
  stop_loss_touch close stop_loss max_holding i entry = None →
  barrier_label close stop_loss take_profit max_holding i = Ok 1
  ∧ specified_label close stop_loss take_profit max_holding i entry = 0.
Proof.
  intros Hentry Hfut Htp Hsl. split.
  - unfold barrier_label. rewrite Hentry. cbn [mbind result_bind].
    unfold take_profit_touch, stop_loss_touch, future_prices in *.
    destruct (take max_holding (drop (i + 1) close)) as [|[t0 p0] future]; [done|].
    rewrite (idxmax_untouched _ t0 p0 future Htp).
    rewrite (idxmax_untouched _ t0 p0 future Hsl).
    cbn [mbind result_bind]. unfold timestamp_truthy. cbn [andb negb orb].
    by rewrite Z.leb_refl.
  - unfold specified_label. by rewrite Htp.
Qed.

(** C1, on the code: over a price path that stays at 100 for the whole
    48-candle horizon (stop-loss 3%, take-profit 6%) neither barrier is
    touched, the specified label is 0, and [_triple_barrier_label] answers
    1. *)
Theorem flat_path_is_labelled_1 :
  take_profit_touch (flat_path 49 100) 0.06 48 0 100 = None
  ∧ stop_loss_touch (flat_path 49 100) 0.03 48 0 100 = None
  ∧ specified_label (flat_path 49 100) 0.03 0.06 48 0 100 = 0
  ∧ _triple_barrier_label (flat_path 49 100) 0.03 0.06 48 = Ok [(0, 1)].
Proof. repeat split; vm_compute; reflexivity. Qed.

End VerdictAndLabels.

Section VerdictAndLabelsWitnesses.
Import Pandas Models Engine Stated Sample.

Lemma barrier_label_untouched_witness :
  barrier_label (flat_path 49 100) 0.03 0.06 48 0 = Ok 1
  ∧ specified_label (flat_path 49 100) 0.03 0.06 48 0 100 = 0.
Proof.
  apply (barrier_label_untouched (flat_path 49 100) 0.03 0.06 48 0 100).
  - vm_compute. reflexivity.
  - vm_compute. discriminate.
  - vm_compute. reflexivity.
  - vm_compute. reflexivity.
Defined.

End VerdictAndLabelsWitnesses.

(** ** The evaluation engine *)

Section ResultFacts.

Lemma bind_raises {A B} (m : result A) (f : A → result B) :
  raises m → raises (m ≫= f).
Proof. intros [e ->]. by exists e. Qed.

Lemma bind_ok {A B} (m : result A) (f : A → result B) (b : B) :
  m ≫= f = Ok b → ∃ a, m = Ok a ∧ f a = Ok b.
Proof. destruct m as [a|e]; [by exists a|done]. Qed.

Lemma raises_or_returns {A} (m : result A) : raises m ∨ returns m.
Proof. destruct m as [a|e]; [right; by exists a|left; by exists e]. Qed.

End ResultFacts.

Section EngineFacts.
Import Pandas Models Engine Stated.

Variable exchange_candles : string -> string -> Z -> result (list Candle).
Variable _merge_funding_rate : DataFrame -> string -> Z -> result DataFrame.
Variable _merge_open_interest : DataFrame -> string -> Z -> result DataFrame.
Variable feature_series : string -> DataFrame -> result (list float).
Variable Model : Type.
Variable lgb_fit : Series (list float) -> Series Z -> result Model.
Variable lgb_predict_proba1 : Model -> Series (list float) -> result (list float).
Variable vbt_simulate : SimRequest -> result PortfolioStats.
Variable shap_mean_abs : Model -> Series (list float) -> result (list float).
Variable np_mean : list float -> float.
Variable format_2f : float -> string.

Local Abbreviation fetch := (fetch_ohlcv exchange_candles _merge_funding_rate _merge_open_interest).
Local Abbreviation features_of := (compute_features feature_series).
Local Abbreviation dataset := (frame_dataset feature_series).
Local Abbreviation evaluate_rows :=
  (evaluate_frame feature_series Model lgb_fit lgb_predict_proba1 vbt_simulate).
Local Abbreviation evaluate :=
  (evaluate_asset exchange_candles _merge_funding_rate _merge_open_interest feature_series
     Model lgb_fit lgb_predict_proba1 vbt_simulate).
Local Abbreviation evaluate_all :=
  (evaluate_assets exchange_candles _merge_funding_rate _merge_open_interest feature_series
     Model lgb_fit lgb_predict_proba1 vbt_simulate).
Local Abbreviation aggregate :=
  (_aggregate_results Model vbt_simulate shap_mean_abs np_mean format_2f).
Local Abbreviation backtest :=
  (run_backtest exchange_candles _merge_funding_rate _merge_open_interest feature_series
     Model lgb_fit lgb_predict_proba1 vbt_simulate shap_mean_abs np_mean format_2f).

(** *** Failures of the data *)

Lemma fetch_no_data symbol timeframe lookback :
  exchange_candles symbol timeframe lookback = Ok [] →
  fetch symbol timeframe lookback = Raise (no_data symbol timeframe).
Proof. intros H. unfold fetch_ohlcv. by rewrite H. Qed.

Lemma add_features_unregistered df names res name :
  name ∈ names → registered name = false →
  raises (add_features feature_series df names res).
Proof.
  intros Hin Hreg. revert res.
  induction names as [|n names IH]; intros res; [by apply elem_of_nil in Hin|].
  cbn [add_features]. destruct (registered n) eqn:Hn; cbn [negb]; [|by eexists].
  apply elem_of_cons in Hin as [->|Hin]; [congruence|].
  destruct (feature_series n df) as [data|e]; cbn [mbind result_bind]; [by apply IH|by eexists].
Qed.

(** The first unregistered name, when the indicators before it compute,
    is the one the error names. *)
Lemma add_features_first_unregistered df known name later res :
  Forall (fun k => registered k = true ∧ returns (feature_series k df)) known →
  registered name = false →
  add_features feature_series df (known ++ name :: later) res = Raise (unknown_feature name).
Proof.
  intros Hknown Hreg. revert res.
  induction Hknown as [|k known [Hk [data Hdata]] _ IH]; intros res; cbn [app add_features].
  - by rewrite Hreg.
  - rewrite Hk, Hdata. cbn [negb mbind result_bind]. apply IH.
Qed.

(** The call of [validate_ohlcv] ends the loop body: an asset whose data
    was fetched raises [NameError], an asset whose fetch raised raises that
    exception, and no asset is evaluated. *)
Lemma evaluate_fetched config asset df :
  fetch asset (timeframe_str (timeframe config)) (lookback_days config) = Ok df →
  evaluate config asset = Raise (NameError "name 'validate_ohlcv' is not defined").
Proof. intros Hfetch. unfold evaluate_asset. by rewrite Hfetch. Qed.

Lemma evaluate_not_fetched config asset e :
  fetch asset (timeframe_str (timeframe config)) (lookback_days config) = Raise e →
  evaluate config asset = Raise e.
Proof. intros Hfetch. unfold evaluate_asset. by rewrite Hfetch. Qed.

Lemma aggregate_empty config : aggregate config [] = Raise IndexError.
Proof. reflexivity. Qed.

(** C8, on the code.  [run_backtest] never returns a [BacktestResult]: its
    loop ends in the first asset.  When the fetch of the first asset raises,
    that exception ends the run: for an asset without candles it is the
    "No data returned" error that names the asset and the timeframe.  When
    the first asset is fetched, the run ends at the call of
    [validate_ohlcv] with a [NameError], whatever the requested features
    and whatever the data of the later assets are: an unregistered feature,
    which [compute_features] would report by name, and a later asset
    without data are never reported. *)
Theorem run_backtest_stops_at_validate_ohlcv (config : StrategyConfig) :
  (∀ br, backtest config ≠ Ok br)
  ∧ (∀ first rest df,
       assets config = first :: rest →
       fetch first (timeframe_str (timeframe config)) (lookback_days config) = Ok df →
       backtest config = Raise (NameError "name 'validate_ohlcv' is not defined"))
  ∧ (∀ first rest,
       assets config = first :: rest →
       exchange_candles first (timeframe_str (timeframe config)) (lookback_days config) = Ok [] →
       backtest config
       = Raise (ValueError ("No data returned for " +:+ first +:+ " "
                            +:+ timeframe_str (timeframe config))))
  ∧ (∀ df known name later,
       features config = known ++ name :: later →
       Forall (fun k => registered k = true ∧ returns (feature_series k df)) known →
       registered name = false →
       features_of df (features config)
       = Raise (ValueError ("Unknown feature: " +:+ name +:+ ". Available: "
                            +:+ repr_list FEATURE_REGISTRY))).
Proof.
  assert (Hfetched : ∀ first rest df,
            assets config = first :: rest →
            fetch first (timeframe_str (timeframe config)) (lookback_days config) = Ok df →
            backtest config = Raise (NameError "name 'validate_ohlcv' is not defined")).
  { intros first rest df Hassets Hfetch. unfold run_backtest. rewrite Hassets.
    cbn [evaluate_assets]. by rewrite (evaluate_fetched config first df Hfetch). }
  assert (Hnot : ∀ first rest e,
            assets config = first :: rest →
            fetch first (timeframe_str (timeframe config)) (lookback_days config) = Raise e →
            backtest config = Raise e).
  { intros first rest e Hassets Hfetch. unfold run_backtest. rewrite Hassets.
    cbn [evaluate_assets]. by rewrite (evaluate_not_fetched config first e Hfetch). }
  split; [|split; [exact Hfetched|split]].
  - intros br. destruct (assets config) as [|first rest] eqn:Hassets.
    + unfold run_backtest. rewrite Hassets. cbn [evaluate_assets mbind result_bind].
      by rewrite aggregate_empty.
    + destruct (fetch first (timeframe_str (timeframe config)) (lookback_days config))
        as [df|e] eqn:Hfetch.
      * by rewrite (Hfetched first rest df eq_refl Hfetch).
      * by rewrite (Hnot first rest e eq_refl Hfetch).
  - intros first rest Hassets Hnone.
    apply (Hnot first rest _ Hassets). by apply fetch_no_data.
  - intros df known name later Hfeat Hknown Hreg. unfold compute_features. rewrite Hfeat.
    by rewrite (add_features_first_unregistered df known name later df Hknown Hreg).
Qed.

(** *** Lines 27 to 41 of [run_backtest] *)

Lemma column_index name df s : column name df = Ok s → index s = frame_index df.
Proof.
  revert s. induction df as [|r df IH]; intros s; cbn [column].
  - by intros [= <-].
  - destruct (get_cell name r); [|done].
    destruct (column name df) as [rest|]; cbn [mbind result_bind]; [|done].
    intros [= <-]. unfold index in *. cbn. by rewrite (IH rest).
Qed.

Lemma select_index names df X : select names df = Ok X → index X = frame_index df.
Proof.
  revert X. induction df as [|r df IH]; intros X; cbn [select].
  - by intros [= <-].
  - destruct (select_row names r); cbn [mbind result_bind]; [|done].
    destruct (select names df) as [rest|]; cbn [mbind result_bind]; [|done].
    intros [= <-]. unfold index in *. cbn. by rewrite (IH rest).
Qed.

Lemma index_length {A} (s : Series A) : length (index s) = length s.
Proof. unfold index. by rewrite length_fmap. Qed.

Lemma barrier_labels_length close stop_loss take_profit max_holding range labels :
  barrier_labels close stop_loss take_profit max_holding range = Ok labels →
  length labels = length range.
Proof.
  revert labels. induction range as [|i range IH]; intros labels; cbn [barrier_labels].
  - by intros [= <-].
  - destruct (barrier_label _ _ _ _ i); cbn [mbind result_bind]; [|done].
    destruct (barrier_labels _ _ _ _ range) as [ls|]; cbn [mbind result_bind]; [|done].
    intros [= <-]. cbn. by rewrite (IH ls).
Qed.

(** The label series is indexed by the leading timestamps of the price
    series and is shorter than it by the horizon. *)
Lemma triple_barrier_label_index close stop_loss take_profit max_holding y :
  _triple_barrier_label close stop_loss take_profit max_holding = Ok y →
  length y = (length close - max_holding)%nat
  ∧ index y = take (length y) (index close).
Proof.
  unfold _triple_barrier_label. intros H.
  apply bind_ok in H as (labels & Hlabels & Hseries).
  apply barrier_labels_length in Hlabels. rewrite length_seq in Hlabels.
  unfold make_series in Hseries.
  destruct (length labels =? length (take (length labels) (index close)))%nat eqn:Hlen; [|done].
  apply Nat.eqb_eq in Hlen. injection Hseries as <-.
  assert (Hy : length (zip (take (length labels) (index close)) labels) = length labels).
  { rewrite length_zip. lia. }
  rewrite Hy. split; [done|].
  unfold index at 1. apply fst_zip. lia.
Qed.

Lemma slice_to_lookup {A} (k : Z) (l : list A) (i : nat) (x : A) :
  Py.slice_to k l !! i = Some x → l !! i = Some x.
Proof.
  unfold Py.slice_to. destruct (k <? 0); intros H; by apply lookup_take_Some in H as [? _].
Qed.

Lemma slice_to_index {A} (k : Z) (s : Series A) :
  index (Py.slice_to k s) = Py.slice_to k (index s).
Proof.
  unfold Py.slice_to, index. rewrite length_fmap. destruct (k <? 0); by rewrite fmap_take.
Qed.

(** Two series indexed by prefixes of one list of timestamps are aligned,
    and so are their leading slices. *)
Lemma aligned_prefix {A B} (X : Series A) (y : Series B) (n : nat) :
  index y = take n (index X) → aligned X y.
Proof.
  intros Hy i t u Ht Hu. rewrite Hy in Hu.
  apply lookup_take_Some in Hu as [Hu _]. congruence.
Qed.

Lemma aligned_slice_to {A B} (X : Series A) (y : Series B) (k : Z) :
  aligned X y → aligned (Py.slice_to k X) (Py.slice_to k y).
Proof.
  intros Hal i t u Ht Hu. rewrite slice_to_index in Ht. rewrite slice_to_index in Hu.
  apply slice_to_lookup in Ht, Hu. by eapply Hal.
Qed.

Lemma walk_forward_split_eq (X : Series (list float)) (y : Series Z) (test_ratio : float)
    (sp : Split) :
  _walk_forward_split X y test_ratio = Ok sp →
  ∃ split,
    split_index (length X) test_ratio = Ok split
    ∧ X_train sp = Py.slice_to split X ∧ X_test sp = Py.slice_from split X
    ∧ y_train sp = Py.slice_to split y ∧ y_test sp = Py.slice_from split y
    ∧ dates_test sp = index (Py.slice_from split X).
Proof.
  unfold _walk_forward_split. intros H. apply bind_ok in H as (split & Hsplit & Hsp).
  exists split. by injection Hsp as <-.
Qed.

Lemma dataset_eq config df0 df labels feature_df sp :
  dataset config df0 = Ok (df, labels, feature_df, sp) →
  features_of df0 (features config) = Ok df
  ∧ ∃ close,
      column "close" df = Ok close
      ∧ _triple_barrier_label close (stop_loss_pct config) (take_profit_pct config) 48 = Ok labels
      ∧ select (features config) df = Ok feature_df
      ∧ _walk_forward_split feature_df labels 0.3 = Ok sp.
Proof.
  unfold frame_dataset. intros H.
  apply bind_ok in H as (df1 & Hdf & H).
  apply bind_ok in H as (close & Hclose & H).
  apply bind_ok in H as (labels1 & Hlabels & H).
  apply bind_ok in H as (X & HX & H).
  apply bind_ok in H as (sp1 & Hsp & H).
  injection H as <- <- <- <-. split; [done|]. by exists close.
Qed.

(** C10 as amended.  [_walk_forward_split] computes one split index, from
    the length of [X] and the ratio alone, and cuts both [X] and [y] at that
    position whatever the length of [y].  In lines 27 to 41 of
    [run_backtest] the labels are computed on the close column of the frame
    [compute_features] returned, the frame the feature columns are selected
    from: both come after its [dropna] and lose the same rows.  The features
    have one row per row of that frame; the labels have 48 rows fewer when
    it has at least 48 and none otherwise, so the two lengths differ
    whenever the frame is not empty; and the label index is the leading part
    of the feature index.  So row [i] of [X_train] and row [i] of [y_train]
    carry the same timestamp wherever both exist, although the lengths of
    [X] and [y] differ. *)
Theorem walk_forward_split_in_run_backtest :
  (∀ X y test_ratio sp,
     _walk_forward_split X y test_ratio = Ok sp →
     ∃ split,
       split_index (length X) test_ratio = Ok split
       ∧ X_train sp = Py.slice_to split X ∧ X_test sp = Py.slice_from split X
       ∧ y_train sp = Py.slice_to split y ∧ y_test sp = Py.slice_from split y)
  ∧ (∀ config df0 df labels feature_df sp,
       dataset config df0 = Ok (df, labels, feature_df, sp) →
       features_of df0 (features config) = Ok df
       ∧ index feature_df = frame_index df
       ∧ (∃ close, column "close" df = Ok close
                   ∧ _triple_barrier_label close (stop_loss_pct config)
                       (take_profit_pct config) 48 = Ok labels)
       ∧ ((48 ≤ length feature_df)%nat → length feature_df = (length labels + 48)%nat)
       ∧ ((length feature_df < 48)%nat → labels = [])
       ∧ (feature_df ≠ [] → length labels ≠ length feature_df)
       ∧ index labels = take (length labels) (index feature_df)
       ∧ aligned (X_train sp) (y_train sp)).
Proof.
  split.
  - intros X y test_ratio sp H.
    destruct (walk_forward_split_eq X y test_ratio sp H) as (split & ? & ? & ? & ? & ? & _).
    by exists split.
  - intros config df0 df labels feature_df sp H.
    apply dataset_eq in H as (Hdf & close & Hclose & Hlabels & HX & Hsp).
    pose proof (column_index _ _ _ Hclose) as Hcidx. pose proof (select_index _ _ _ HX) as HXidx.
    pose proof (triple_barrier_label_index _ _ _ _ _ Hlabels) as [Hlen Hidx].
    apply walk_forward_split_eq in Hsp as (split & _ & -> & _ & -> & _).
    assert (Hrows : ∀ A (s : Series A), index s = frame_index df → length s = length df).
    { intros A s Hs. rewrite <- index_length, Hs. unfold frame_index. by rewrite length_map. }
    rewrite (Hrows _ close Hcidx), <- (Hrows _ feature_df HXidx) in Hlen.
    rewrite Hcidx, <- HXidx in Hidx.
    split; [done|]. split; [done|]. split; [by exists close|].
    split; [lia|]. split; [intros Hshort; apply nil_length_inv; lia|].
    split; [intros Hne; destruct feature_df; [done|cbn in *; lia]|].
    split; [done|].
    by eapply aligned_slice_to, aligned_prefix.
Qed.

(** *** The overfitting score *)

Lemma evaluate_eq config asset df0 r :
  evaluate_rows config asset df0 = Ok r →
  ∃ df labels feature_df sp close stats,
    dataset config df0 = Ok (df, labels, feature_df, sp)
    ∧ column "close" df = Ok close
    ∧ r_X_train r = X_train sp
    ∧ r_pf r = {| pf_close := loc close (dates_test sp); pf_stats := stats |}.
Proof.
  unfold evaluate_frame. intros H.
  apply bind_ok in H as ([[[df labels] feature_df] sp] & Hds & H).
  apply bind_ok in H as (model & _ & H).
  apply bind_ok in H as (probs & _ & H).
  apply bind_ok in H as (entries & _ & H).
  apply bind_ok in H as (exits & _ & H).
  apply bind_ok in H as (close & Hclose & H).
  apply bind_ok in H as (pf & Hpf & H).
  unfold from_signals in Hpf. apply bind_ok in Hpf as (stats & _ & Hpf).
  injection Hpf as <-. injection H as <-.
  by exists df, labels, feature_df, sp, close, stats.
Qed.

(** C4, on the code.  The overfitting score [_aggregate_results] returns is
    the absolute difference between the aggregate held-out Sharpe and the
    Sharpe of one further simulation, run for the first entry of [results]
    only: on the price series of that entry's portfolio, with entries that
    are true and exits that are false on the timestamps of that entry's
    training rows, with the fee constant, and with no stop-loss, no
    take-profit and no slippage.  The portfolio that lines 27 to 73 of
    [run_backtest] store in an entry is built on the close prices of the
    held-out rows, and the training rows they store are the rows before the
    split: the further simulation prices the held-out period, not the
    training period, and its signals carry the training timestamps. *)
Theorem in_sample_simulation_as_computed :
  (∀ config results br,
     aggregate config results = Ok br →
     ∃ first rest stats,
       results = first :: rest
       ∧ vbt_simulate
           {| sim_close := pf_close (r_pf first);
              sim_entries := const_series true (index (r_X_train first));
              sim_exits := const_series false (index (r_X_train first));
              sim_fees := Some FEES;
              sim_slippage := None;
              sim_init_cash := None;
              sim_sl_stop := None;
              sim_tp_stop := None |} = Ok stats
       ∧ overfitting_score br = PrimFloat.abs (sharpe_ratio br - pf_sharpe_ratio stats)%float)
  ∧ (∀ config asset df0 first,
       evaluate_rows config asset df0 = Ok first →
       ∃ df labels feature_df sp close,
         dataset config df0 = Ok (df, labels, feature_df, sp)
         ∧ column "close" df = Ok close
         ∧ pf_close (r_pf first) = loc close (index (X_test sp))
         ∧ r_X_train first = X_train sp).
Proof.
  split.
  - intros config results br Hagg.
    unfold _aggregate_results in Hagg.
    destruct results as [|first rest]; [done|].
    cbn [Py.item lookup list_lookup mbind result_bind] in Hagg.
    apply bind_ok in Hagg as (shap_values & _ & Hagg).
    unfold from_signals in Hagg at 1.
    apply bind_ok in Hagg as (in_sample_pf & Hsim & Hbr).
    apply bind_ok in Hsim as (stats & Hsim & Hin).
    injection Hin as <-. injection Hbr as <-.
    exists first, rest, stats. split; [done|]. split; [exact Hsim|].
    by cbn [pf_close overfitting_score sharpe_ratio pf_stats].
  - intros config asset df0 first Hfirst.
    apply evaluate_eq in Hfirst
      as (df & labels & feature_df & sp & close & stats & Hds & Hclose & HX & Hpf).
    exists df, labels, feature_df, sp, close. split; [done|]. split; [done|].
    split; [|done]. rewrite Hpf. cbn [pf_close].
    apply dataset_eq in Hds as (_ & _ & _ & _ & _ & Hsp).
    by apply walk_forward_split_eq in Hsp as (split & _ & _ & -> & _ & _ & ->).
Qed.

End EngineFacts.

Section EngineWitnesses.
Import Pandas Models Engine Stated Sample.

Lemma run_backtest_stops_at_validate_ohlcv_witness :
  sample_backtest unknown_feature_config
    = Raise (NameError "name 'validate_ohlcv' is not defined")
  ∧ sample_backtest btc_eth_config = Raise (NameError "name 'validate_ohlcv' is not defined")
  ∧ compute_features warmup_series btc_frame (features unknown_feature_config)
    = Raise (ValueError ("Unknown feature: hurst_exponent. Available: "
                         +:+ repr_list FEATURE_REGISTRY)).
Proof.
  split; [|split].
  - destruct (run_backtest_stops_at_validate_ohlcv btc_only_exchange funding_join
                open_interest_join warmup_series unit strict_fit constant_proba hold_simulate
                no_attribution mean no_format unknown_feature_config) as (_ & Hfetched & _).
    apply (Hfetched "BTC/USDT" [] btc_frame); [reflexivity|vm_compute; reflexivity].
  - destruct (run_backtest_stops_at_validate_ohlcv btc_only_exchange funding_join
                open_interest_join warmup_series unit strict_fit constant_proba hold_simulate
                no_attribution mean no_format btc_eth_config) as (_ & Hfetched & _).
    apply (Hfetched "BTC/USDT" ["ETH/USDT"] btc_frame); [reflexivity|vm_compute; reflexivity].
  - destruct (run_backtest_stops_at_validate_ohlcv btc_only_exchange funding_join
                open_interest_join warmup_series unit strict_fit constant_proba hold_simulate
                no_attribution mean no_format unknown_feature_config) as (_ & _ & _ & Hname).
    apply (Hname btc_frame ["log_return"] "hurst_exponent" []); [reflexivity| |reflexivity].
    constructor; [|constructor]. split; [reflexivity|]. eexists. reflexivity.
Defined.

(** C10, the claim as stated fails: on the BTC/USDT frame the features
    have 199 rows and the labels 151, yet each of the 139 rows of [X_train]
    carries the timestamp of the same row of [y_train]. *)
Lemma aligned_with_unequal_lengths :
  ∃ df labels feature_df sp,
    sample_dataset btc_config = Ok (df, labels, feature_df, sp)
    ∧ length feature_df = 199%nat
    ∧ length labels = 151%nat
    ∧ length (X_train sp) = 139%nat
    ∧ length (y_train sp) = 139%nat
    ∧ index (y_train sp) = index (X_train sp)
    ∧ aligned (X_train sp) (y_train sp).
Proof.
  eexists _, _, _, _. split; [vm_compute; reflexivity|].
  do 5 (split; [vm_compute; reflexivity|]).
  apply (aligned_prefix _ _ 139). vm_compute. reflexivity.
Qed.

Lemma walk_forward_split_in_run_backtest_witness :
  ∃ df labels feature_df sp,
    sample_dataset btc_config = Ok (df, labels, feature_df, sp)
    ∧ length feature_df = (length labels + 48)%nat
    ∧ length labels ≠ length feature_df
    ∧ index labels = take (length labels) (index feature_df)
    ∧ aligned (X_train sp) (y_train sp).
Proof.
  eexists _, _, _, _. split; [vm_compute; reflexivity|].
  destruct (walk_forward_split_in_run_backtest warmup_series) as [_ Hrun].
  edestruct (Hrun btc_config btc_frame) as (_ & _ & _ & Hlong & _ & Hdiffer & Hidx & Haligned);
    [vm_compute; reflexivity|].
  split; [apply Hlong; vm_compute; lia|]. split; [apply Hdiffer; vm_compute; discriminate|].
  split; [exact Hidx|exact Haligned].
Defined.

Lemma in_sample_simulation_as_computed_witness :
  ∃ first br stats specified,
    sample_evaluate btc_config "BTC/USDT" = Ok first
    ∧ sample_aggregate btc_config [first] = Ok br
    ∧ length (sim_close (in_sample_request first)) = 60%nat
    ∧ index (sim_close (in_sample_request first)) !! 0%nat = Some (140 * hour_ms)
    ∧ length (sim_entries (in_sample_request first)) = 139%nat
    ∧ last (index (sim_entries (in_sample_request first))) = Some (139 * hour_ms)
    ∧ sim_sl_stop (in_sample_request first) = None
    ∧ sim_tp_stop (in_sample_request first) = None
    ∧ hold_simulate (in_sample_request first) = Ok stats
    ∧ overfitting_score br = PrimFloat.abs (sharpe_ratio br - pf_sharpe_ratio stats)%float
    ∧ index btc_train_close !! 0%nat = Some (1 * hour_ms)
    ∧ sim_sl_stop (specified_in_sample_request btc_config btc_train_close)
      = Some (stop_loss_pct btc_config)
    ∧ specified_overfitting_score hold_simulate btc_config btc_train_close (sharpe_ratio br)
      = Ok specified
    ∧ PrimFloat.eqb (overfitting_score br) 0 = true
    ∧ PrimFloat.eqb (overfitting_score br) specified = false.
Proof.
  destruct (in_sample_simulation_as_computed warmup_series unit strict_fit constant_proba
              hold_simulate no_attribution mean no_format) as [Hscore _].
  eexists _, _, _, _. split; [vm_compute; reflexivity|].
  match goal with
  | |- sample_aggregate ?config ?results = Ok ?br ∧ _ =>
      assert (Hbr : sample_aggregate config results = Ok br) by (vm_compute; reflexivity);
      split; [exact Hbr|];
      destruct (Hscore config results br Hbr) as (first' & rest & stats' & Heq & Hsim & Hdiff)
  end.
  injection Heq as <- <-.
  do 7 (split; [vm_compute; reflexivity|]).
  split; [vm_compute in Hsim; injection Hsim as <-; exact Hdiff|].
  do 3 (split; [vm_compute; reflexivity|]).
  split; vm_compute; reflexivity.
Defined.

End EngineWitnesses.

(* ================================================================== *)
(** * Part III.  Further properties of the code *)
(* ================================================================== *)

(** ** The graph: history, untouched fields, termination *)

Section GraphRuns.
Import Graph Stated.

Variable set_order : list string -> list string.
Variable llm_invoke : list Message -> result Message.
Variable tool_executor_invoke : ResearchState -> result (list Message).
Variable ORCHESTRATOR_SYSTEM_PROMPT : string.
Variable context_text : ResearchState -> string.

Local Abbreviation step :=
  (graph_step set_order llm_invoke tool_executor_invoke ORCHESTRATOR_SYSTEM_PROMPT context_text).
Local Abbreviation run :=
  (graph_run set_order llm_invoke tool_executor_invoke ORCHESTRATOR_SYSTEM_PROMPT context_text).

(** What each node returns, as far as the history and the fields no node
    writes are concerned. *)
Lemma orchestrator_node_ok state update :
  orchestrator_node llm_invoke ORCHESTRATOR_SYSTEM_PROMPT context_text state = Ok update →
  ∃ response,
    llm_invoke (SystemMessage ORCHESTRATOR_SYSTEM_PROMPT
                  :: messages state ++ [HumanMessage (context_text state)]) = Ok response
    ∧ update =
        {| messages := [response];
           cycle_id := cycle_id state;
           cycle_count := cycle_count state + 1;
           features_ruled_in := features_ruled_in state;
           features_ruled_out := features_ruled_out state;
           promoted_strategies := promoted_strategies state;
           current_hypothesis := current_hypothesis state;
           last_backtest_result := last_backtest_result state;
           should_continue := should_continue state |}.
Proof.
  unfold orchestrator_node. intros H. apply bind_ok in H as (response & Hllm & H).
  exists response. split; [done|]. by injection H as <-.
Qed.

Lemma update_state_ok state update :
  update_state_from_messages set_order state = Ok update →
  messages update = messages state
  ∧ cycle_id update = cycle_id state
  ∧ should_continue update = should_continue state
  ∧ promoted_strategies update = promoted_strategies state
  ∧ last_backtest_result update = last_backtest_result state.
Proof.
  intros Hu. destruct (last (messages state)) as [m|] eqn:Hlast.
  - rewrite (update_state_from_messages_eq set_order state m Hlast) in Hu. by injection Hu as <-.
  - unfold update_state_from_messages, Py.last_item in Hu. by rewrite Hlast in Hu.
Qed.

Lemma step_history n state n' state' :
  step n state = Ok (Some (n', state')) →
  match n with
  | orchestrator => ∃ response, messages state' = messages state ++ [response]
  | tools => ∃ tool_messages,
      tool_executor_invoke state = Ok tool_messages
      ∧ messages state' = messages state ++ tool_messages
  | update_state => messages state' = messages state ++ messages state
  | END => False
  end.
Proof.
  destruct n; cbn [graph_step]; intros H.
  - apply bind_ok in H as (update & Hnode & H).
    apply orchestrator_node_ok in Hnode as (response & _ & ->).
    apply bind_ok in H as (r & _ & H). injection H as _ <-. by exists response.
  - apply bind_ok in H as (update & Hnode & H). unfold tool_node in Hnode.
    apply bind_ok in Hnode as (tool_messages & Htools & Hnode).
    injection Hnode as <-. injection H as _ <-. by exists tool_messages.
  - apply bind_ok in H as (update & Hnode & H).
    apply update_state_ok in Hnode as (Hm & _). injection H as _ <-.
    cbn [apply_update messages]. by rewrite Hm.
  - done.
Qed.

Lemma step_untouched n state n' state' :
  step n state = Ok (Some (n', state')) →
  cycle_id state' = cycle_id state
  ∧ should_continue state' = should_continue state
  ∧ promoted_strategies state' = promoted_strategies state
  ∧ last_backtest_result state' = last_backtest_result state.
Proof.
  destruct n; cbn [graph_step]; intros H.
  - apply bind_ok in H as (update & Hnode & H).
    apply orchestrator_node_ok in Hnode as (response & _ & ->).
    apply bind_ok in H as (r & _ & H). by injection H as _ <-.
  - apply bind_ok in H as (update & Hnode & H). unfold tool_node in Hnode.
    apply bind_ok in Hnode as (tool_messages & _ & Hnode).
    injection Hnode as <-. by injection H as _ <-.
  - apply bind_ok in H as (update & Hnode & H).
    apply update_state_ok in Hnode as (_ & ? & ? & ? & ?). by injection H as _ <-.
  - done.
Qed.

(** Induction over the steps of a run. *)
Lemma run_invariant (P : ResearchState → ResearchState → Prop) :
  (∀ s, P s s) →
  (∀ s1 s2 s3, P s1 s2 → P s2 s3 → P s1 s3) →
  (∀ n s n' s', step n s = Ok (Some (n', s')) → P s s') →
  ∀ k n state entered n' state',
    run k n state = Ok (entered, n', state') → P state state'.
Proof.
  intros Hrefl Htrans Hstep. induction k as [|k IH]; intros n state entered n' state'; cbn [graph_run].
  - intros [= _ _ <-]. apply Hrefl.
  - intros H. apply bind_ok in H as (next & Hnext & H).
    destruct next as [[n1 s1]|].
    + apply bind_ok in H as ([[ent ne] se] & Hrun & H). injection H as _ _ <-.
      eapply Htrans; [by eapply Hstep|by eapply IH].
    + injection H as _ _ <-. apply Hrefl.
Qed.

(** X1.  The history only grows: whatever the oracle and the tools answer, the
    history before a run is the leading part of the history after it. *)
Theorem history_is_append_only (k : nat) (n : Node) (state : ResearchState)
    (entered : list Node) (n' : Node) (state' : ResearchState) :
  run k n state = Ok (entered, n', state') →
  messages state `prefix_of` messages state'.
Proof.
  apply (run_invariant (fun s s' => messages s `prefix_of` messages s')).
  - done.
  - intros s1 s2 s3 H12 H23. by etrans.
  - intros n0 s n0' s' Hstep. apply step_history in Hstep.
    destruct n0; [destruct Hstep as [? ->]|destruct Hstep as (? & _ & ->)|rewrite Hstep|done];
      by apply prefix_app_r.
Qed.

(** X2.  What a step adds to the history: [orchestrator] adds the oracle's turn
    and nothing else (neither the system prompt nor the context message it
    sent), [tools] adds the turns the executor returned, and [update_state],
    which returns the whole state to a channel that concatenates, adds a
    second copy of the whole history. *)
Theorem history_growth_per_step (state : ResearchState) (n' : Node) (state' : ResearchState) :
  (step orchestrator state = Ok (Some (n', state')) →
     ∃ response,
       llm_invoke (SystemMessage ORCHESTRATOR_SYSTEM_PROMPT
                     :: messages state ++ [HumanMessage (context_text state)]) = Ok response
       ∧ messages state' = messages state ++ [response])
  ∧ (step tools state = Ok (Some (n', state')) →
     ∃ tool_messages,
       tool_executor_invoke state = Ok tool_messages
       ∧ messages state' = messages state ++ tool_messages)
  ∧ (step update_state state = Ok (Some (n', state')) →
     messages state' = messages state ++ messages state
     ∧ length (messages state') = (2 * length (messages state))%nat).
Proof.
  split; [|split].
  - cbn [graph_step]. intros H. apply bind_ok in H as (update & Hnode & H).
    apply orchestrator_node_ok in Hnode as (response & Hllm & ->).
    apply bind_ok in H as (r & _ & H). injection H as _ <-. by exists response.
  - intros H. by apply step_history in H.
  - intros H. apply step_history in H. rewrite H. split; [done|].
    rewrite length_app. lia.
Qed.


(** Two steps of a cycle that asks for no tool and is below the ceiling:
    the oracle's turn, then the extractor. *)
Lemma cycle_without_tools state response :
  llm_invoke (SystemMessage ORCHESTRATOR_SYSTEM_PROMPT
                :: messages state ++ [HumanMessage (context_text state)]) = Ok response →
  has_pending_tool_calls response = false →
  should_continue state ≠ Some false →
  cycle_count state + 1 < 10 →
  ∃ state1 state2,
    step orchestrator state = Ok (Some (update_state, state1))
    ∧ step update_state state1 = Ok (Some (orchestrator, state2))
    ∧ cycle_count state2 = cycle_count state + 1
    ∧ should_continue state2 = should_continue state.
Proof.
  intros Hllm Hpending Hflag Hlt.
  destruct (orchestrator_step_route set_order llm_invoke tool_executor_invoke
              ORCHESTRATOR_SYSTEM_PROMPT context_text state response Hllm)
    as (state1 & Hstep1 & Hm1 & Hc1).
  rewrite Hpending in Hstep1.
  destruct (cycle_count state + 1 >=? 10) eqn:Hge; [apply Z.geb_le in Hge; lia|].
  assert (Hdef : default true (should_continue state) = true)
    by (by destruct (should_continue state) as [[]|]).
  rewrite Hdef in Hstep1.
  pose proof (step_untouched _ _ _ _ Hstep1) as (_ & Hf1 & _).
  assert (Hlast : last (messages state1) = Some response) by (rewrite Hm1; apply last_snoc).
  exists state1. eexists. split; [exact Hstep1|].
  cbn [graph_step]. rewrite (update_state_from_messages_eq set_order state1 response Hlast).
  cbn [mbind result_bind]. split; [reflexivity|].
  cbn [apply_update cycle_count should_continue]. by rewrite Hc1, Hf1.
Qed.

(** X4.  The ceiling ends a run that uses no tool.  When the oracle always
    answers and never asks for a tool, a run that starts at [orchestrator]
    with [cycle_count <= 9] and a continuation flag that is not false
    reaches [END] with [cycle_count = 10]: it enters [orchestrator]
    [10 - cycle_count] times, [update_state] once between two entries, and
    nothing raises on the way. *)
Theorem run_without_tools_stops_at_ceiling (j : nat) (state : ResearchState) :
  (∀ msgs, ∃ response, llm_invoke msgs = Ok response ∧ has_pending_tool_calls response = false) →
  should_continue state ≠ Some false →
  cycle_count state = 9 - Z.of_nat j →
  ∃ entered state',
    run (2 * j + 1) orchestrator state = Ok (entered, END, state')
    ∧ cycle_count state' = 10
    ∧ orchestrator_entries entered = Z.of_nat j + 1
    ∧ length entered = (2 * j + 1)%nat.
Proof.
  intros Hllm. revert state. induction j as [|j IH]; intros state Hflag Hcount.
  - destruct (Hllm (SystemMessage ORCHESTRATOR_SYSTEM_PROMPT
                      :: messages state ++ [HumanMessage (context_text state)]))
      as (response & Hr & Hpending).
    destruct (orchestrator_step_route set_order llm_invoke tool_executor_invoke
                ORCHESTRATOR_SYSTEM_PROMPT context_text state response Hr)
      as (state1 & Hstep1 & _ & Hc1).
    rewrite Hpending in Hstep1.
    destruct (cycle_count state + 1 >=? 10) eqn:Hge;
      [|rewrite Z.geb_leb in Hge; apply Z.leb_gt in Hge; lia].
    exists [orchestrator], state1. cbn [Nat.mul Nat.add graph_run].
    rewrite Hstep1. cbn [mbind result_bind]. split; [done|].
    split; [lia|]. done.
  - destruct (Hllm (SystemMessage ORCHESTRATOR_SYSTEM_PROMPT
                      :: messages state ++ [HumanMessage (context_text state)]))
      as (response & Hr & Hpending).
    destruct (cycle_without_tools state response Hr Hpending Hflag)
      as (state1 & state2 & Hstep1 & Hstep2 & Hc2 & Hf2); [lia|].
    destruct (IH state2) as (entered & state' & Hrun & Hc & Hentries & Hlen);
      [by rewrite Hf2|lia|].
    exists (orchestrator :: update_state :: entered), state'.
    replace (2 * S j + 1)%nat with (S (S (2 * j + 1))) by lia.
    cbn [graph_run]. rewrite Hstep1. cbn [mbind result_bind].
    rewrite Hstep2. cbn [mbind result_bind]. rewrite Hrun. cbn [mbind result_bind].
    split; [done|]. split; [done|].
    unfold orchestrator_entries in *. cbn [List.filter length]. split; lia.
Qed.

Section ToolLoop.

Hypothesis always_tools :
  ∀ msgs, ∃ response, llm_invoke msgs = Ok response ∧ has_pending_tool_calls response = true.
Hypothesis tools_answer : ∀ s, ∃ tool_messages, tool_executor_invoke s = Ok tool_messages.

Lemma step_to_tools state :
  ∃ state1, step orchestrator state = Ok (Some (tools, state1))
            ∧ cycle_count state1 = cycle_count state + 1.
Proof using always_tools.
  destruct (always_tools (SystemMessage ORCHESTRATOR_SYSTEM_PROMPT
                            :: messages state ++ [HumanMessage (context_text state)]))
    as (response & Hr & Hpending).
  destruct (orchestrator_step_route set_order llm_invoke tool_executor_invoke
              ORCHESTRATOR_SYSTEM_PROMPT context_text state response Hr)
    as (state1 & Hstep1 & _ & Hc1).
  rewrite Hpending in Hstep1. by exists state1.
Qed.

Lemma step_from_tools state :
  ∃ state2, step tools state = Ok (Some (orchestrator, state2))
            ∧ cycle_count state2 = cycle_count state.
Proof using tools_answer.
  destruct (tools_answer state) as (tool_messages & Ht).
  eexists. cbn [graph_step]. unfold tool_node. rewrite Ht. cbn [mbind result_bind].
  split; reflexivity.
Qed.

(** The run never leaves the two nodes. *)
Lemma tool_loop_stays (k : nat) : ∀ n state,
  n = orchestrator ∨ n = tools →
  ∃ entered n' state',
    run k n state = Ok (entered, n', state') ∧ (n' = orchestrator ∨ n' = tools).
Proof using always_tools tools_answer.
  induction k as [|k IH]; intros n state Hn; [by exists [], n, state|].
  cbn [graph_run]. destruct Hn as [-> | ->].
  - destruct (step_to_tools state) as (state1 & -> & _). cbn [mbind result_bind].
    destruct (IH tools state1) as (entered & n' & state' & -> & Hn'); [by right|].
    cbn [mbind result_bind]. by eexists _, _, _.
  - destruct (step_from_tools state) as (state2 & -> & _). cbn [mbind result_bind].
    destruct (IH orchestrator state2) as (entered & n' & state' & -> & Hn'); [by left|].
    cbn [mbind result_bind]. by eexists _, _, _.
Qed.

Lemma tool_loop_rounds (m : nat) : ∀ state,
  ∃ entered state',
    run (2 * m) orchestrator state = Ok (entered, orchestrator, state')
    ∧ cycle_count state' = cycle_count state + Z.of_nat m
    ∧ length entered = (2 * m)%nat.
Proof using always_tools tools_answer.
  induction m as [|m IH]; intros state.
  - exists [], state. cbn. split; [done|]. split; [lia|done].
  - destruct (step_to_tools state) as (state1 & Hstep1 & Hc1).
    destruct (step_from_tools state1) as (state2 & Hstep2 & Hc2).
    destruct (IH state2) as (entered & state' & Hrun & Hc & Hlen).
    exists (orchestrator :: tools :: entered), state'.
    replace (2 * S m)%nat with (S (S (2 * m))) by lia.
    cbn [graph_run]. rewrite Hstep1. cbn [mbind result_bind].
    rewrite Hstep2. cbn [mbind result_bind]. rewrite Hrun. cbn [mbind result_bind].
    split; [done|]. split; [lia|]. cbn [length]. lia.
Qed.

End ToolLoop.

(** X5.  The ceiling does not end a run that keeps using tools: the routing
    function answers [tools] for a turn with pending tool calls before it
    looks at [cycle_count].  When the oracle asks for a tool on every turn
    and the executor always answers, the run alternates between
    [orchestrator] and [tools] and never reaches [END]; what ends it is the
    recursion limit.  Whatever the limit, streaming the graph raises
    [GraphRecursionError], and after any [2 * m] steps within the limit the
    run is back at [orchestrator] with [m] more cycles counted, also beyond
    the ceiling of 10. *)
Theorem run_with_tools_ends_at_the_recursion_limit (recursion_limit : nat)
    (state : ResearchState) :
  (∀ msgs, ∃ response, llm_invoke msgs = Ok response ∧ has_pending_tool_calls response = true) →
  (∀ s, ∃ tool_messages, tool_executor_invoke s = Ok tool_messages) →
  graph_stream set_order llm_invoke tool_executor_invoke ORCHESTRATOR_SYSTEM_PROMPT context_text
    recursion_limit state = Raise GraphRecursionError
  ∧ ∀ m, (2 * m ≤ recursion_limit)%nat →
      ∃ entered state',
        run (2 * m) orchestrator state = Ok (entered, orchestrator, state')
        ∧ cycle_count state' = cycle_count state + Z.of_nat m
        ∧ length entered = (2 * m)%nat.
Proof.
  intros Hllm Htools. split.
  - unfold graph_stream.
    destruct (tool_loop_stays Hllm Htools recursion_limit orchestrator state)
      as (entered & n' & state' & -> & Hn'); [by left|].
    cbn [mbind result_bind]. destruct Hn' as [-> | ->].
    + by destruct (step_to_tools Hllm state') as (state1 & -> & _).
    + by destruct (step_from_tools Htools state') as (state2 & -> & _).
  - intros m _. apply (tool_loop_rounds Hllm Htools).
Qed.

End GraphRuns.

(** ** The extractor: repeated extraction and the shape of what it reads *)

Section ExtractorMore.
Import Graph Stated.

Variable set_order : list string -> list string.

(** Two lists made from lists with the same elements are arrangements of
    each other, whatever order each was given. *)
Lemma list_set_Permutation (order order' : list string -> list string) (a b : list string) :
  (∀ f, f ∈ a ↔ f ∈ b) → Py.list_set order a ≡ₚ Py.list_set order' b.
Proof.
  intros Hsame. apply NoDup_Permutation; [apply list_set_NoDup..|].
  intros f. by rewrite !elem_of_list_set.
Qed.

(** X6.  Extracting again changes nothing but, possibly, the order of the
    lists: the extractor run on the state it returned (the latest turn is
    the same) returns a state with the same hypothesis and the same other
    fields, and lists that hold the same features, each once.  A list whose
    marker does not occur is returned as it is; a list whose marker occurs
    is rebuilt from a set, so its order is the interpreter's choice and may
    differ from the order of the first pass. *)
Theorem repeated_extraction_only_reorders (state update : ResearchState) (m : Message) :
  last (messages state) = Some m →
  update_state_from_messages set_order state = Ok update →
  ∃ again,
    update_state_from_messages set_order update = Ok again
    ∧ features_ruled_in again ≡ₚ features_ruled_in update
    ∧ features_ruled_out again ≡ₚ features_ruled_out update
    ∧ (Py.contains "RULED IN:" (text_of m) = false →
       features_ruled_in again = features_ruled_in update)
    ∧ (Py.contains "RULED OUT:" (text_of m) = false →
       features_ruled_out again = features_ruled_out update)
    ∧ current_hypothesis again = current_hypothesis update
    ∧ promoted_strategies again = promoted_strategies update
    ∧ messages again = messages update
    ∧ cycle_id again = cycle_id update
    ∧ cycle_count again = cycle_count update
    ∧ last_backtest_result again = last_backtest_result update
    ∧ should_continue again = should_continue update.
Proof.
  intros Hlast Hu.
  rewrite (update_state_from_messages_eq set_order state m Hlast) in Hu. injection Hu as <-.
  eexists. split; [erewrite update_state_from_messages_eq; [reflexivity|exact Hlast]|].
  cbn [messages cycle_id cycle_count features_ruled_in features_ruled_out
       promoted_strategies current_hypothesis last_backtest_result should_continue].
  split; [|split]; [| |split; [by intros ->|split; [by intros ->|]]].
  - destruct (Py.contains "RULED IN:" (text_of m)); [|done].
    apply list_set_Permutation. intros f. rewrite !elem_of_app, elem_of_list_set, elem_of_app.
    tauto.
  - destruct (Py.contains "RULED OUT:" (text_of m)); [|done].
    apply list_set_Permutation. intros f. rewrite !elem_of_app, elem_of_list_set, elem_of_app.
    tauto.
  - split; [|done]. unfold announced_hypothesis.
    destruct (Py.contains "NEXT HYPOTHESIS:" (text_of m)); [|done].
    by destruct (marker_line "NEXT HYPOTHESIS:" (text_of m)).
Qed.

(** *** [strip] *)

Lemma rstrip_cons (c : ascii) (s : string) :
  Py.rstrip (String c s) =
    match Py.rstrip s with
    | EmptyString => if Py.isspace c then EmptyString else String c EmptyString
    | String d t => String c (String d t)
    end.
Proof. cbn [Py.rstrip]. by destruct (Py.rstrip s). Qed.

Lemma rstrip_idempotent (s : string) : Py.rstrip (Py.rstrip s) = Py.rstrip s.
Proof.
  induction s as [|c s IH]; [done|]. rewrite rstrip_cons.
  destruct (Py.rstrip s) as [|d t] eqn:Ht.
  - destruct (Py.isspace c) eqn:Hc; [done|]. rewrite rstrip_cons. cbn [Py.rstrip]. by rewrite Hc.
  - rewrite rstrip_cons. by rewrite IH.
Qed.

Lemma lstrip_head (s : string) :
  Py.lstrip s = EmptyString ∨ ∃ c t, Py.lstrip s = String c t ∧ Py.isspace c = false.
Proof.
  induction s as [|c s IH]; [by left|]. cbn [Py.lstrip].
  destruct (Py.isspace c) eqn:Hc; [done|]. right. by exists c, s.
Qed.

Lemma rstrip_head (c : ascii) (t : string) :
  Py.isspace c = false → ∃ t', Py.rstrip (String c t) = String c t'.
Proof.
  intros Hc. rewrite rstrip_cons. destruct (Py.rstrip t); [rewrite Hc|]; by eexists.
Qed.

Lemma strip_idempotent (s : string) : Py.strip (Py.strip s) = Py.strip s.
Proof.
  unfold Py.strip. destruct (lstrip_head s) as [->|(c & t & -> & Hc)]; [done|].
  destruct (rstrip_head c t Hc) as [t' Ht']. rewrite Ht'.
  cbn [Py.lstrip]. rewrite Hc, <- Ht'. apply rstrip_idempotent.
Qed.

(** The first and the last character of a stripped string are no
    whitespace. *)
Lemma rstrip_last (s : string) (c : ascii) :
  last (list_ascii_of_string (Py.rstrip s)) = Some c → Py.isspace c = false.
Proof.
  revert c. induction s as [|d s IH]; intros c; [done|]. rewrite rstrip_cons.
  destruct (Py.rstrip s) as [|e t] eqn:Ht.
  - destruct (Py.isspace d) eqn:Hd; [done|]. cbn. by intros [= <-].
  - cbn [list_ascii_of_string] in *. rewrite last_cons_cons. apply IH.
Qed.

(** X7.  Every feature the extractor reads from a marker line is a non-empty
    string without leading or trailing whitespace, and a list it rewrites has
    no duplicates. *)
Theorem extracted_features_are_clean (marker content : string) (state update : ResearchState)
    (m : Message) :
  (∀ f, f ∈ listed marker content →
     f ≠ EmptyString
     ∧ Py.strip f = f
     ∧ (∀ c, head (list_ascii_of_string f) = Some c → Py.isspace c = false)
     ∧ (∀ c, last (list_ascii_of_string f) = Some c → Py.isspace c = false))
  ∧ (last (messages state) = Some m →
     update_state_from_messages set_order state = Ok update →
     (Py.contains "RULED IN:" (text_of m) = true → NoDup (features_ruled_in update))
     ∧ (Py.contains "RULED OUT:" (text_of m) = true → NoDup (features_ruled_out update))).
Proof.
  split.
  - intros f Hf. unfold listed in Hf.
    destruct (Py.contains marker content); [|by apply elem_of_nil in Hf].
    destruct (marker_features marker content) as [fs|] eqn:Hfs; [|by apply elem_of_nil in Hf].
    unfold marker_features in Hfs. apply bind_ok in Hfs as (line & _ & Hfs).
    apply bind_ok in Hfs as (pieces & _ & Hfs). injection Hfs as <-.
    apply list_elem_of_In, in_map_iff in Hf as (p & <- & Hp).
    apply filter_In in Hp as [_ Hp].
    split; [by destruct (Py.strip p)|]. split; [apply strip_idempotent|]. split.
    + intros c Hc. unfold Py.strip in Hc.
      destruct (lstrip_head p) as [Hl|(d & t & Hl & Hd)]; rewrite Hl in Hc; [done|].
      destruct (rstrip_head d t Hd) as [t' Ht']. rewrite Ht' in Hc.
      cbn in Hc. by injection Hc as <-.
    + intros c. unfold Py.strip. apply rstrip_last.
  - intros Hlast Hu. rewrite (update_state_from_messages_eq set_order state m Hlast) in Hu.
    injection Hu as <-. cbn [features_ruled_in features_ruled_out].
    split; intros ->; apply list_set_NoDup.
Qed.

End ExtractorMore.

Section ExtractorMoreWitnesses.
Import Graph Stated Sample MoreSample.

Lemma repeated_extraction_only_reorders_witness :
  ∃ update again,
    update_state_from_messages newest_first full_state = Ok update
    ∧ update_state_from_messages newest_first update = Ok again
    ∧ features_ruled_in update = ["rsi_7"; "obv"]
    ∧ features_ruled_in again = ["obv"; "rsi_7"]
    ∧ features_ruled_in again ≡ₚ features_ruled_in update
    ∧ current_hypothesis again = "volume leads price".
Proof.
  eexists _, _. split; [vm_compute; reflexivity|].
  destruct (repeated_extraction_only_reorders newest_first full_state _ full_turn eq_refl
              ltac:(vm_compute; reflexivity))
    as (again & Hagain & Hin & _ & _ & _ & Hhyp & _).
  vm_compute in Hagain. injection Hagain as <-.
  split; [vm_compute; reflexivity|]. split; [reflexivity|]. split; [reflexivity|].
  split; [exact Hin|exact Hhyp].
Defined.

Lemma extracted_features_are_clean_witness :
  listed "RULED IN:" (text_of full_turn) = ["rsi_7"; "obv"]
  ∧ "rsi_7" ≠ EmptyString ∧ Py.strip "rsi_7" = "rsi_7".
Proof.
  split; [vm_compute; reflexivity|].
  destruct (extracted_features_are_clean newest_first "RULED IN:" (text_of full_turn)
              full_state full_state full_turn)
    as [Hclean _].
  destruct (Hclean "rsi_7") as (Hne & Hstrip & _); [|by split].
  vm_compute. constructor.
Defined.

End ExtractorMoreWitnesses.

(** ** Labels: shape, locality, and what the comparison of labels decides *)

Section LabelsMore.
Import Pandas Models Engine Stated.

Lemma idxmax_ok (s : Series bool) : s ≠ [] → ∃ t, idxmax s = Ok t.
Proof.
  destruct s as [|[t0 b0] s]; [done|]. intros _. unfold idxmax.
  destruct (List.find _ _) as [[t b]|]; by eexists.
Qed.

Lemma barrier_label_binary close stop_loss take_profit max_holding i l :
  barrier_label close stop_loss take_profit max_holding i = Ok l → l = 0 ∨ l = 1.
Proof.
  unfold barrier_label. intros H.
  apply bind_ok in H as (entry & _ & H).
  apply bind_ok in H as (tp_hit & _ & H).
  apply bind_ok in H as (sl_hit & _ & H).
  destruct (_ && _); [|destruct (timestamp_truthy sl_hit)]; injection H as <-; auto.
Qed.

Lemma barrier_label_ok close stop_loss take_profit max_holding i :
  (1 ≤ max_holding)%nat → (i + max_holding < length close)%nat →
  ∃ l, barrier_label close stop_loss take_profit max_holding i = Ok l.
Proof.
  intros Hmh Hi. unfold barrier_label, Py.item.
  destruct (values close !! i) as [entry|] eqn:Hentry; cycle 1.
  { apply lookup_ge_None in Hentry. unfold values in Hentry.
    rewrite length_fmap in Hentry. lia. }
  cbn [mbind result_bind].
  assert (Hfut : take max_holding (drop (i + 1) close) ≠ []).
  { intros Hnil. apply (f_equal length) in Hnil.
    rewrite length_take, length_drop in Hnil. cbn in Hnil. lia. }
  destruct (idxmax_ok (List.map (fun p => (p.1, Py.ge p.2 (entry * (1 + take_profit))%float))
                         (take max_holding (drop (i + 1) close)))) as [tp_hit ->].
  { intros Hnil. apply map_eq_nil in Hnil. done. }
  destruct (idxmax_ok (List.map (fun p => (p.1, Py.le p.2 (entry * (1 - stop_loss))%float))
                         (take max_holding (drop (i + 1) close)))) as [sl_hit ->].
  { intros Hnil. apply map_eq_nil in Hnil. done. }
  cbn [mbind result_bind].
  destruct (_ && _); [|destruct (timestamp_truthy sl_hit)]; by eexists.
Qed.

Lemma barrier_labels_ok close stop_loss take_profit max_holding range :
  (1 ≤ max_holding)%nat →
  Forall (fun i => (i + max_holding < length close)%nat) range →
  ∃ labels,
    barrier_labels close stop_loss take_profit max_holding range = Ok labels
    ∧ Forall (fun l => l = 0 ∨ l = 1) labels.
Proof.
  intros Hmh Hrange. induction Hrange as [|i range Hi _ (labels & IH & Hbin)].
  - by exists [].
  - destruct (barrier_label_ok close stop_loss take_profit max_holding i Hmh Hi) as [l Hl].
    exists (l :: labels). cbn [barrier_labels]. rewrite Hl, IH. cbn [mbind result_bind].
    split; [done|]. constructor; [by eapply barrier_label_binary|done].
Qed.

(** X8.  For a horizon of at least one candle [_triple_barrier_label] never
    raises: it returns one label, 0 or 1, for each entry that has a full
    horizon after it, indexed by the leading timestamps of the prices; a
    series no longer than the horizon gives the empty series.  For a horizon
    of 0 it raises on every non-empty series. *)
Theorem triple_barrier_label_shape (close : Series float) (stop_loss take_profit : float)
    (max_holding : nat) :
  ((1 ≤ max_holding)%nat →
   ∃ y,
     _triple_barrier_label close stop_loss take_profit max_holding = Ok y
     ∧ length y = (length close - max_holding)%nat
     ∧ index y = take (length y) (index close)
     ∧ Forall (fun l => l = 0 ∨ l = 1) (values y)
     ∧ ((length close ≤ max_holding)%nat → y = []))
  ∧ (max_holding = 0%nat → close ≠ [] →
     _triple_barrier_label close stop_loss take_profit max_holding
     = Raise (ValueError "attempt to get argmax of an empty sequence")).
Proof.
  split.
  - intros Hmh.
    destruct (barrier_labels_ok close stop_loss take_profit max_holding
                (seq 0 (length close - max_holding)) Hmh) as (labels & Hlabels & Hbin).
    { apply Forall_forall. intros i Hi. apply elem_of_seq in Hi. lia. }
    pose proof (barrier_labels_length _ _ _ _ _ _ Hlabels) as Hlen.
    rewrite length_seq in Hlen.
    assert (Hy : _triple_barrier_label close stop_loss take_profit max_holding
                 = Ok (zip (take (length labels) (index close)) labels)).
    { unfold _triple_barrier_label. rewrite Hlabels. cbn [mbind result_bind].
      unfold make_series.
      assert (Hidx : length labels = length (take (length labels) (index close))).
      { rewrite length_take, index_length. lia. }
      apply Nat.eqb_eq in Hidx. by rewrite Hidx. }
    eexists. split; [exact Hy|].
    destruct (triple_barrier_label_index _ _ _ _ _ Hy) as [Hl Hi].
    split; [done|]. split; [done|]. split.
    + unfold values. rewrite snd_zip; [done|]. rewrite length_take, index_length. lia.
    + intros Hshort. apply nil_length_inv. lia.
  - intros -> Hne. unfold _triple_barrier_label.
    destruct close as [|[t0 p0] close]; [done|].
    rewrite Nat.sub_0_r. cbn [length seq barrier_labels].
    unfold barrier_label at 1. cbn [Py.item values fmap list_fmap lookup list_lookup snd
                                    mbind result_bind take].
    reflexivity.
Qed.

(** X9.  No lookahead beyond the horizon and no look back: the label of entry
    [i] is decided by the [max_holding + 1] entries from [i] on.  Two series
    that agree there, timestamps included, give entry [i] the same label,
    whatever they hold before and after. *)
Theorem barrier_label_is_local (close close' : Series float) (stop_loss take_profit : float)
    (max_holding i : nat) :
  take (S max_holding) (drop i close) = take (S max_holding) (drop i close') →
  barrier_label close stop_loss take_profit max_holding i
  = barrier_label close' stop_loss take_profit max_holding i.
Proof.
  intros Hwin.
  assert (Hentry : values close !! i = values close' !! i).
  { assert (Hc : ∀ l : list (Z * float), l !! i = take (S max_holding) (drop i l) !! 0%nat).
    { intros l. rewrite lookup_take_lt by lia. rewrite lookup_drop. by rewrite Nat.add_0_r. }
    unfold values. by rewrite !list_lookup_fmap, (Hc close), (Hc close'), Hwin. }
  assert (Hfut : take max_holding (drop (i + 1) close) = take max_holding (drop (i + 1) close')).
  { rewrite <- !(drop_drop _ 1 i).
    rewrite (take_drop_commute (drop i close)), (take_drop_commute (drop i close')).
    change (1 + max_holding)%nat with (S max_holding). by rewrite Hwin. }
  unfold barrier_label, Py.item. by rewrite Hentry, Hfut.
Qed.

End LabelsMore.

Section LabelsCompare.
Import Pandas Models Engine Stated.

Lemma StronglySorted_take {A} (R : relation A) (n : nat) (l : list A) :
  StronglySorted R l → StronglySorted R (take n l).
Proof. rewrite <- (take_drop n l) at 1. apply StronglySorted_app_1_l. Qed.

Lemma StronglySorted_drop {A} (R : relation A) (n : nat) (l : list A) :
  StronglySorted R l → StronglySorted R (drop n l).
Proof. rewrite <- (take_drop n l) at 1. apply StronglySorted_app_1_r. Qed.

(** In a strictly increasing list, comparing two entries is comparing
    their positions. *)
Lemma sorted_lookup_leb (l : list Z) : StronglySorted Z.lt l →
  ∀ a b x y, l !! a = Some x → l !! b = Some y → (x <=? y) = (a <=? b)%nat.
Proof.
  induction 1 as [|z l Hl IH Hz]; intros a b x y Ha Hb; [done|].
  rewrite Forall_forall in Hz.
  destruct a as [|a], b as [|b]; cbn in Ha, Hb.
  - injection Ha as <-. injection Hb as <-. by rewrite Z.leb_refl.
  - injection Ha as <-. apply list_elem_of_lookup_2, Hz in Hb.
    cbn. apply Z.leb_le. lia.
  - injection Hb as <-. apply list_elem_of_lookup_2, Hz in Ha.
    cbn. apply Z.leb_gt. lia.
  - cbn. by eapply IH.
Qed.

(** [idxmax] answers the timestamp at the position of the first touch, and
    the first timestamp when there is none. *)
Lemma idxmax_position (touched : float → bool) (future : Series float) :
  future ≠ [] →
  ∃ t, idxmax (List.map (fun p => (p.1, touched p.2)) future) = Ok t
       ∧ index future !! default 0%nat (first_touch touched (values future)) = Some t.
Proof.
  assert (Hfind : ∀ l : Series float,
            match first_touch touched (values l) with
            | Some k => ∃ t b,
                List.find (fun p : Z * bool => p.2) (List.map (fun p => (p.1, touched p.2)) l)
                = Some (t, b) ∧ index l !! k = Some t
            | None =>
                List.find (fun p : Z * bool => p.2) (List.map (fun p => (p.1, touched p.2)) l)
                = None
            end).
  { induction l as [|[t p] l IH]; [done|].
    cbn [values fmap list_fmap snd first_touch List.map List.find fst] in *.
    destruct (touched p) eqn:Hp; [by exists t, true|].
    unfold values in IH. destruct (first_touch touched l.*2) as [k|]; cbn; [|done].
    destruct IH as (t' & b & -> & Hk). by exists t', b. }
  destruct future as [|[t0 p0] future]; [done|]. intros _.
  specialize (Hfind ((t0, p0) :: future)). unfold idxmax.
  cbn [List.map fst] in *.
  destruct (first_touch touched (values ((t0, p0) :: future))) as [k|].
  - destruct Hfind as (t & b & -> & Hk). by exists t.
  - rewrite Hfind. by exists t0.
Qed.

(** X10.  What the code's comparison decides.  On prices with strictly
    increasing timestamps and a non-empty horizon, the label of entry [i] is
    1 exactly when the position of the first take-profit touch is not after
    the position of the first stop-loss touch, where a barrier that is not
    touched counts as touched at position 0.  So an untouched take-profit
    barrier always gives 1, and a take-profit touch after the first candle
    with no stop-loss touch gives 0. *)
Theorem barrier_label_compares_positions (close : Series float)
    (stop_loss take_profit : float) (max_holding i : nat) (entry : float) :
  StronglySorted Z.lt (index close) →
  Py.item (values close) i = Ok entry →
  future_prices close max_holding i ≠ [] →
  let tp := default 0%nat (take_profit_touch close take_profit max_holding i entry) in
  let sl := default 0%nat (stop_loss_touch close stop_loss max_holding i entry) in
  barrier_label close stop_loss take_profit max_holding i
  = Ok (if (tp <=? sl)%nat then 1 else 0).
Proof.
  intros Hsorted Hentry Hfut tp sl. unfold barrier_label. rewrite Hentry.
  cbn [mbind result_bind].
  assert (Hne : take max_holding (drop (i + 1) close) ≠ []).
  { intros Hnil. apply Hfut. unfold future_prices. by rewrite Hnil. }
  destruct (idxmax_position (fun p => Py.ge p (entry * (1 + take_profit))%float) _ Hne)
    as (tp_hit & -> & Htp).
  destruct (idxmax_position (fun p => Py.le p (entry * (1 - stop_loss))%float) _ Hne)
    as (sl_hit & -> & Hsl).
  cbn [mbind result_bind]. unfold timestamp_truthy. cbn [andb negb orb].
  assert (Hs : StronglySorted Z.lt (index (take max_holding (drop (i + 1) close)))).
  { unfold index. rewrite fmap_take, fmap_drop.
    by apply StronglySorted_take, StronglySorted_drop. }
  rewrite (sorted_lookup_leb _ Hs _ _ _ _ Htp Hsl).
  fold (future_prices close max_holding i).
  fold (take_profit_touch close take_profit max_holding i entry).
  fold (stop_loss_touch close stop_loss max_holding i entry).
  fold tp sl. by destruct (tp <=? sl)%nat.
Qed.

End LabelsCompare.

(** ** The walk-forward split *)

Section SplitMore.
Import Pandas Models Engine Stated.

Lemma slice_to_from {A} (k : Z) (l : list A) : Py.slice_to k l ++ Py.slice_from k l = l.
Proof. unfold Py.slice_to, Py.slice_from. destruct (k <? 0); apply take_drop. Qed.

Lemma slice_from_index {A} (k : Z) (s : Series A) :
  index (Py.slice_from k s) = Py.slice_from k (index s).
Proof.
  unfold Py.slice_from, index. rewrite length_fmap. destruct (k <? 0); by rewrite fmap_drop.
Qed.

(** X11.  The split is a partition made at one position.  Whatever the ratio,
    the training rows followed by the held-out rows are the rows of [X], in
    order, and likewise for [y]; [dates_test] are the timestamps of the
    held-out rows; and when the timestamps of [X] increase strictly, every
    training timestamp is before every held-out one.  A ratio that is [nan]
    makes the function raise. *)
Theorem walk_forward_split_partitions (X : Series (list float)) (y : Series Z)
    (test_ratio : float) :
  (∀ sp,
     _walk_forward_split X y test_ratio = Ok sp →
     X_train sp ++ X_test sp = X
     ∧ y_train sp ++ y_test sp = y
     ∧ dates_test sp = index (X_test sp)
     ∧ (length (X_train sp) + length (X_test sp) = length X)%nat
     ∧ (StronglySorted Z.lt (index X) →
        ∀ t u, t ∈ index (X_train sp) → u ∈ index (X_test sp) → t < u))
  ∧ (Prim2SF test_ratio = S754_nan →
     _walk_forward_split X y test_ratio
     = Raise (ValueError "cannot convert float NaN to integer")).
Proof.
  split.
  - intros sp H.
    apply walk_forward_split_eq in H as (split & _ & -> & -> & -> & -> & ->).
    split; [apply slice_to_from|]. split; [apply slice_to_from|]. split; [done|].
    split; [by rewrite <- length_app, slice_to_from|].
    intros Hsorted t u Ht Hu. rewrite slice_to_index in Ht. rewrite slice_from_index in Hu.
    rewrite <- (slice_to_from split (index X)) in Hsorted.
    by eapply StronglySorted_app_1_elem_of.
  - intros Hnan. unfold _walk_forward_split, split_index, Py.int_of_float.
    assert (Hsub : Prim2SF (1 - test_ratio)%float = S754_nan).
    { rewrite FloatAxioms.sub_spec, Hnan. reflexivity. }
    assert (Hmul : Prim2SF (Py.float_of_len (length X) * (1 - test_ratio))%float = S754_nan).
    { rewrite FloatAxioms.mul_spec, Hsub. unfold SF64mul, SFmul.
      by destruct (Prim2SF (Py.float_of_len (length X))) as [[]|[]| |[] ? ?]. }
    by rewrite Hmul.
Qed.

End SplitMore.

(** ** The verdict on missing numbers *)

Section VerdictMore.
Import Pandas Models Engine Stated.

Lemma ltb_nan_l (x y : float) : Prim2SF x = S754_nan → PrimFloat.ltb x y = false.
Proof. intros Hx. rewrite FloatAxioms.ltb_spec, Hx. reflexivity. Qed.

Lemma ltb_nan_r (x y : float) : Prim2SF y = S754_nan → PrimFloat.ltb x y = false.
Proof.
  intros Hy. rewrite FloatAxioms.ltb_spec, Hy. unfold SFltb, SFcompare.
  by destruct (Prim2SF x) as [[]|[]| |[] ? ?].
Qed.

(** X12.  Comparisons with [nan] are false, so a missing number never promotes:
    an aggregate Sharpe that is [nan] (vectorbt's answer for a portfolio
    without returns) gives [discard] whatever the other two numbers are, and
    a drawdown or an overfitting score that is [nan] rules [promote] out. *)
Theorem decide_verdict_on_nan (avg_sharpe avg_drawdown overfitting_score : float) :
  (Prim2SF avg_sharpe = S754_nan →
   decide_verdict avg_sharpe avg_drawdown overfitting_score = discard)
  ∧ (Prim2SF avg_drawdown = S754_nan ∨ Prim2SF overfitting_score = S754_nan →
     decide_verdict avg_sharpe avg_drawdown overfitting_score ≠ promote).
Proof.
  unfold decide_verdict, Py.gt, Py.lt. split.
  - intros Hnan. by rewrite !(ltb_nan_r _ avg_sharpe Hnan).
  - intros [Hnan|Hnan].
    + rewrite (ltb_nan_r _ avg_drawdown Hnan), andb_false_r.
      by destruct (PrimFloat.ltb 0.8 avg_sharpe).
    + rewrite (ltb_nan_l overfitting_score _ Hnan), andb_false_r.
      by destruct (PrimFloat.ltb 0.8 avg_sharpe).
Qed.

End VerdictMore.

(** ** Features, frames and the aggregated result *)

Section FramesMore.
Import Pandas Models Engine Stated MoreStated.

Variable exchange_candles : string -> string -> Z -> result (list Candle).
Variable _merge_funding_rate : DataFrame -> string -> Z -> result DataFrame.
Variable _merge_open_interest : DataFrame -> string -> Z -> result DataFrame.
Variable feature_series : string -> DataFrame -> result (list float).
Variable Model : Type.
Variable vbt_simulate : SimRequest -> result PortfolioStats.
Variable shap_mean_abs : Model -> Series (list float) -> result (list float).
Variable np_mean : list float -> float.
Variable format_2f : float -> string.

Local Abbreviation fetch := (fetch_ohlcv exchange_candles _merge_funding_rate _merge_open_interest).
Local Abbreviation aggregate :=
  (_aggregate_results Model vbt_simulate shap_mean_abs np_mean format_2f).

Lemma get_cell_set_assoc name v k (l : list (string * float)) :
  is_Some (snd <$> List.find (fun c : string * float => String.eqb c.1 k) (set_assoc name v l))
  ↔ k = name ∨ is_Some (snd <$> List.find (fun c : string * float => String.eqb c.1 k) l).
Proof.
  induction l as [|[k0 w] l IH]; cbn [set_assoc List.find fst].
  - destruct (String.eqb_spec name k) as [->|Hne]; cbn.
    + split; [by left|by eexists].
    + split; [by intros [? ?]|]. intros [->|[? ?]]; done.
  - destruct (String.eqb_spec k0 name) as [->|Hne]; cbn [List.find fst].
    + destruct (String.eqb_spec name k) as [->|Hne']; cbn.
      * split; [by left|by eexists].
      * split; [by right|]. by intros [->|?].
    + destruct (String.eqb_spec k0 k) as [->|Hne']; cbn.
      * split; [right|]; by eexists.
      * apply IH.
Qed.

Lemma has_column_set_cell name v k r :
  has_column k (set_cell name v r) ↔ k = name ∨ has_column k r.
Proof. unfold has_column, get_cell, set_cell. cbn [cells]. apply get_cell_set_assoc. Qed.

Lemma set_column_rows name data df :
  frame_index (set_column name data df) = frame_index df
  ∧ Forall (has_column name) (set_column name data df)
  ∧ ∀ k, Forall (has_column k) df → Forall (has_column k) (set_column name data df).
Proof.
  revert data. induction df as [|r df IH]; intros data; [done|].
  assert (Hstep : ∀ v data',
            frame_index (set_cell name v r :: set_column name data' df) = frame_index (r :: df)
            ∧ Forall (has_column name) (set_cell name v r :: set_column name data' df)
            ∧ ∀ k, Forall (has_column k) (r :: df) →
                   Forall (has_column k) (set_cell name v r :: set_column name data' df)).
  { intros v data'. destruct (IH data') as (Hi & Hn & Hk). split; [|split].
    - unfold frame_index in *. cbn. by rewrite Hi.
    - constructor; [apply has_column_set_cell; by left|done].
    - intros k Hall. apply Forall_cons in Hall as [Hr Hall].
      constructor; [apply has_column_set_cell; by right|by apply Hk]. }
  cbn [set_column]. destruct data as [|v data]; apply Hstep.
Qed.

Lemma add_features_rows df names res out :
  add_features feature_series df names res = Ok out →
  frame_index out = frame_index res
  ∧ Forall (fun n => registered n = true) names
  ∧ (∀ n, n ∈ names → Forall (has_column n) out)
  ∧ (∀ k, Forall (has_column k) res → Forall (has_column k) out).
Proof.
  revert res. induction names as [|name names IH]; intros res; cbn [add_features].
  - intros [= <-]. split; [done|]. split; [done|]. split; [|done].
    intros n Hn. by apply elem_of_nil in Hn.
  - destruct (registered name) eqn:Hreg; cbn [negb]; [|done].
    intros H. apply bind_ok in H as (data & _ & H).
    destruct (IH _ H) as (Hidx & Hregs & Hnames & Hkeep).
    destruct (set_column_rows name data res) as (Hi & Hn & Hk).
    split; [congruence|]. split; [by constructor|]. split.
    + intros n Hin. apply elem_of_cons in Hin as [->|Hin]; [by apply Hkeep|by apply Hnames].
    + intros k Hall. by apply Hkeep, Hk.
Qed.

Lemma select_ok names (df : DataFrame) :
  Forall (fun r => ∀ n, n ∈ names → has_column n r) df →
  ∃ X, select names df = Ok X.
Proof.
  induction 1 as [|r df Hr _ [X IH]]; [by exists []|].
  assert (Hrow : ∀ ns, (∀ n, n ∈ ns → has_column n r) → ∃ x, select_row ns r = Ok x).
  { induction ns as [|n ns IHns]; intros Hns; [by exists []|].
    destruct (Hns n) as [v Hv]; [by left|].
    destruct IHns as [x Hx]; [intros n' Hn'; apply Hns; by right|].
    eexists. cbn [select_row]. rewrite Hv, Hx. reflexivity. }
  destruct (Hrow names Hr) as [x Hx].
  eexists. cbn [select]. rewrite Hx, IH. reflexivity.
Qed.

Lemma dropna_sublist (f : Row → bool) (df : DataFrame) :
  frame_index (List.filter f df) `sublist_of` frame_index df.
Proof.
  unfold frame_index. induction df as [|r df IH]; [done|]. cbn [List.filter List.map].
  destruct (f r); [by apply sublist_skip|by apply sublist_cons].
Qed.

(** X13.  What [compute_features] returns.  Every requested name is registered;
    the rows are rows of the input frame's index in their order, none added;
    no cell of a returned row is [nan]; and every requested feature is a
    column of every returned row, so selecting the requested features from
    the result never raises a [KeyError]. *)
Theorem compute_features_result (df : DataFrame) (feature_names : list string) (out : DataFrame) :
  compute_features feature_series df feature_names = Ok out →
  Forall (fun n => registered n = true) feature_names
  ∧ frame_index out `sublist_of` frame_index df
  ∧ Forall (fun r => row_complete r = true) out
  ∧ ∃ X, select feature_names out = Ok X ∧ index X = frame_index out.
Proof.
  unfold compute_features. intros H. apply bind_ok in H as (res & Hadd & H).
  injection H as <-.
  destruct (add_features_rows _ _ _ _ Hadd) as (Hidx & Hregs & Hnames & _).
  split; [done|]. split; [|split].
  - rewrite <- Hidx. unfold dropna. apply dropna_sublist.
  - unfold dropna. apply Forall_forall. intros r Hr.
    by apply list_elem_of_In, filter_In in Hr as [_ ?].
  - destruct (select_ok feature_names (dropna res)) as [X HX].
    { apply Forall_forall. intros r Hr n Hn.
      apply list_elem_of_In, filter_In in Hr as [Hr _]. apply list_elem_of_In in Hr.
      specialize (Hnames n Hn). rewrite Forall_forall in Hnames. by apply Hnames. }
    exists X. split; [done|]. by eapply select_index.
Qed.

(** *** The frame built from the candles *)

#[local] Instance ts_le_total : Total ts_le.
Proof. intros a b. unfold ts_le. lia. Qed.

#[local] Instance ts_le_trans : Transitive ts_le.
Proof. intros a b c. unfold ts_le. lia. Qed.

Lemma drop_duplicated_sublist (df : DataFrame) : drop_duplicated_keep_last df `sublist_of` df.
Proof.
  induction df as [|r df IH]; [done|]. cbn [drop_duplicated_keep_last].
  destruct (List.existsb _ df); [by apply sublist_cons|by apply sublist_skip].
Qed.

Lemma drop_duplicated_sorted (df : DataFrame) :
  StronglySorted ts_le df → StronglySorted ts_lt (drop_duplicated_keep_last df).
Proof.
  induction 1 as [|r df Hdf IH Hr]; [constructor|]. cbn [drop_duplicated_keep_last].
  destruct (List.existsb (fun r' => ts r' =? ts r) df) eqn:Hex; [done|].
  constructor; [done|]. apply Forall_forall. intros b Hb.
  assert (Hin : b ∈ df) by (eapply elem_of_sublist; [exact Hb|apply drop_duplicated_sublist]).
  rewrite Forall_forall in Hr. specialize (Hr b Hin). unfold ts_le, ts_lt in *.
  assert (ts b ≠ ts r); [|lia]. intros Heq.
  apply not_true_iff_false in Hex. apply Hex, existsb_exists. exists b.
  split; [by apply list_elem_of_In|]. by apply Z.eqb_eq.
Qed.

Lemma frame_index_sorted (df : DataFrame) :
  StronglySorted ts_lt df → StronglySorted Z.lt (frame_index df).
Proof.
  unfold frame_index. induction 1 as [|r df Hdf IH Hr]; cbn [List.map]; constructor; [done|].
  apply Forall_forall. intros t Ht.
  apply list_elem_of_In, in_map_iff in Ht as (b & <- & Hb).
  rewrite Forall_forall in Hr. apply Hr. by apply list_elem_of_In.
Qed.

Lemma drop_duplicated_timestamps (df : DataFrame) (t : Z) :
  t ∈ frame_index (drop_duplicated_keep_last df) ↔ t ∈ frame_index df.
Proof.
  unfold frame_index. induction df as [|r df IH]; [done|]. cbn [drop_duplicated_keep_last].
  destruct (List.existsb (fun r' => ts r' =? ts r) df) eqn:Hex.
  - rewrite IH. cbn [List.map]. rewrite elem_of_cons. split; [by right|].
    intros [->|?]; [|done].
    apply existsb_exists in Hex as (b & Hb & Heq). apply Z.eqb_eq in Heq.
    rewrite <- Heq. apply list_elem_of_In, in_map. done.
  - cbn [List.map]. rewrite !elem_of_cons, IH. done.
Qed.

Lemma candle_frame_sorted (all_candles : list Candle) :
  StronglySorted Z.lt
    (frame_index (drop_duplicated_keep_last (sort_index (frame_of_candles all_candles)))).
Proof. apply frame_index_sorted, drop_duplicated_sorted, StronglySorted_merge_sort; apply _. Qed.

Lemma candle_frame_timestamps (all_candles : list Candle) (t : Z) :
  t ∈ frame_index (drop_duplicated_keep_last (sort_index (frame_of_candles all_candles)))
  ↔ t ∈ List.map c_timestamp all_candles.
Proof.
  assert (Hperm : sort_index (frame_of_candles all_candles) ≡ₚ frame_of_candles all_candles)
    by apply merge_sort_Permutation.
  rewrite drop_duplicated_timestamps. unfold frame_index.
  rewrite !list_elem_of_In, !in_map_iff. setoid_rewrite <- list_elem_of_In.
  setoid_rewrite Hperm. unfold frame_of_candles.
  setoid_rewrite list_elem_of_In. setoid_rewrite in_map_iff. split.
  - intros (r & <- & c & <- & Hc). by exists c.
  - intros (c & <- & Hc). eexists. split; [|exists c; by split]. done.
Qed.

Lemma candle_frame_rows (all_candles : list Candle) (r : Row) :
  r ∈ drop_duplicated_keep_last (sort_index (frame_of_candles all_candles)) →
  r ∈ frame_of_candles all_candles.
Proof.
  intros Hr. rewrite <- (merge_sort_Permutation ts_le (frame_of_candles all_candles)).
  eapply elem_of_sublist; [exact Hr|apply drop_duplicated_sublist].
Qed.

Lemma candle_frame_nonempty (all_candles : list Candle) :
  all_candles ≠ [] →
  drop_duplicated_keep_last (sort_index (frame_of_candles all_candles)) ≠ [].
Proof.
  intros Hne Hnil. destruct all_candles as [|c cs]; [done|].
  pose proof (candle_frame_timestamps (c :: cs) (c_timestamp c)) as Hts.
  rewrite Hnil in Hts. cbn in Hts. rewrite elem_of_cons in Hts. destruct Hts as [_ Hts].
  by apply elem_of_nil in Hts; [|left].
Qed.

(** X14.  The frame [fetch_ohlcv] builds from the candles, before the
    enrichments: its timestamps increase strictly (sorted, no duplicate),
    they are exactly the timestamps of the candles, and each row is the row
    of one of the candles. *)
Theorem candle_frame_is_sorted_and_unique (all_candles : list Candle) :
  let df := drop_duplicated_keep_last (sort_index (frame_of_candles all_candles)) in
  StronglySorted Z.lt (frame_index df)
  ∧ NoDup (frame_index df)
  ∧ (∀ t, t ∈ frame_index df ↔ t ∈ List.map c_timestamp all_candles)
  ∧ (∀ r, r ∈ df → r ∈ frame_of_candles all_candles)
  ∧ (all_candles ≠ [] → df ≠ []).
Proof.
  cbv zeta. pose proof (candle_frame_sorted all_candles) as Hsorted.
  split; [done|]. split; [|split; [|split]].
  - induction Hsorted as [|t l Hl IH Ht]; constructor; [|done].
    intros Hin. rewrite Forall_forall in Ht. specialize (Ht t Hin). lia.
  - apply candle_frame_timestamps.
  - apply candle_frame_rows.
  - apply candle_frame_nonempty.
Qed.

Lemma to_datetime_in_range (all_candles : list Candle) :
  Forall (fun c => in_datetime_range (c_timestamp c) = true) all_candles →
  to_datetime (frame_of_candles all_candles) = Ok (frame_of_candles all_candles).
Proof.
  intros Hrange. unfold to_datetime.
  assert (Hall : List.forallb (fun r => in_datetime_range (ts r)) (frame_of_candles all_candles)
                 = true); [|by rewrite Hall].
  apply forallb_forall. intros r Hr. unfold frame_of_candles in Hr.
  apply in_map_iff in Hr as (c & <- & Hc). rewrite Forall_forall in Hrange.
  apply Hrange. by apply list_elem_of_In.
Qed.

(** X15.  [fetch_ohlcv] falls back on failed enrichments: when both joins raise
    and the exchange returned candles whose timestamps pandas can
    represent, it still returns a frame, with the strictly increasing
    timestamps of the candles and, in every row, a [funding_rate] and an
    [open_interest] of 0. *)
Theorem fetch_ohlcv_without_enrichment (symbol timeframe : string) (lookback_days : Z)
    (all_candles : list Candle) :
  exchange_candles symbol timeframe lookback_days = Ok all_candles →
  all_candles ≠ [] →
  Forall (fun c => in_datetime_range (c_timestamp c) = true) all_candles →
  (∀ df, raises (_merge_funding_rate df symbol lookback_days)) →
  (∀ df, raises (_merge_open_interest df symbol lookback_days)) →
  ∃ df,
    fetch symbol timeframe lookback_days = Ok df
    ∧ df ≠ []
    ∧ frame_index df
      = frame_index (drop_duplicated_keep_last (sort_index (frame_of_candles all_candles)))
    ∧ StronglySorted Z.lt (frame_index df)
    ∧ Forall (fun r => get_cell "funding_rate" r = Some 0%float
                       ∧ get_cell "open_interest" r = Some 0%float
                       ∧ has_column "close" r) df.
Proof.
  intros Hex Hne Hrange Hfund Hoi. unfold fetch_ohlcv. rewrite Hex. cbn [mbind result_bind].
  destruct all_candles as [|c cs] eqn:Hcs; [done|]. rewrite <- Hcs in *.
  rewrite (to_datetime_in_range all_candles Hrange). cbn [mbind result_bind].
  set (base := drop_duplicated_keep_last (sort_index (frame_of_candles all_candles))).
  destruct (Hfund base) as [e1 ->].
  destruct (Hoi (set_column_const "funding_rate" 0 base)) as [e2 ->].
  pose proof (candle_frame_sorted all_candles) as Hsorted.
  pose proof (candle_frame_rows all_candles) as Hrows.
  pose proof (candle_frame_nonempty all_candles) as Hnonempty.
  fold base in Hsorted, Hrows, Hnonempty.
  assert (Hidx : frame_index (set_column_const "open_interest" 0
                                (set_column_const "funding_rate" 0 base)) = frame_index base).
  { unfold frame_index, set_column_const. rewrite !List.map_map. done. }
  eexists. split; [reflexivity|]. split; [|split; [done|split]].
  - intros Hnil. apply (f_equal frame_index) in Hnil. rewrite Hidx in Hnil.
    apply Hnonempty; [by rewrite Hcs|]. unfold frame_index in Hnil.
    by apply map_eq_nil in Hnil.
  - by rewrite Hidx.
  - unfold set_column_const. rewrite List.map_map. apply Forall_forall. intros r' Hr'.
    apply list_elem_of_In, in_map_iff in Hr' as (r & <- & Hr).
    apply list_elem_of_In, Hrows in Hr. unfold frame_of_candles in Hr.
    apply list_elem_of_In, in_map_iff in Hr as (c0 & <- & _).
    repeat split; vm_compute; by eexists.
Qed.

(** *** The aggregated result *)

Lemma dom_dict_of {V} (pairs : list (string * V)) (d : gmap string V) :
  dom (foldl (fun d kv => <[kv.1 := kv.2]> d) d pairs) = dom d ∪ list_to_set pairs.*1.
Proof.
  revert d. induction pairs as [|[k v] pairs IH]; intros d; cbn [foldl fmap list_fmap fst].
  - cbn. by rewrite (right_id_L ∅ (∪)).
  - rewrite IH, dom_insert_L. cbn [list_to_set fst snd].
    by rewrite (comm_L (∪) {[k]} (dom d)), (assoc_L (∪)).
Qed.

(** X16.  A returned [BacktestResult] agrees with itself and with the
    configuration: its verdict is the decision for its own Sharpe, drawdown
    and overfitting score, its reason is the text for that verdict and that
    Sharpe, its name is the configuration's, its trade count is the sum over
    the assets, and its feature importances are keyed by requested features
    only.  Whatever the data, the average trade duration is 24.0 and the
    regime breakdown is empty.  With no asset result there is no
    [BacktestResult]: the function raises [IndexError]. *)
Theorem aggregate_result_is_consistent (config : StrategyConfig)
    (results : list (AssetResult Model)) :
  (∀ br,
     aggregate config results = Ok br →
     verdict br = decide_verdict (sharpe_ratio br) (max_drawdown br) (overfitting_score br)
     ∧ verdict_reason br = verdict_reason_of format_2f (verdict br) (sharpe_ratio br)
     ∧ strategy_name br = name config
     ∧ sharpe_ratio br = np_mean (List.map (fun r => pf_sharpe_ratio (pf_stats (r_pf r))) results)
     ∧ max_drawdown br = np_mean (List.map (fun r => pf_max_drawdown (pf_stats (r_pf r))) results)
     ∧ n_trades br = foldr Z.add 0 (List.map (fun r => pf_trade_count (pf_stats (r_pf r))) results)
     ∧ dom (feature_importances br) ⊆ list_to_set (features config)
     ∧ avg_trade_duration_hours br = 24%float
     ∧ regime_breakdown br = ∅)
  ∧ (results = [] → aggregate config results = Raise IndexError).
Proof.
  split; [|by intros ->].
  intros br H. unfold _aggregate_results in H.
  apply bind_ok in H as (first & _ & H).
  apply bind_ok in H as (shap_values & _ & H).
  apply bind_ok in H as (in_sample_pf & _ & H).
  injection H as <-.
  cbn [verdict verdict_reason strategy_name sharpe_ratio max_drawdown overfitting_score
       n_trades feature_importances avg_trade_duration_hours regime_breakdown].
  rewrite !List.map_map.
  repeat (split; [reflexivity|]). split; [|done].
  unfold Py.dict_of. rewrite dom_dict_of, dom_empty_L.
  intros k Hk. apply elem_of_union in Hk as [Hk|Hk]; [by apply elem_of_empty in Hk|].
  apply elem_of_list_to_set. apply elem_of_list_to_set in Hk.
  apply list_elem_of_fmap in Hk as ([k' v] & -> & Hkv).
  by apply elem_of_zip_l in Hkv.
Qed.

End FramesMore.

(** ** data.py: the pagination loop *)

Section PaginationFacts.
Import Pandas Engine DataMore.

Variable exchange_reply : nat -> Z -> Reply.
Variable tf_ms : Z.

Local Abbreviation collect := (collect_candles exchange_reply tf_ms).

(** X17.  The loop returns every page in the order received.  When the exchange
    answers full pages (at least [limit] candles), each asked for from the
    newest candle of the page before plus one candle width, then a shorter
    page, the loop returns what it had collected followed by all these
    pages; a rate-limit reply is asked again with the same [since] and loses
    nothing; any other exception ends the loop and is raised, whatever was
    collected. *)
Theorem collect_candles_returns_pages (calls : nat) (since : Z)
    (outcome : result (list Candle)) (n : nat) :
  leaves exchange_reply tf_ms calls since outcome n →
  ∀ fuel all_candles, (n ≤ fuel)%nat →
    collect fuel calls since all_candles = Some (prepend all_candles outcome).
Proof.
  induction 1 as [calls since page Hreply Hshort
                 |calls since page newest outcome n Hreply Hfull Hlast _ IH
                 |calls since outcome n Hreply _ IH
                 |calls since e Hreply];
    intros fuel all_candles Hfuel;
    (destruct fuel as [|fuel]; [lia|]); cbn [collect_candles]; rewrite Hreply.
  - destruct (last page) as [newest|] eqn:Hlast.
    + apply Nat.ltb_lt in Hshort. by rewrite Hshort.
    + apply last_None in Hlast as ->. cbn. by rewrite app_nil_r.
  - rewrite Hlast. apply Nat.ltb_ge in Hfull. rewrite Hfull.
    rewrite IH by lia. destruct outcome; cbn [prepend]; [|done]. by rewrite app_assoc.
  - apply IH. lia.
  - done.
Qed.

(** X18.  The loop has no bound of its own: against an exchange that answers
    every call with a full page or with the rate-limit error, it is still
    running after any number of calls. *)
Theorem collect_candles_can_run_for_ever (fuel calls : nat) (since : Z)
    (all_candles : list Candle) :
  (∀ calls since,
     exchange_reply calls since = RateLimitExceeded
     ∨ ∃ page, exchange_reply calls since = Candles page ∧ (limit ≤ length page)%nat) →
  collect fuel calls since all_candles = None.
Proof.
  intros Hbusy. revert calls since all_candles.
  induction fuel as [|fuel IH]; intros calls since all_candles; [done|].
  cbn [collect_candles]. destruct (Hbusy calls since) as [->|(page & -> & Hfull)]; [apply IH|].
  destruct (last page) as [newest|] eqn:Hlast.
  - apply Nat.ltb_ge in Hfull. rewrite Hfull. apply IH.
  - apply last_None in Hlast as ->. cbn in Hfull. unfold limit in Hfull. lia.
Qed.

End PaginationFacts.

(** ** data.py: the joins, the cache, several assets *)

Section JoinFacts.
Import Pandas Engine DataMore MoreStated.

Lemma fillna0_not_nan (xs : list float) :
  Forall (fun x => PrimFloat.is_nan x = false) (fillna0 xs).
Proof.
  unfold fillna0. apply Forall_forall. intros y Hy.
  apply list_elem_of_In, in_map_iff in Hy as (x & <- & _).
  by destruct (PrimFloat.is_nan x) eqn:Hx.
Qed.

Lemma get_cell_set_cell name v r : get_cell name (set_cell name v r) = Some v.
Proof.
  unfold get_cell, set_cell. cbn [cells].
  induction (cells r) as [|[k w] l IH]; cbn [set_assoc List.find fst].
  - by rewrite String.eqb_refl.
  - destruct (String.eqb k name) eqn:Hk; cbn [List.find fst]; by rewrite ?Hk.
Qed.

Lemma set_assoc_twice name v w (l : list (string * float)) :
  set_assoc name v (set_assoc name w l) = set_assoc name v l.
Proof.
  induction l as [|[k u] l IH]; cbn [set_assoc].
  - by rewrite String.eqb_refl.
  - destruct (String.eqb k name) eqn:Hk; cbn [set_assoc]; rewrite Hk; [done|by rewrite IH].
Qed.

Lemma set_column_cells name data (df : DataFrame) :
  (length df ≤ length data)%nat →
  Forall (fun v => PrimFloat.is_nan v = false) data →
  Forall (fun r => ∃ v, get_cell name r = Some v ∧ PrimFloat.is_nan v = false)
    (set_column name data df).
Proof.
  revert data. induction df as [|r df IH]; intros data Hlen Hdata; [constructor|].
  destruct data as [|v data]; [cbn in Hlen; lia|]. cbn [set_column].
  apply Forall_cons in Hdata as [Hv Hdata]. constructor.
  - exists v. by rewrite get_cell_set_cell.
  - apply IH; [cbn in Hlen; lia|done].
Qed.

Lemma ffill_length previous xs : length (ffill previous xs) = length xs.
Proof.
  revert previous. induction xs as [|x xs IH]; intros previous; [done|].
  cbn [ffill]. destruct (PrimFloat.is_nan x); cbn; by rewrite IH.
Qed.

Lemma column_length name (df : DataFrame) s : column name df = Ok s → length s = length df.
Proof.
  intros H. apply column_index in H. rewrite <- index_length, H. unfold frame_index.
  by rewrite length_map.
Qed.

Lemma join_left_rows name (df : DataFrame) other joined :
  join_left name df other = Ok joined →
  (∀ r', r' ∈ joined → ∃ r v, r ∈ df ∧ r' = set_cell name v r)
  ∧ ((∀ r, r ∈ df → ∀ e, e ∈ other → e.1 ≠ ts r) →
     joined = List.map (set_cell name PrimFloat.nan) df)
  ∧ (NoDup (index other) → frame_index joined = frame_index df).
Proof.
  unfold join_left. destruct (List.existsb _ df); [done|]. intros [= <-].
  split; [|split].
  - intros r' Hr'. apply list_elem_of_In, in_flat_map in Hr' as (r & Hr & Hr').
    exists r. destruct (List.filter _ other) as [|e es].
    + exists PrimFloat.nan. split; [by apply list_elem_of_In|].
      by destruct Hr' as [<-|[]].
    + cbn [List.map] in Hr'. destruct Hr' as [<-|Hr'].
      * exists e.2. split; [by apply list_elem_of_In|done].
      * apply in_map_iff in Hr' as (e' & <- & _). exists e'.2.
        split; [by apply list_elem_of_In|done].
  - intros Hmiss. induction df as [|r df IH]; [done|]. cbn [List.flat_map List.map].
    assert (Hnone : List.filter (fun e : Z * float => e.1 =? ts r) other = []).
    { destruct (List.filter _ other) as [|e es] eqn:Hf; [done|]. exfalso.
      assert (He : In e (List.filter (fun e : Z * float => e.1 =? ts r) other))
        by (rewrite Hf; by left).
      apply filter_In in He as [He Heq]. apply Z.eqb_eq in Heq.
      apply list_elem_of_In in He.
      exact (Hmiss r ltac:(by left) e He Heq). }
    rewrite Hnone. cbn [app]. f_equal. apply IH. intros r0 Hr0. apply Hmiss. by right.
  - intros Hnodup. unfold frame_index.
    induction df as [|r df IH]; [done|]. cbn [List.flat_map List.map].
    rewrite List.map_app, IH. f_equal.
    assert (Hone : ∀ es : Series float, NoDup (index es) →
              (length (List.filter (fun e : Z * float => (e.1 =? ts r)%Z) es) ≤ 1)%nat).
    { induction es as [|[t v] es IHes]; [cbn; by intros; lia|].
      unfold index. cbn [fmap list_fmap fst].
      intros Hnd. apply NoDup_cons in Hnd as [Hnotin Hnd]. cbn [List.filter fst].
      destruct (t =? ts r) eqn:Ht; [|by apply IHes].
      apply Z.eqb_eq in Ht. subst t.
      assert (Hnil : List.filter (fun e : Z * float => e.1 =? ts r) es = []).
      { destruct (List.filter _ es) as [|e es'] eqn:Hf; [done|]. exfalso. apply Hnotin.
        assert (He : In e (List.filter (fun e : Z * float => e.1 =? ts r) es))
          by (rewrite Hf; by left).
        apply filter_In in He as [He Heq]. apply Z.eqb_eq in Heq. rewrite <- Heq.
        apply list_elem_of_fmap. exists e. split; [done|by apply list_elem_of_In]. }
      rewrite Hnil. cbn. lia. }
    specialize (Hone other Hnodup).
    destruct (List.filter _ other) as [|e [|e' es]]; [done|done|cbn in Hone; lia].
Qed.

(** X19.  What the merges leave in their column.  The merged frame has a value
    that is not missing in the column of every row, whatever the records
    hold; each of its rows is a row of the candles with that one column set.
    A record counts only at a candle's exact timestamp: when no record
    carries the timestamp of a candle, the column is 0.0 in every row.  When
    the records' timestamps are distinct, the merged frame has the rows of
    the candles, one for one. *)
Theorem merge_column_result (name : string) (df : DataFrame) (records : Series float)
    (merged : DataFrame) :
  merge_column name df records = Ok merged →
  Forall (fun r => ∃ v, get_cell name r = Some v ∧ PrimFloat.is_nan v = false) merged
  ∧ ((∀ r, r ∈ df → ∀ e, e ∈ records → e.1 ≠ ts r) →
     merged = set_column_const name 0 df)
  ∧ (NoDup (index records) → frame_index merged = frame_index df).
Proof.
  unfold merge_column. destruct records as [|e0 es] eqn:Hrec.
  - intros [= <-]. split; [|split; [done|]].
    + unfold set_column_const. apply Forall_forall. intros r' Hr'.
      apply list_elem_of_In, in_map_iff in Hr' as (r & <- & _).
      exists 0%float. by rewrite get_cell_set_cell.
    + intros _. unfold frame_index, set_column_const. by rewrite List.map_map.
  - rewrite <- Hrec. clear Hrec e0 es. intros H.
    apply bind_ok in H as (joined & Hjoin & H).
    apply bind_ok in H as (col & Hcol & H). injection H as <-.
    pose proof (column_length _ _ _ Hcol) as Hlen.
    destruct (join_left_rows _ _ _ _ Hjoin) as (_ & Hmiss & Hdistinct).
    assert (Hperm : merge_sort entry_le records ≡ₚ records) by apply merge_sort_Permutation.
    split; [|split].
    + apply set_column_cells; [|apply fillna0_not_nan].
      unfold fillna0, values. rewrite length_map, ffill_length, length_fmap. lia.
    + intros Hnone.
      assert (Hj : joined = List.map (set_cell name PrimFloat.nan) df).
      { apply Hmiss. intros r Hr e He. apply Hnone; [done|]. by rewrite <- Hperm. }
      subst joined. clear Hjoin Hmiss Hdistinct Hlen Hnone.
      unfold set_column_const. revert col Hcol.
      induction df as [|r df IH]; intros col Hcol; [done|].
      cbn [List.map column] in Hcol. rewrite get_cell_set_cell in Hcol.
      apply bind_ok in Hcol as (rest & Hrest & Hcol). injection Hcol as <-.
      cbn [values fmap list_fmap snd ffill].
      change (PrimFloat.is_nan PrimFloat.nan) with true. cbn [default fillna0 List.map].
      change (PrimFloat.is_nan PrimFloat.nan) with true. cbn [set_column List.map].
      f_equal.
      * unfold set_cell. cbn [ts cells]. f_equal. apply set_assoc_twice.
      * apply (IH rest Hrest).
    + intros Hnodup.
      destruct (set_column_rows name (fillna0 (ffill None (values col))) joined) as (-> & _).
      apply Hdistinct. unfold index. by rewrite Hperm.
Qed.

End JoinFacts.

Section CacheFacts.
Import Pandas Engine DataMore.

(** X20.  The cache of exchange clients.  A call that returns a client leaves it
    cached under its id and touches no other entry; from then on a call for
    that id returns the same client and the same cache without constructing
    anything, whatever the constructor would now do.  A call that raises
    leaves the cache as it was, so the next call constructs again. *)
Theorem get_exchange_caches (Exchange : Type) (new_exchange : string → result Exchange)
    (exchange_id : string) (_exchanges : gmap string Exchange) :
  (∀ exchange after,
     get_exchange Exchange new_exchange exchange_id _exchanges = (Ok exchange, after) →
     after !! exchange_id = Some exchange
     ∧ (∀ other, other ≠ exchange_id → after !! other = _exchanges !! other)
     ∧ _exchanges ⊆ after
     ∧ ∀ new_exchange',
         get_exchange Exchange new_exchange' exchange_id after = (Ok exchange, after))
  ∧ (∀ e after,
       get_exchange Exchange new_exchange exchange_id _exchanges = (Raise e, after) →
       after = _exchanges
       ∧ _exchanges !! exchange_id = None
       ∧ new_exchange exchange_id = Raise e).
Proof.
  unfold get_exchange. split.
  - intros exchange after.
    destruct (_exchanges !! exchange_id) as [cached|] eqn:Hcached.
    + intros [= <- <-]. split; [done|]. split; [done|]. split; [done|].
      intros new_exchange'. by rewrite Hcached.
    + destruct (new_exchange exchange_id) as [fresh|e]; [|done].
      intros [= <- <-]. split; [apply lookup_insert_eq|].
      split; [intros other Hother; by apply lookup_insert_ne|].
      split; [by apply insert_subseteq|].
      intros new_exchange'. by rewrite lookup_insert_eq.
  - intros e after.
    destruct (_exchanges !! exchange_id) as [cached|] eqn:Hcached; [done|].
    destruct (new_exchange exchange_id) as [fresh|e']; [done|].
    by intros [= <- <-].
Qed.

End CacheFacts.

Section MultipleAssetsFacts.
Import Pandas Engine DataMore MoreStated.

Variable exchange_candles : string -> string -> Z -> result (list Candle).
Variable _merge_funding_rate : DataFrame -> string -> Z -> result DataFrame.
Variable _merge_open_interest : DataFrame -> string -> Z -> result DataFrame.

Local Abbreviation fetch := (fetch_ohlcv exchange_candles _merge_funding_rate _merge_open_interest).
Local Abbreviation fetch_all :=
  (fetch_multiple_assets exchange_candles _merge_funding_rate _merge_open_interest).

Lemma fetch_all_lookup timeframe lookback_days (symbols : list string)
    (start : gmap string DataFrame) (symbol : string) :
  foldl (fun results s => <[s := frame_or_empty (fetch s timeframe lookback_days)]> results)
    start symbols !! symbol
  = if bool_decide (symbol ∈ symbols)
    then Some (frame_or_empty (fetch symbol timeframe lookback_days))
    else start !! symbol.
Proof.
  revert start. induction symbols as [|s symbols IH]; intros start; [done|].
  cbn [foldl]. rewrite IH.
  destruct (decide (symbol ∈ symbols)) as [Hin|Hnotin].
  - rewrite !bool_decide_eq_true_2; [done|by right|done].
  - rewrite (bool_decide_eq_false_2 _ Hnotin).
    destruct (decide (symbol = s)) as [->|Hne].
    + rewrite bool_decide_eq_true_2 by (by left). apply lookup_insert_eq.
    + rewrite bool_decide_eq_false_2; [by apply lookup_insert_ne|].
      intros Hin. apply elem_of_cons in Hin as [?|?]; done.
Qed.

(** X21.  One failing asset does not fail [fetch_multiple_assets].  The dict it
    returns has an entry for each requested symbol and for no other: the
    frame [fetch_ohlcv] returned, or the empty frame when [fetch_ohlcv]
    raised; in particular a symbol the exchange has no candle for is there
    with the empty frame, next to the frames of the other symbols. *)
Theorem fetch_multiple_assets_isolates_failures (symbols : list string) (timeframe : string)
    (lookback_days : Z) :
  dom (fetch_all symbols timeframe lookback_days) = list_to_set symbols
  ∧ (∀ symbol, symbol ∈ symbols →
       fetch_all symbols timeframe lookback_days !! symbol
       = Some (frame_or_empty (fetch symbol timeframe lookback_days)))
  ∧ (∀ symbol, symbol ∈ symbols →
       exchange_candles symbol timeframe lookback_days = Ok [] →
       fetch_all symbols timeframe lookback_days !! symbol = Some [])
  ∧ loaded (fetch_all symbols timeframe lookback_days)
    ∪ failed (fetch_all symbols timeframe lookback_days) = list_to_set symbols
  ∧ loaded (fetch_all symbols timeframe lookback_days)
    ## failed (fetch_all symbols timeframe lookback_days).
Proof.
  assert (Hlookup : ∀ symbol,
            fetch_all symbols timeframe lookback_days !! symbol
            = if bool_decide (symbol ∈ symbols)
              then Some (frame_or_empty (fetch symbol timeframe lookback_days))
              else None).
  { intros symbol. unfold fetch_multiple_assets.
    by rewrite (fetch_all_lookup timeframe lookback_days symbols ∅ symbol), lookup_empty. }
  assert (Hdom : dom (fetch_all symbols timeframe lookback_days) = list_to_set symbols);
    [|split; [exact Hdom|split; [|split; [|split]]]].
  - apply set_eq. intros symbol. rewrite elem_of_dom, Hlookup, elem_of_list_to_set.
    destruct (decide (symbol ∈ symbols)) as [Hin|Hnotin].
    + rewrite bool_decide_eq_true_2 by done. split; [done|by eexists].
    + rewrite bool_decide_eq_false_2 by done. split; [by intros [? ?]|done].
  - intros symbol Hin. by rewrite Hlookup, bool_decide_eq_true_2.
  - intros symbol Hin Hnone. rewrite Hlookup, bool_decide_eq_true_2 by done.
    unfold fetch_ohlcv. by rewrite Hnone.
  - rewrite <- Hdom. unfold loaded, failed. rewrite <- dom_union_L. f_equal.
    rewrite map_union_comm
      by (symmetry; apply (map_disjoint_filter_complement (fun kv : string * DataFrame => kv.2 = []))).
    apply (map_filter_union_complement (fun kv : string * DataFrame => kv.2 = [])).
  - unfold loaded, failed. apply map_disjoint_dom. symmetry.
    apply (map_disjoint_filter_complement (fun kv : string * DataFrame => kv.2 = [])).
Qed.

End MultipleAssetsFacts.

(** ** features.py: the catalogue and the registry *)

Section CatalogueFacts.
Import Engine FeaturesMore.

(** X22.  The catalogue shown to the oracle and the registry used by
    [compute_features] name the same features, in the same order: a feature
    is described exactly when it is registered, and none is described
    twice. *)
Theorem catalogue_matches_registry :
  get_available_features.*1 = FEATURE_REGISTRY
  ∧ NoDup FEATURE_REGISTRY
  ∧ ∀ name, registered name = true ↔ name ∈ get_available_features.*1.
Proof.
  split; [reflexivity|]. split.
  - apply (bool_decide_unpack (NoDup FEATURE_REGISTRY)). vm_compute. exact I.
  - intros name. change (get_available_features.*1) with FEATURE_REGISTRY.
    unfold registered. rewrite existsb_exists. setoid_rewrite <- list_elem_of_In. split.
    + intros (x & Hx & Heq). apply String.eqb_eq in Heq. by subst.
    + intros H. exists name. split; [done|apply String.eqb_refl].
Qed.

End CatalogueFacts.

(** ** memory.py: the features the notes agree on *)

Section ConsensusFacts.
Import Memory MoreStated.

Lemma filter_agree (P1 P2 : string → Prop) `{!∀ x, Decision (P1 x), !∀ x, Decision (P2 x)}
    (l : list string) :
  (∀ x, x ∈ l → P1 x ↔ P2 x) → filter P1 l = filter P2 l.
Proof.
  induction l as [|a l IH]; [done|]. intros Hiff.
  rewrite !filter_cons, IH by (intros x Hx; apply Hiff; by right).
  pose proof (Hiff a ltac:(by left)). by repeat case_decide; try tauto.
Qed.

Lemma occurrences_snoc (f item : string) (l : list string) :
  occurrences f (l ++ [item])
  = (occurrences f l + if bool_decide (f = item) then 1 else 0)%nat.
Proof.
  unfold occurrences. rewrite filter_app, length_app. f_equal.
  rewrite filter_cons, filter_nil. by case_decide; case_bool_decide.
Qed.

Lemma first_occurrences_snoc (item : string) (l : list string) :
  first_occurrences (l ++ [item])
  = if bool_decide (item ∈ l) then first_occurrences l else first_occurrences l ++ [item].
Proof.
  unfold first_occurrences. rewrite reverse_app, reverse_singleton.
  cbn [app remove_dups].
  destruct (decide_rel elem_of item (reverse l)) as [Hin|Hnotin].
  - rewrite bool_decide_eq_true_2; [done|by apply elem_of_reverse].
  - rewrite bool_decide_eq_false_2; [by rewrite reverse_cons|].
    contradict Hnotin. by apply elem_of_reverse.
Qed.

Lemma first_occurrences_NoDup (l : list string) : NoDup (first_occurrences l).
Proof. unfold first_occurrences. rewrite reverse_Permutation. apply NoDup_remove_dups. Qed.

Lemma elem_of_first_occurrences (f : string) (l : list string) : f ∈ first_occurrences l ↔ f ∈ l.
Proof. unfold first_occurrences. by rewrite elem_of_reverse, elem_of_remove_dups, elem_of_reverse. Qed.

Lemma counter_add_keys (counts : list (string * nat)) (item : string) :
  (counter_add counts item).*1
  = if bool_decide (item ∈ counts.*1) then counts.*1 else counts.*1 ++ [item].
Proof.
  induction counts as [|[f count] rest IH]; [done|].
  cbn [counter_add]. destruct (String.eqb_spec f item) as [->|Hne].
  - by rewrite bool_decide_eq_true_2 by (by left).
  - cbn [fmap list_fmap fst]. change (list_fmap _ _ fst ?l) with (l.*1). rewrite IH.
    destruct (decide (item ∈ rest.*1)) as [Hin|Hnotin].
    + rewrite !bool_decide_eq_true_2; [done|by right|done].
    + rewrite !bool_decide_eq_false_2; [done| |done].
      intros Hin. apply elem_of_cons in Hin as [?|?]; [by subst|done].
Qed.

Lemma counter_add_counted (counts : list (string * nat)) (item f : string) :
  counted (counter_add counts item) f
  = (counted counts f + if bool_decide (f = item) then 1 else 0)%nat.
Proof.
  induction counts as [|[g count] rest IH]; cbn [counter_add counted].
  - destruct (String.eqb_spec item f) as [->|Hne].
    + by rewrite bool_decide_eq_true_2.
    + by rewrite bool_decide_eq_false_2.
  - destruct (String.eqb_spec g item) as [->|Hne]; cbn [counted].
    + destruct (String.eqb_spec item f) as [->|Hne'].
      * rewrite bool_decide_eq_true_2 by done. lia.
      * rewrite bool_decide_eq_false_2 by done. lia.
    + destruct (String.eqb_spec g f) as [->|Hne']; [|done].
      rewrite bool_decide_eq_false_2 by done. lia.
Qed.

Lemma Counter_snoc (items : list string) (item : string) :
  Counter (items ++ [item]) = counter_add (Counter items) item.
Proof. unfold Counter. by rewrite foldl_app. Qed.

Lemma Counter_keys (items : list string) : (Counter items).*1 = first_occurrences items.
Proof.
  induction items as [|item items IH] using rev_ind; [done|].
  rewrite Counter_snoc, counter_add_keys, first_occurrences_snoc, IH.
  by rewrite (bool_decide_ext _ _ (elem_of_first_occurrences item items)).
Qed.

Lemma Counter_counted (items : list string) (f : string) :
  counted (Counter items) f = occurrences f items.
Proof.
  induction items as [|item items IH] using rev_ind; [done|].
  by rewrite Counter_snoc, counter_add_counted, occurrences_snoc, IH.
Qed.

Lemma at_least_twice_counted (counts : list (string * nat)) :
  NoDup counts.*1 →
  at_least_twice counts = filter (fun f => 2 ≤ counted counts f)%nat counts.*1.
Proof.
  unfold at_least_twice. induction counts as [|[g count] rest IH]; [done|].
  cbn [fmap list_fmap fst]. change (list_fmap _ _ fst ?l) with (l.*1).
  intros Hnodup. apply NoDup_cons in Hnodup as [Hnotin Hnodup].
  assert (Hrest : filter (fun f => 2 ≤ counted ((g, count) :: rest) f)%nat rest.*1
                  = filter (fun f => 2 ≤ counted rest f)%nat rest.*1).
  { apply filter_agree. intros f Hf. cbn [counted].
    destruct (String.eqb_spec g f) as [->|Hne]; [done|done]. }
  rewrite filter_cons, Hrest, <- IH by done. cbn [List.filter List.map snd fst counted].
  rewrite String.eqb_refl.
  destruct (Nat.leb_spec 2 count); case_decide; try lia; done.
Qed.

(** What "consensus" is: of the items counted, those that occur at least
    twice, in the order in which they first occur. *)
Lemma at_least_twice_Counter (items : list string) :
  at_least_twice (Counter items)
  = filter (fun f => 2 ≤ occurrences f items)%nat (first_occurrences items).
Proof.
  rewrite at_least_twice_counted by (rewrite Counter_keys; apply first_occurrences_NoDup).
  rewrite Counter_keys. apply list_filter_iff. intros f. by rewrite Counter_counted.
Qed.

Lemma occurrences_elem_of (f : string) (l : list string) : (0 < occurrences f l)%nat → f ∈ l.
Proof.
  unfold occurrences. destruct (filter (f =.) l) as [|x rest] eqn:Hfilter; [cbn; lia|].
  intros _. assert (Hx : x ∈ filter (f =.) l) by (rewrite Hfilter; by left).
  apply list_elem_of_filter in Hx as [-> Hx]. done.
Qed.

Lemma repeated_spec (all : list string) :
  NoDup (filter (fun f => 2 ≤ occurrences f all)%nat (first_occurrences all))
  ∧ ∀ f, f ∈ filter (fun f => 2 ≤ occurrences f all)%nat (first_occurrences all)
         ↔ (2 ≤ occurrences f all)%nat.
Proof.
  split; [apply NoDup_filter, first_occurrences_NoDup|].
  intros f. rewrite list_elem_of_filter, elem_of_first_occurrences. split; [by intros [? _]|].
  intros Htwice. split; [done|]. apply occurrences_elem_of. lia.
Qed.

Section NotesFacts.

Variable research_metadatas : result (list (gmap string string)).
Variable json_loads : string -> result (list string).

Lemma extend_all_ok key metadatas all listed :
  Forall2 (fun (meta : gmap string string) l => json_loads (default "[]" (meta !! key)) = Ok l)
    metadatas listed →
  extend_all json_loads key metadatas all = Ok (all ++ concat listed).
Proof.
  intros Hparse. revert all.
  induction Hparse as [|meta l metadatas listed Hl _ IH]; intros all; cbn [extend_all concat].
  - by rewrite app_nil_r.
  - rewrite Hl. cbn. by rewrite IH, app_assoc.
Qed.

Lemma extend_all_raises key metadatas all :
  Exists (fun meta : gmap string string =>
            ∃ e, json_loads (default "[]" (meta !! key)) = Raise e) metadatas →
  ∃ e, extend_all json_loads key metadatas all = Raise e.
Proof.
  intros Hfail. revert all.
  induction metadatas as [|meta metadatas IH]; intros all; [by apply Exists_nil in Hfail|].
  cbn [extend_all]. destruct (json_loads (default "[]" (meta !! key))) as [l|e] eqn:Hl.
  - cbn. apply IH. apply Exists_cons in Hfail as [[e He]|Hfail]; [congruence|done].
  - by exists e.
Qed.

(** X23.  [get_ruled_out_features], when the collection answers and every note's
    list parses: the features returned are those that occur at least twice
    in the concatenation of the notes' lists, each once, in the order of
    their first occurrence.  Two occurrences in one note count as much as
    one occurrence in each of two notes. *)
Theorem ruled_out_features_are_the_repeated_ones (metadatas : list (gmap string string))
    (listed : list (list string)) :
  research_metadatas = Ok metadatas →
  Forall2 (fun (meta : gmap string string) l =>
             json_loads (default "[]" (meta !! "features_ruled_out")) = Ok l) metadatas listed →
  get_ruled_out_features research_metadatas json_loads
    = filter (fun f => 2 ≤ occurrences f (concat listed))%nat (first_occurrences (concat listed))
  ∧ NoDup (get_ruled_out_features research_metadatas json_loads)
  ∧ ∀ f, f ∈ get_ruled_out_features research_metadatas json_loads
         ↔ (2 ≤ occurrences f (concat listed))%nat.
Proof.
  intros Hget Hparse.
  assert (Heq : get_ruled_out_features research_metadatas json_loads
                = filter (fun f => 2 ≤ occurrences f (concat listed))%nat
                    (first_occurrences (concat listed))).
  { unfold get_ruled_out_features. rewrite Hget. cbn.
    rewrite (extend_all_ok _ _ [] _ Hparse). cbn. apply at_least_twice_Counter. }
  rewrite Heq. split; [done|]. apply repeated_spec.
Qed.

(** X24.  [get_ruled_in_features]: the same rule over the notes'
    [features_ruled_in] lists. *)
Theorem ruled_in_features_are_the_repeated_ones (metadatas : list (gmap string string))
    (listed : list (list string)) :
  research_metadatas = Ok metadatas →
  Forall2 (fun (meta : gmap string string) l =>
             json_loads (default "[]" (meta !! "features_ruled_in")) = Ok l) metadatas listed →
  get_ruled_in_features research_metadatas json_loads
    = filter (fun f => 2 ≤ occurrences f (concat listed))%nat (first_occurrences (concat listed))
  ∧ NoDup (get_ruled_in_features research_metadatas json_loads)
  ∧ ∀ f, f ∈ get_ruled_in_features research_metadatas json_loads
         ↔ (2 ≤ occurrences f (concat listed))%nat.
Proof.
  intros Hget Hparse.
  assert (Heq : get_ruled_in_features research_metadatas json_loads
                = filter (fun f => 2 ≤ occurrences f (concat listed))%nat
                    (first_occurrences (concat listed))).
  { unfold get_ruled_in_features. rewrite Hget. cbn.
    rewrite (extend_all_ok _ _ [] _ Hparse). cbn. apply at_least_twice_Counter. }
  rewrite Heq. split; [done|]. apply repeated_spec.
Qed.

(** X25.  Neither query raises, and neither tells a failure from an empty
    answer: when the collection raises, or one note's list does not parse,
    the answer is the empty list, whatever the other notes hold. *)
Theorem consensus_queries_swallow_failures :
  (∀ e, research_metadatas = Raise e →
        get_ruled_out_features research_metadatas json_loads = []
        ∧ get_ruled_in_features research_metadatas json_loads = [])
  ∧ (∀ metadatas, research_metadatas = Ok metadatas →
       (Exists (fun meta : gmap string string =>
                  ∃ e, json_loads (default "[]" (meta !! "features_ruled_out")) = Raise e)
          metadatas →
        get_ruled_out_features research_metadatas json_loads = [])
       ∧ (Exists (fun meta : gmap string string =>
                    ∃ e, json_loads (default "[]" (meta !! "features_ruled_in")) = Raise e)
            metadatas →
          get_ruled_in_features research_metadatas json_loads = [])).
Proof.
  unfold get_ruled_out_features, get_ruled_in_features. split.
  - intros e ->. done.
  - intros metadatas ->. cbn. split; intros Hfail;
      destruct (extend_all_raises _ _ [] Hfail) as [e ->]; done.
Qed.

End NotesFacts.

End ConsensusFacts.

(** ** Instances *)

Section GraphRunWitnesses.
Import Graph Stated Sample MoreSample.

Lemma history_is_append_only_witness :
  ∃ entered n' state',
    graph_run newest_first scripted_llm scripted_tools "" no_context 4 orchestrator
      (state_with promote_turn 1 [] [] (Some true)) = Ok (entered, n', state')
    ∧ [promote_turn] `prefix_of` messages state'
    ∧ length (messages state') = 10%nat.
Proof.
  eexists _, _, _. split; [vm_compute; reflexivity|]. split; [|vm_compute; reflexivity].
  eapply (history_is_append_only newest_first scripted_llm scripted_tools "" no_context 4
            orchestrator
           (state_with promote_turn 1 [] [] (Some true))).
  vm_compute. reflexivity.
Defined.


Lemma run_without_tools_stops_at_ceiling_witness :
  ∃ entered state',
    graph_run newest_first text_llm scripted_tools "" no_context (2 * 9 + 1) orchestrator
      (initial_state "c0" "momentum persists") = Ok (entered, END, state')
    ∧ cycle_count state' = 10
    ∧ orchestrator_entries entered = Z.of_nat 9 + 1
    ∧ length entered = (2 * 9 + 1)%nat.
Proof.
  apply (run_without_tools_stops_at_ceiling newest_first text_llm scripted_tools "" no_context 9
           (initial_state "c0" "momentum persists")).
  - intros msgs. eexists. split; reflexivity.
  - discriminate.
  - reflexivity.
Defined.

Lemma run_with_tools_ends_at_the_recursion_limit_witness :
  run_research_loop newest_first tool_llm scripted_tools "" no_context "c0" "momentum persists"
    = Raise GraphRecursionError
  ∧ ∃ entered state',
      graph_run newest_first tool_llm scripted_tools "" no_context (2 * 12) orchestrator
        (initial_state "c0" "momentum persists") = Ok (entered, orchestrator, state')
      ∧ cycle_count state' = 0 + Z.of_nat 12
      ∧ length entered = (2 * 12)%nat.
Proof.
  destruct (run_with_tools_ends_at_the_recursion_limit newest_first tool_llm scripted_tools ""
              no_context default_recursion_limit (initial_state "c0" "momentum persists"))
    as [Hstream Hrounds].
  - intros msgs. eexists. split; reflexivity.
  - intros s. eexists. reflexivity.
  - split; [unfold run_research_loop; by rewrite Hstream|].
    apply (Hrounds 12%nat). unfold default_recursion_limit. lia.
Defined.

End GraphRunWitnesses.

Section LabelWitnesses.
Import Pandas Engine Stated Sample MoreSample.

Lemma barrier_label_is_local_witness :
  jump_path ≠ flat_path 29 100
  ∧ barrier_label jump_path 0.03 0.06 24 3 = barrier_label (flat_path 29 100) 0.03 0.06 24 3.
Proof.
  split; [intros H; vm_compute in H; discriminate|].
  apply barrier_label_is_local. vm_compute. reflexivity.
Defined.

Lemma barrier_label_compares_positions_witness :
  take_profit_touch spike_path 0.03 3 0 100 = Some 1%nat
  ∧ stop_loss_touch spike_path 0.03 3 0 100 = None
  ∧ barrier_label spike_path 0.03 0.03 3 0 = Ok 0.
Proof.
  split; [vm_compute; reflexivity|]. split; [vm_compute; reflexivity|].
  apply (barrier_label_compares_positions spike_path 0.03 0.03 3 0 100).
  - apply (bool_decide_unpack (StronglySorted Z.lt (index spike_path))). vm_compute. exact I.
  - vm_compute. reflexivity.
  - vm_compute. discriminate.
Defined.

End LabelWitnesses.

Section FrameWitnesses.
Import Pandas Models Engine Stated MoreStated Sample MoreSample DataMore PagingSample.

Lemma compute_features_result_witness :
  ∃ out,
    compute_features warmup_series four_candles ["log_return"; "obv"] = Ok out
    ∧ length out = 3%nat
    ∧ Forall (fun n => registered n = true) ["log_return"; "obv"]
    ∧ frame_index out `sublist_of` frame_index four_candles
    ∧ Forall (fun r => row_complete r = true) out
    ∧ ∃ X, select ["log_return"; "obv"] out = Ok X ∧ index X = frame_index out.
Proof.
  eexists. split; [vm_compute; reflexivity|]. split; [vm_compute; reflexivity|].
  apply (compute_features_result warmup_series four_candles ["log_return"; "obv"]).
  vm_compute. reflexivity.
Defined.

Lemma fetch_ohlcv_without_enrichment_witness :
  ∃ df,
    fetch_ohlcv btc_only_exchange failing_join failing_join "BTC/USDT" "1h" 730 = Ok df
    ∧ df ≠ []
    ∧ frame_index df
      = frame_index (drop_duplicated_keep_last (sort_index (frame_of_candles rising_candles)))
    ∧ StronglySorted Z.lt (frame_index df)
    ∧ Forall (fun r => get_cell "funding_rate" r = Some 0%float
                       ∧ get_cell "open_interest" r = Some 0%float
                       ∧ has_column "close" r) df.
Proof.
  apply (fetch_ohlcv_without_enrichment btc_only_exchange failing_join failing_join
           "BTC/USDT" "1h" 730 rising_candles).
  - vm_compute. reflexivity.
  - intros H. apply (f_equal length) in H. vm_compute in H. discriminate.
  - apply Forall_forall. intros c Hc. apply list_elem_of_In in Hc.
    unfold rising_candles in Hc. apply in_map_iff in Hc as (i & <- & Hi).
    apply in_seq in Hi. unfold in_datetime_range, TIMESTAMP_MS_MAX, hour_ms.
    cbn [c_timestamp]. apply andb_true_intro. split; apply Z.leb_le; lia.
  - intros df. eexists. reflexivity.
  - intros df. eexists. reflexivity.
Defined.

Lemma merge_column_result_witness :
  ∃ merged,
    merge_column "funding_rate" four_candles two_rates = Ok merged
    ∧ List.map (get_cell "funding_rate") merged
      = [Some 0%float; Some 0.0001%float; Some 0.0001%float; Some 0.0003%float]
    ∧ Forall (fun r => ∃ v, get_cell "funding_rate" r = Some v ∧ PrimFloat.is_nan v = false)
        merged
    ∧ frame_index merged = frame_index four_candles.
Proof.
  eexists. split; [vm_compute; reflexivity|]. split; [vm_compute; reflexivity|].
  destruct (merge_column_result "funding_rate" four_candles two_rates _
              ltac:(vm_compute; reflexivity)) as (Hnan & _ & Hindex).
  split; [exact Hnan|]. apply Hindex.
  apply (bool_decide_unpack (NoDup (index two_rates))). vm_compute. exact I.
Defined.

Lemma collect_candles_returns_pages_witness :
  ∃ candles,
    collect_candles two_page_exchange hour_ms 3 0 0 [] = Some (Ok candles)
    ∧ length candles = 1003%nat
    ∧ List.map c_timestamp candles = List.map (fun i => Z.of_nat i * hour_ms) (seq 0 1003).
Proof.
  eexists. split.
  { apply (collect_candles_returns_pages two_page_exchange hour_ms 0 0
             (Ok (hourly_candles 0 limit ++ hourly_candles (1000 * hour_ms) 3)) 3);
      [|lia].
    apply leaves_retry; [reflexivity|].
    apply (leaves_full two_page_exchange hour_ms 1 0 (hourly_candles 0 limit)
             {| c_timestamp := 999 * hour_ms; c_open := 100; c_high := 100; c_low := 100;
                c_close := 100; c_volume := 1 |}
             (Ok (hourly_candles (1000 * hour_ms) 3)) 1).
    - reflexivity.
    - vm_compute. lia.
    - vm_compute. reflexivity.
    - apply leaves_short; [reflexivity|vm_compute; lia]. }
  split; vm_compute; reflexivity.
Defined.

Lemma collect_candles_can_run_for_ever_witness :
  collect_candles busy_exchange hour_ms 5000 0 0 [] = None.
Proof.
  apply (collect_candles_can_run_for_ever busy_exchange hour_ms).
  intros calls since. left. reflexivity.
Defined.

End FrameWitnesses.

Section ConsensusWitnesses.
Import Memory MoreStated MoreSample.

Lemma ruled_out_features_are_the_repeated_ones_witness :
  get_ruled_out_features (Ok sample_notes) sample_loads = ["obv"]
  ∧ NoDup (get_ruled_out_features (Ok sample_notes) sample_loads)
  ∧ ∀ f, f ∈ get_ruled_out_features (Ok sample_notes) sample_loads
         ↔ (2 ≤ occurrences f ["obv"; "obv"; "atr_14"])%nat.
Proof.
  split; [vm_compute; reflexivity|].
  apply (ruled_out_features_are_the_repeated_ones (Ok sample_notes) sample_loads sample_notes
           [["obv"; "obv"]; ["atr_14"]; []]); [reflexivity|].
  repeat constructor.
Defined.

Lemma ruled_in_features_are_the_repeated_ones_witness :
  get_ruled_in_features (Ok sample_notes) sample_loads = ["rsi_7"]
  ∧ NoDup (get_ruled_in_features (Ok sample_notes) sample_loads)
  ∧ ∀ f, f ∈ get_ruled_in_features (Ok sample_notes) sample_loads
         ↔ (2 ≤ occurrences f ["rsi_7"; "bb_width"; "rsi_7"])%nat.
Proof.
  split; [vm_compute; reflexivity|].
  apply (ruled_in_features_are_the_repeated_ones (Ok sample_notes) sample_loads sample_notes
           [["rsi_7"]; ["bb_width"; "rsi_7"]; []]); [reflexivity|].
  repeat constructor.
Defined.

End ConsensusWitnesses.
